(** * Pandora: status aggregation and bounded archive extraction

    A shallow embedding of the task/report status model
    ([pandora/helpers.py], [pandora/task.py]) and of the Extractor worker
    ([pandora/workers/extractor.py]), with the properties of the
    specification stated and settled against it. *)

From Stdlib Require Import ZArith NArith List Bool Lia.
From stdpp Require Import base option list strings gmap pretty sorting.

Import ListNotations.
Local Open Scope Z_scope.
Local Open Scope string_scope.
Local Open Scope list_scope.

(* ===================================================================== *)
(** * Python values and exceptions *)
(* ===================================================================== *)

Module py.

(** The values [make_bool] and the report extras range over:
    [Optional[Union[bool, int, str]]]. *)
Inductive value : Type :=
  | PyNone
  | PyBool (b : bool)
  | PyInt (z : Z)
  | PyStr (s : string).

(** Python's [==] on these values: [bool] is a subclass of [int], so
    [True == 1] and [False == 0]; a string never equals a number; [None]
    only equals itself. *)
Definition eq (a b : value) : bool :=
  match a, b with
  | PyNone, PyNone => true
  | PyBool x, PyBool y => Bool.eqb x y
  | PyBool x, PyInt y => Z.eqb (Z.b2z x) y
  | PyInt x, PyBool y => Z.eqb x (Z.b2z y)
  | PyInt x, PyInt y => Z.eqb x y
  | PyStr x, PyStr y => String.eqb x y
  | _, _ => false
  end.

(** [x in [e1, ..., en]]: some element is identical or equal to [x]. *)
Definition contains (l : list value) (x : value) : bool :=
  existsb (fun e => eq x e) l.

(** The exception classes the Extractor distinguishes in its [except]
    clauses.  [BaseExceptionOnly] stands for the classes that derive from
    [BaseException] but not from [Exception] (KeyboardInterrupt,
    SystemExit, GeneratorExit). *)
Inductive exn_class : Type :=
  | RuntimeError
  | PandoraException
  | OtherException
  | BaseExceptionOnly.

Record exn : Type := Exn { exn_cls : exn_class; exn_msg : string }.

(** [AttributeError], a subclass of [Exception]: what reading an
    attribute that an object or a class does not have raises. *)
Definition AttributeError (msg : string) : exn := Exn OtherException msg.

(** [except RuntimeError] *)
Definition is_RuntimeError (e : exn) : bool :=
  match exn_cls e with RuntimeError => true | _ => false end.

(** [except Exception] *)
Definition is_Exception (e : exn) : bool :=
  match exn_cls e with BaseExceptionOnly => false | _ => true end.

(** The result of a call that may raise. *)
Inductive res (A : Type) : Type :=
  | Ok (a : A)
  | Raise (e : exn).
Arguments Ok {A} a.
Arguments Raise {A} e.

End py.

(* ===================================================================== *)
(** * pandora/helpers.py *)
(* ===================================================================== *)

Module helpers.

(** [class Status(IntEnum)]: fourteen members, declared in this order. *)
Inductive Status : Type :=
  | WAITING
  | RUNNING
  | DELETED
  | NOTAPPLICABLE
  | MANUAL
  | UNKNOWN
  | DEACTIVATE
  | DISABLED
  | ERROR
  | OKAY
  | CLEAN
  | WARN
  | ALERT
  | OVERWRITE.

(** [auto()] numbers the members from 1 in declaration order. *)
Definition value (s : Status) : Z :=
  match s with
  | WAITING => 1
  | RUNNING => 2
  | DELETED => 3
  | NOTAPPLICABLE => 4
  | MANUAL => 5
  | UNKNOWN => 6
  | DEACTIVATE => 7
  | DISABLED => 8
  | ERROR => 9
  | OKAY => 10
  | CLEAN => 11
  | WARN => 12
  | ALERT => 13
  | OVERWRITE => 14
  end.

Definition members : list Status :=
  [WAITING; RUNNING; DELETED; NOTAPPLICABLE; MANUAL; UNKNOWN; DEACTIVATE;
   DISABLED; ERROR; OKAY; CLEAN; WARN; ALERT; OVERWRITE].

Definition name (s : Status) : string :=
  match s with
  | WAITING => "WAITING"
  | RUNNING => "RUNNING"
  | DELETED => "DELETED"
  | NOTAPPLICABLE => "NOTAPPLICABLE"
  | MANUAL => "MANUAL"
  | UNKNOWN => "UNKNOWN"
  | DEACTIVATE => "DEACTIVATE"
  | DISABLED => "DISABLED"
  | ERROR => "ERROR"
  | OKAY => "OKAY"
  | CLEAN => "CLEAN"
  | WARN => "WARN"
  | ALERT => "ALERT"
  | OVERWRITE => "OVERWRITE"
  end.

(** [Status[key]]: the member of that name, [None] for a [KeyError]. *)
Definition by_name (key : string) : option Status :=
  find (fun s => String.eqb (name s) key) members.

(** [Status.<key>], read on the class: the member of that name, and an
    [AttributeError] when the enumeration has none. *)
Definition member (key : string) : py.res Status :=
  match by_name key with
  | Some s => py.Ok s
  | None => py.Raise (py.AttributeError key)
  end.

(** An [IntEnum] compares as its integer value. *)
Definition eqb (a b : Status) : bool := Z.eqb (value a) (value b).
Definition ltb (a b : Status) : bool := Z.ltb (value a) (value b).
Definition leb (a b : Status) : bool := Z.leb (value a) (value b).
Definition lt (a b : Status) : Prop := value a < value b.
Definition le (a b : Status) : Prop := value a <= value b.

(** [max(a, b)] on statuses; Python keeps the first of two equal values. *)
Definition max2 (a b : Status) : Status := if ltb a b then b else a.

(** [max(iterable)] of a non-empty iterable, given as head and tail. *)
Definition max_of (a : Status) (l : list Status) : Status := fold_left max2 l a.

(** [s in [s1, ..., sn]] for statuses. *)
Definition in_list (s : Status) (l : list Status) : bool :=
  existsb (eqb s) l.

(** [make_bool], lines 118-121. *)
Definition make_bool (v : py.value) : bool :=
  if py.contains [py.PyBool true; py.PyInt 1; py.PyStr "1"] v then true
  else false.

(** [make_bool_for_redis], lines 124-127: [value is True] holds for the
    singleton [True] only. *)
Definition make_bool_for_redis (v : py.value) : Z :=
  match v with
  | py.PyBool true => 1
  | _ => 0
  end.

(** ** [expire_in_sec], lines 130-148 *)

(** A [string] holds code points below 256, so this embedding covers
    [expire_in_sec] on such text only; among these code points [\d]
    matches the ten ASCII digits and nothing else. *)
Definition is_digit (c : Ascii.ascii) : bool :=
  (48 <=? Ascii.N_of_ascii c)%N && (Ascii.N_of_ascii c <=? 57)%N.

(** The longest prefix of digits, and what follows it. *)
Fixpoint span_digits (s : string) : string * string :=
  match s with
  | EmptyString => (EmptyString, EmptyString)
  | String c s' =>
      if is_digit c then
        (String c (fst (span_digits s')), snd (span_digits s'))
      else (EmptyString, s)
  end.

Definition time_units : list string := [EmptyString; "s"; "m"; "h"; "d"].

(** [re.fullmatch(r"(\d+)([smhd]?)", s)]: groups 1 and 2 of the match. *)
Definition fullmatch_time (s : string) : option (string * string) :=
  let digits := fst (span_digits s) in
  let rest := snd (span_digits s) in
  if String.eqb digits EmptyString then None
  else if existsb (String.eqb rest) time_units then Some (digits, rest)
  else None.

(** [int(digits)] for a string of digits. *)
Fixpoint int_of_digits_from (s : string) (acc : N) : N :=
  match s with
  | EmptyString => acc
  | String c s' =>
      int_of_digits_from s' (acc * 10 + (Ascii.N_of_ascii c - 48))%N
  end.

Definition int_of_digits (s : string) : N := int_of_digits_from s 0%N.

(** The largest number of whole seconds a [timedelta] holds:
    999999999 days, 23 hours, 59 minutes and 59 seconds. *)
Definition timedelta_max_seconds : N := 86399999999999%N.

(** [int(timedelta(unit=n).total_seconds())] for a unit of [unit_seconds]
    seconds; building the [timedelta] (or, for a number of thousands of
    digits, [int] before it) raises when the duration does not fit. *)
Definition timedelta_seconds (unit_seconds n : N) : py.res Z :=
  if (n * unit_seconds <=? timedelta_max_seconds)%N then
    py.Ok (Z.of_N (n * unit_seconds))
  else py.Raise (py.Exn py.OtherException "OverflowError").

(** [bool(v)] *)
Definition truthy (v : py.value) : bool :=
  match v with
  | py.PyNone => false
  | py.PyBool b => b
  | py.PyInt z => negb (Z.eqb z 0)
  | py.PyStr s => negb (String.eqb s EmptyString)
  end.

(** [str(v)] *)
Definition str (v : py.value) : string :=
  match v with
  | py.PyNone => "None"
  | py.PyBool true => "True"
  | py.PyBool false => "False"
  | py.PyInt z => pretty z
  | py.PyStr s => s
  end.

Definition expire_in_sec (time : py.value) : py.res Z :=
  if negb (truthy time) then py.Ok 0
  else
    match fullmatch_time (str time) with
    | None =>
        py.Raise (py.Exn py.OtherException
                    ("impossible to parse cache '" +:+ str time +:+ "'"))
    | Some (digits, unit) =>
        if negb (truthy (py.PyStr unit)) || String.eqb unit "s" then
          timedelta_seconds 1 (int_of_digits digits)
        else if String.eqb unit "m" then
          timedelta_seconds 60 (int_of_digits digits)
        else if String.eqb unit "h" then
          timedelta_seconds 3600 (int_of_digits digits)
        else if String.eqb unit "d" then
          timedelta_seconds 86400 (int_of_digits digits)
        else py.Ok 0
    end.

(** ** [workers], lines 72-115 *)

(** A configuration file as [yaml.safe_load] returns it: a mapping whose
    keys ["meta"] and ["settings"], when present, hold mappings. *)
Record Config : Type := mkConfig {
  meta : option (gmap string py.value);
  settings : option (gmap string py.value)
}.

(** One file met by [workers_dir.glob("*.yml")]: its name, its stem, its
    content, and the content of the file at its path followed by
    [".sample"], [None] when that path does not exist. *)
Record ConfigFile : Type := mkConfigFile {
  file_name : string;
  file_stem : string;
  module_config : Config;
  sample_config : option Config
}.

(** An entry of the result: [{"meta": ..., "settings": ...}]. *)
Record WorkerConfig : Type := mkWorkerConfig {
  worker_meta : gmap string py.value;
  worker_settings : gmap string py.value
}.

(** [config[key]]: a [KeyError] when the key is absent. *)
Definition getitem (section : option (gmap string py.value)) (key : string)
  : py.res (gmap string py.value) :=
  match section with
  | Some m => py.Ok m
  | None => py.Raise (py.Exn py.OtherException ("KeyError: '" +:+ key +:+ "'"))
  end.

(** [d.update(other)] when [key in config]: the keys of [other] win. *)
Definition update_from (section : option (gmap string py.value))
    (d : gmap string py.value) : gmap string py.value :=
  match section with
  | Some other => other ∪ d
  | None => d
  end.

(** Lines 86-114: the loop over the configuration files. *)
Fixpoint load_configs (default_config : Config) (files : list ConfigFile)
    (all_configs : gmap string WorkerConfig)
  : py.res (gmap string WorkerConfig) :=
  match files with
  | [] => py.Ok all_configs
  | configfile :: rest =>
      if String.eqb (file_name configfile) "base.yml" then
        load_configs default_config rest all_configs
      else
        let module_config_sample :=
          match sample_config configfile with
          | Some c => c
          | None => mkConfig None None
          end in
        match getitem (meta default_config) "meta" with
        | py.Raise e => py.Raise e
        | py.Ok default_meta =>
        match getitem (meta module_config_sample) "meta" with
        | py.Raise e => py.Raise e
        | py.Ok sample_meta =>
        match getitem (meta (module_config configfile)) "meta" with
        | py.Raise e => py.Raise e
        | py.Ok module_meta =>
        match getitem (settings default_config) "settings" with
        | py.Raise e => py.Raise e
        | py.Ok default_settings =>
            load_configs default_config rest
              (<[file_stem configfile :=
                   mkWorkerConfig
                     (module_meta ∪ (sample_meta ∪ default_meta))
                     (update_from (settings (module_config configfile))
                        (update_from (settings module_config_sample)
                           default_settings))]> all_configs)
        end end end end
  end.

(** The order of [sorted] on the names. *)
Definition name_le (a b : string * WorkerConfig) : Prop :=
  String.leb (fst a) (fst b) = true.

Global Instance name_le_dec (a b : string * WorkerConfig) :
  Decision (name_le a b).
Proof. unfold name_le. apply _. Defined.

(** [workers()]: [default_config] is the content of [base.yml] (or of
    [base.yml.sample]); the result is a dict, given in its order. *)
Definition workers (default_config : Config) (files : list ConfigFile)
  : py.res (list (string * WorkerConfig)) :=
  match load_configs default_config files ∅ with
  | py.Raise e => py.Raise e
  | py.Ok all_configs => py.Ok (merge_sort name_le (map_to_list all_configs))
  end.

End helpers.

(* ===================================================================== *)
(** * pandora/report.py *)
(* ===================================================================== *)

Module report.
Import helpers.

(** Modelled from the spec: the Report class ([pandora/report.py]) is not
    among the sources.  The spec gives a report an identity (task id,
    worker name), a status, an ordered append-only sequence of (label,
    value) details, a clearable key-to-value map of extras and a
    started/finished flag. *)
Record Report : Type := mkReport {
  task_uuid : string;
  worker_name : string;
  status : Status;
  is_done : bool;
  details : list (string * string);
  extras : gmap string py.value
}.

(** Modelled from the spec: [Report(task_uuid, worker_name)], the report
    of a worker that has not started: WAITING and not finished. *)
Definition new (tid wname : string) : Report :=
  mkReport tid wname WAITING false [] ∅.

(** [report.status = s] *)
Definition set_status (s : Status) (r : Report) : Report :=
  mkReport (task_uuid r) (worker_name r) s (is_done r) (details r) (extras r).

(** Modelled from the spec: [add_details] appends one (label, value) pair. *)
Definition add_details (label val : string) (r : Report) : Report :=
  mkReport (task_uuid r) (worker_name r) (status r) (is_done r)
           (details r ++ [(label, val)]) (extras r).

(** Modelled from the spec: [add_extra] binds one key of the extras. *)
Definition add_extra (key : string) (v : py.value) (r : Report) : Report :=
  mkReport (task_uuid r) (worker_name r) (status r) (is_done r)
           (details r) (<[key := v]> (extras r)).

(** Modelled from the spec: [clear_extras] and [clear_details]. *)
Definition clear_extras (r : Report) : Report :=
  mkReport (task_uuid r) (worker_name r) (status r) (is_done r) (details r) ∅.

Definition clear_details (r : Report) : Report :=
  mkReport (task_uuid r) (worker_name r) (status r) (is_done r) [] (extras r).

End report.

(* ===================================================================== *)
(** * pandora/file.py *)
(* ===================================================================== *)

Module file.

Definition bytes : Type := list Byte.byte.

(** A [pathlib.Path], through the attributes the Extractor reads. *)
Record Path : Type := mkPath {
  parent : string;
  name : string;
  stem : string;
  suffix : string
}.

(** What lies between the slashes of a string. *)
Fixpoint split_slash (s cur : string) : list string :=
  match s with
  | EmptyString => [cur]
  | String c s' =>
      if Ascii.eqb c (Ascii.ascii_of_nat 47) then cur :: split_slash s' EmptyString
      else split_slash s' (cur +:+ String c EmptyString)
  end.

(** The components of a path as [pathlib] keeps them: the empty
    components and [.] are dropped. *)
Definition path_parts (s : string) : list string :=
  List.filter (fun part => negb (String.eqb part EmptyString || String.eqb part "."))
              (split_slash s EmptyString).

(** The root of an absolute path: two leading slashes are kept, one or
    three and more make one. *)
Definition path_root (s : string) : string :=
  if String.prefix "//" s && negb (String.prefix "///" s) then "//" else "/".

(** One more component after the path [acc]. *)
Definition add_part (acc part : string) : string :=
  if String.eqb acc "/" || String.eqb acc "//" then acc +:+ part
  else if String.eqb acc "." then part
  else acc +:+ "/" +:+ part.

(** [dir / nm], as a string, for [dir] the string of a [Path]: an
    absolute [nm] replaces [dir], a relative one adds its components. *)
Definition joinpath (dir nm : string) : string :=
  if String.prefix "/" nm
  then fold_left add_part (path_parts nm) (path_root nm)
  else fold_left add_part (path_parts nm) dir.

(** One attachment of a parsed e-mail: the decoded [attachment['raw']]
    with [attachment['filename']], or the exception that reading it
    raises. *)
Definition eml_attachment : Type := py.res (bytes * string).

(** [eml_data]: the parsed message; [attachment] is the list under the
    key ['attachment'], [None] when the key is absent. *)
Record EmlData : Type := mkEml {
  attachment : option (list eml_attachment)
}.

(** One entry that [msg_data.save] left in the extraction directory. *)
Record MsgEntry : Type := mkMsgEntry {
  entry_name : string;
  entry_is_file : bool;
  entry_content : py.res bytes
}.

(** [msg_data]: [saved] is what [save(customPath, attachmentsOnly=True)]
    followed by [glob('**/*')] yields, or the exception raised. *)
Record MsgData : Type := mkMsg {
  saved : py.res (list MsgEntry)
}.

Record File : Type := mkFile {
  path : Path;
  uuid : string;
  original_filename : string;
  deleted : bool;
  mime_type : string;
  type : string;
  eml_data : py.res (option EmlData);
  msg_data : py.res (option MsgData)
}.

(** [File.directory], lines 223-225. *)
Definition directory (f : File) : string := parent (path f).

(** [is_archive], [is_eml], [is_msg], lines 522-560. *)
Definition is_archive (f : File) : bool := String.eqb (type f) "ARC".
Definition is_eml (f : File) : bool := String.eqb (type f) "EML".
Definition is_msg (f : File) : bool := String.eqb (type f) "MSG".

(** [File.__init__], lines 161-166: the deletion flag comes through
    [make_bool] and is forced when the path does not exist. *)
Definition init_deleted (deleted_arg : py.value) (path_exists : bool) : bool :=
  if negb path_exists then true else helpers.make_bool deleted_arg.

(** [to_dict], line 247: the flag as stored. *)
Definition to_dict_deleted (f : File) : Z :=
  helpers.make_bool_for_redis (py.PyBool (deleted f)).

(** ** The type tables and the [type] property *)

(** [MIME_TYPE_EQUAL], lines 29-65: mime type to (type, extension). *)
Definition MIME_TYPE_EQUAL : list (string * (string * string)) :=
  [("application/zip", ("ARC", "zip"));
   ("application/java-archive", ("ARC", "jar"));
   ("application/x-7z-compressed", ("ARC", "7z"));
   ("text/css", ("CSS", "css"));
   ("text/csv", ("CSV", "csv"));
   ("application/msword", ("DOC", "doc"));
   ("application/vnd.oasis.opendocument.text", ("DOC", "odt"));
   ("application/vnd.openxmlformats-officedocument.wordprocessingml.document",
    ("DOC", "docx"));
   ("message/rfc822", ("EML", "eml"));
   ("text/html", ("HTM", "html"));
   ("application/xhtml+xml", ("HTM", "html"));
   ("image/bmp", ("IMG", "bmp"));
   ("image/gif", ("IMG", "gif"));
   ("image/x-icon", ("IMG", "ico"));
   ("image/jpeg", ("IMG", "jpg"));
   ("image/png", ("IMG", "png"));
   ("image/svg+xml", ("IMG", "svg"));
   ("image/tiff", ("IMG", "tiff"));
   ("image/webp", ("IMG", "webp"));
   ("application/vnd.ms-outlook", ("MSG", "msg"));
   ("application/pdf", ("PDF", "pdf"));
   ("application/vnd.oasis.opendocument.presentation", ("PPT", "ppt"));
   ("application/vnd.ms-powerpoint", ("PPT", "ppt"));
   ("application/vnd.openxmlformats-officedocument.presentationml.presentation",
    ("PPT", "pptx"));
   ("application/mspowerpoint", ("PPT", "ppt"));
   ("application/powerpoint", ("PPT", "ppt"));
   ("application/x-mspowerpoint", ("PPT", "ppt"));
   ("text/rtf", ("RTF", "rtf"));
   ("application/x-javascript", ("JSC", "js"));
   ("application/javascript", ("JSC", "js"));
   ("text/javascript", ("JSC", "js"));
   ("text/plain", ("TXT", "txt"));
   ("application/vnd.ms-excel", ("XLS", "xls"));
   ("application/vnd.oasis.opendocument.spreadsheet", ("XLS", "xls"));
   ("application/vnd.openxmlformats-officedocument.spreadsheetml.sheet",
    ("XLS", "xlsx"))].

(** [TYPE_EXTENSIONS], lines 67-85, in the order of the dict. *)
Definition TYPE_EXTENSIONS : list (string * list string) :=
  [("ARC", [".zip"; ".tar"; ".gz"; ".bz2"; ".bz"; ".rar"; ".7z"]);
   ("BIN", [".bin"; ".iso"]);
   ("CSS", [".css"]);
   ("CSV", [".csv"]);
   ("DOC", [".doc"; ".docx"; ".odt"]);
   ("EML", [".eml"]);
   ("EXE", [".exe"; ".dll"]);
   ("HTM", [".html"; ".html"; ".xht"; ".xhtml"]);
   ("IMG", [".png"; ".gif"; ".bmp"; ".jpg"; ".jpeg"; ".ico"]);
   ("JSC", [".js"]);
   ("MSG", [".msg"]);
   ("PDF", [".pdf"]);
   ("PPT", [".ppt"; ".pptx"]);
   ("RTF", [".rtf"]);
   ("SCR", [".vb"; ".vbs"; ".php"; ".ps1"]);
   ("TXT", [".txt"]);
   ("XLS", [".xls"; ".xlsx"; ".ods"])].

(** [TYPE_ICONS], lines 86-104. *)
Definition TYPE_ICONS : list (string * string) :=
  [("ARC", "file-zip"); ("BIN", "binary"); ("CSS", "file-css");
   ("CSV", "file-excel"); ("DOC", "file-word"); ("EML", "email");
   ("EXE", "file-exe"); ("HTM", "file-html5"); ("IMG", "file-jpg");
   ("JSC", "file-javascript"); ("MSG", "email"); ("PDF", "file-pdf");
   ("PPT", "file-powerpoint"); ("RTF", "file-document"); ("SCR", "file-code");
   ("TXT", "file-text"); ("XLS", "file-excel")].

(** [TYPE_INFO], lines 105-123. *)
Definition TYPE_INFO : list (string * string) :=
  [("ARC", "Archive file"); ("BIN", "Binary file");
   ("CSS", "Cascading Style Sheet"); ("CSV", "MS Excel document");
   ("DOC", "MS Word document"); ("EML", "Message file");
   ("EXE", "Executable file"); ("HTM", "HTML file"); ("IMG", "Image file");
   ("JSC", "JavaScript file"); ("MSG", "Microsoft Outlook message");
   ("PDF", "PDF file"); ("PPT", "MS PowerPoint document");
   ("RTF", "Rich Text Format document"); ("SCR", "Script file");
   ("TXT", "Text file"); ("XLS", "MS Excel document")].

(** [d.get(key)] on a dict given as its items. *)
Definition get {V : Type} (d : list (string * V)) (key : string) : option V :=
  option_map snd (find (fun kv => String.eqb (fst kv) key) d).

(** The [type] property, lines 327-349, as a function of
    [os.path.splitext(self.path)[1]], of the mime type and of
    [self.path.suffix]. *)
Definition type_of (extension mime suffix_ : string) : string :=
  if String.eqb extension ".eml" then "EML"
  else
    match get MIME_TYPE_EQUAL mime with
    | Some entry => fst entry
    | None =>
        match find (fun te => existsb (String.eqb suffix_) (snd te))
                   TYPE_EXTENSIONS with
        | Some te => fst te
        | None => "BIN"
        end
    end.

(** The [icon] and [info] properties, lines 490-504, of a type. *)
Definition icon (ty : string) : option string := get TYPE_ICONS ty.
Definition info (ty : string) : option string := get TYPE_INFO ty.

(** ** [File.__init__], lines 168-184: the stored hashes and size *)

Record Hashes : Type := mkHashes {
  _md5 : py.value;
  _sha1 : py.value;
  _sha256 : py.value;
  _size : Z
}.

Definition hashes_missing (md5 sha1 sha256 : py.value) : string :=
  "The hashes should have been initialized. md5: " +:+ helpers.str md5
    +:+ ", sha1: " +:+ helpers.str sha1 +:+ ", sha256: " +:+ helpers.str sha256.

Definition size_missing (size : py.value) : string :=
  "The size " +:+ helpers.str size +:+ " should have been initialized.".

(** [int(size)]; [int_of_str] is [int] on strings. *)
Definition int (int_of_str : string -> py.res Z) (v : py.value) : py.res Z :=
  match v with
  | py.PyNone =>
      py.Raise (py.Exn py.OtherException
                  "int() argument must be a string, a bytes-like object or a real number, not 'NoneType'")
  | py.PyBool b => py.Ok (Z.b2z b)
  | py.PyInt z => py.Ok z
  | py.PyStr s => int_of_str s
  end.

Definition init_hashes (int_of_str : string -> py.res Z) (path_exists : bool)
    (md5 sha1 sha256 size deleted : py.value) : py.res Hashes :=
  if init_deleted deleted path_exists then
    if negb (helpers.truthy md5) || negb (helpers.truthy sha1)
       || negb (helpers.truthy sha256)
    then py.Raise (py.Exn py.OtherException (hashes_missing md5 sha1 sha256))
    else if negb (helpers.truthy size)
    then py.Raise (py.Exn py.OtherException (size_missing size))
    else
      match int int_of_str size with
      | py.Ok n => py.Ok (mkHashes md5 sha1 sha256 n)
      | py.Raise e => py.Raise e
      end
  else py.Ok (mkHashes py.PyNone py.PyNone py.PyNone 0).

End file.

(* ===================================================================== *)
(** * pandora/task.py *)
(* ===================================================================== *)

Module task.
Import helpers.

(** The attributes that [Task.__init__] sets.  [user] is [None] when the
    attribute is not set: lines 66-71 set it only from a true [user]
    argument or from a stored [user_id]. *)
Record Task : Type := mkTask {
  uuid : string;
  file : file.File;
  user : option string;
  parent : option string;
  origin : option string;
  _status : Status;
  done : bool;
  disabled_workers : list string
}.

(** [task.password]: [Task.__init__] sets no attribute of that name and
    the class has none. *)
Definition password (t : Task) : py.res (option string) :=
  py.Raise (py.AttributeError "'Task' object has no attribute 'password'").

(** What a task reads from outside itself: the configured worker names
    ([helpers.workers()], a dict built in sorted name order) and the
    stored reports ([Storage().get_report]), keyed by task and worker. *)
Record Env : Type := mkEnv {
  workers : list string;
  storage : gmap (string * string) report.Report
}.

(** [d[k] = v] on an insertion-ordered dict: an existing key keeps its
    position, a new key goes last. *)
Fixpoint dict_set {V : Type} (d : list (string * V)) (k : string) (v : V)
  : list (string * V) :=
  match d with
  | [] => [(k, v)]
  | (k', v') :: d' =>
      if String.eqb k k' then (k, v) :: d' else (k', v') :: dict_set d' k v
  end.

Definition set__status (s : Status) (t : Task) : Task :=
  mkTask (uuid t) (file t) (user t) (parent t) (origin t) s
         (done t) (disabled_workers t).

(** The [reports] property, lines 107-119. *)
Definition reports (env : Env) (t : Task) : list (string * report.Report) :=
  fold_left
    (fun to_return worker_name =>
       if existsb (String.eqb worker_name) (disabled_workers t) then to_return
       else
         let rep :=
           match storage env !! (uuid t, worker_name) with
           | Some stored_report => stored_report
           | None => report.new (uuid t) worker_name
           end in
         dict_set to_return worker_name rep)
    (workers env) [].

(** The [workers_done] property, lines 121-126. *)
Fixpoint all_done (rs : list (string * report.Report)) : bool :=
  match rs with
  | [] => true
  | (_, rep) :: rs' => if negb (report.is_done rep) then false else all_done rs'
  end.

Definition workers_done (env : Env) (t : Task) : bool :=
  all_done (reports env t).

(** [[Status.DELETED, ..., Status.SUCCESS]], line 137: the members are
    looked up in order and the first name without a member raises. *)
Fixpoint status_list (names : list string) : py.res (list Status) :=
  match names with
  | [] => py.Ok []
  | n :: rest =>
      match member n with
      | py.Raise e => py.Raise e
      | py.Ok s =>
          match status_list rest with
          | py.Raise e => py.Raise e
          | py.Ok l => py.Ok (s :: l)
          end
      end
  end.

(** The loop of lines 142-147: the status of the first report that is
    not [Status.SUCCESS], else [Status.SUCCESS]. *)
Fixpoint first_not_success (rs : list (string * report.Report))
  : py.res Status :=
  match rs with
  | [] => member "SUCCESS"
  | (_, rep) :: rs' =>
      match member "SUCCESS" with
      | py.Raise e => py.Raise e
      | py.Ok success =>
          if negb (eqb (report.status rep) success) then py.Ok (report.status rep)
          else first_not_success rs'
      end
  end.

(** The [status] getter, lines 135-151: what the read returns, or the
    exception it raises, and the task with its [_status] field as the
    read leaves it. *)
Definition status (env : Env) (t : Task) : py.res Status * Task :=
  match status_list ["DELETED"; "ERROR"; "ALERT"; "WARN"; "SUCCESS"] with
  | py.Raise e => (py.Raise e, t)
  | py.Ok finals =>
      if in_list (_status t) finals then (py.Ok (_status t), t)
      else if workers_done env t then
        match first_not_success (reports env t) with
        | py.Ok s => (py.Ok s, set__status s t)
        | py.Raise e => (py.Raise e, t)
        end
      else (py.Ok WAITING, set__status WAITING t)
  end.

(** The [status] setter, lines 153-155. *)
Definition status_setter (t : Task) (s : Status) : Task := set__status s t.

(** The [status] argument of [__init__]: a member, a member name, or
  anything else. *)
Inductive status_arg : Type :=
| ArgStatus (s : Status)
| ArgStr (key : string)
| ArgOther.

(** [Task.__init__], lines 73-89, for a task given its file. *)
Definition init (tid : string) (submitted_file : file.File)
  (usr prnt orig : option string) (st : status_arg) (dn : bool)
  (disabled : list string) : py.res Task :=
let mk s :=
  let t := mkTask tid submitted_file usr prnt orig s dn disabled in
  if file.deleted submitted_file then status_setter t DELETED else t in
match st with
| ArgStatus s => py.Ok (mk s)
| ArgStr key =>
    match by_name key with
    | Some s => py.Ok (mk s)
    | None => py.Raise (py.Exn py.OtherException key)
    end
| ArgOther => py.Ok (mk WAITING)
end.

(** The [workers_status] property, lines 128-133. *)
Definition workers_status (env : Env) (t : Task) : list (string * bool) :=
  fold_left
    (fun to_return wr => dict_set to_return (fst wr) (report.is_done (snd wr)))
    (reports env t) [].

End task.

(* ===================================================================== *)
(** * pandora/workers/extractor.py *)
(* ===================================================================== *)

(** The handlers are embedded over the archive libraries, whose answers
    for a file are parameters ([Platform]).  Calls of [self.logger] are
    left out: they change neither the report nor what is returned. *)

Module extractor.
Import helpers py.

(** ** The world a format handler acts on *)

(** What a handler can reach: the report handed to [analyse] (mutated in
    place), the regular files of the extraction directory, and
    [self._passwords]. *)
Record World : Type := mkWorld {
  report : report.Report;
  disk : gmap string file.bytes;
  passwords : list string
}.

Definition with_report (f : report.Report -> report.Report) (w : World) : World :=
  mkWorld (f (report w)) (disk w) (passwords w).

Definition with_disk (f : gmap string file.bytes -> gmap string file.bytes)
    (w : World) : World :=
  mkWorld (report w) (f (disk w)) (passwords w).

Definition with_passwords (p : list string) (w : World) : World :=
  mkWorld (report w) (disk w) p.

(** ** Computations that change a state and may raise *)

Definition M (S A : Type) : Type := S -> res A * S.

Definition ret {S A : Type} (a : A) : M S A := fun s => (Ok a, s).

Definition raise {S A : Type} (e : exn) : M S A := fun s => (Raise e, s).

Definition bind {S A B : Type} (m : M S A) (k : A -> M S B) : M S B :=
  fun s =>
    match m s with
    | (Ok a, s') => k a s'
    | (Raise e, s') => (Raise e, s')
    end.

(** A library call: it raises or yields a value, the state unchanged. *)
Definition lift {S A : Type} (r : res A) : M S A := fun s => (r, s).

Definition update {S : Type} (f : S -> S) : M S unit := fun s => (Ok tt, f s).

Definition get {S : Type} : M S S := fun s => (Ok s, s).

Notation "'let*' x := c1 'in' c2" := (bind c1 (fun x => c2))
  (at level 10, x pattern, c1 at level 100, c2 at level 200).

Notation "c1 ;;; c2" := (bind c1 (fun _ => c2))
  (at level 100, c2 at level 200, right associativity).

(** [report.status = s], [report.add_details(...)], [report.add_extra(...)],
    [report.clear_extras()], [report.clear_details()] *)
Definition set_status (s : Status) : M World unit :=
  update (with_report (report.set_status s)).
Definition add_details (label val : string) : M World unit :=
  update (with_report (report.add_details label val)).
Definition add_extra (key : string) (v : value) : M World unit :=
  update (with_report (report.add_extra key v)).
Definition clear_extras : M World unit := update (with_report report.clear_extras).
Definition clear_details : M World unit := update (with_report report.clear_details).

(** [with p.open('wb') as f: f.write(data)] *)
Definition write_file (p : string) (data : file.bytes) : M World unit :=
  update (with_disk (insert p data)).

(** ** Configuration: the attributes of [self] *)

Record Extractor : Type := mkExtractor {
  max_files_in_archive : N;
  max_extracted_filesize_in_mb : N;
  max_is_error : bool;
  zip_passwords : list string
}.

(** [__init__], line 63. *)
Definition max_extracted_filesize (self : Extractor) : N :=
  (max_extracted_filesize_in_mb self * 1000000)%N.

(** [Status.ERROR if self.max_is_error else Status.ALERT] *)
Definition overflow_status (self : Extractor) : Status :=
  if max_is_error self then ERROR else ALERT.

(** [len(x)] as a Python integer. *)
Definition len {A : Type} (l : list A) : N := N.of_nat (length l).

(** ** What the archive libraries show of a file *)

(** A decompressed stream ([BZ2File], [GzipFile], [LZMAFile]): the bytes
    that decompress, then a clean end of file ([failure] is [None]) or
    the exception the decompressor raises on reaching that point. *)
Record Stream : Type := mkStream {
  content : file.bytes;
  failure : option exn
}.

(** [stream.read(size)] for a non-negative [size]: up to [size] bytes;
    fewer only at the end of the stream. *)
Definition stream_read (s : Stream) (size : N) : res file.bytes :=
  if (size <=? len (content s))%N then Ok (firstn (N.to_nat size) (content s))
  else match failure s with
       | None => Ok (content s)
       | Some e => Raise e
       end.

(** A [ZipInfo]. *)
Record ZipInfo : Type := mkZipInfo {
  filename : string;
  flag_bits : Z;
  file_size : N;
  is_dir : bool
}.

(** An opened zip archive: its [infolist()], the outcome of
    [read(info, pwd=...)] (the data read is discarded by the caller), and
    the outcome of [extract(info, dest_dir)] under the password last given
    to [setpassword]: the path written and its content. *)
Record ZipArchive : Type := mkZipArchive {
  infolist : list ZipInfo;
  read : ZipInfo -> string -> res unit;
  extract : option string -> ZipInfo -> string -> res (string * file.bytes)
}.

(** A [TarInfo]. *)
Record TarInfo : Type := mkTarInfo {
  tar_name : string;
  tar_size : N;
  isfile : bool
}.

(** An opened tar archive: [getmembers()] and the outcome of
    [extract(tarinfo, dest_dir)]: the content written under
    [dest_dir / tarinfo.name], [None] when the library writes nothing. *)
Record TarArchive : Type := mkTarArchive {
  getmembers : res (list TarInfo);
  tar_extract : TarInfo -> string -> res (option file.bytes)
}.

(** What lies outside the Extractor: the archive libraries, task ids
    ([uuid4]), the File built for a child from its bytes, and the task
    environment (worker configuration and stored reports) as it stands
    after each second slept. *)
Record Platform : Type := mkPlatform {
  BZ2File : file.Path -> res Stream;
  GzipFile : file.Path -> res Stream;
  LZMAFile : file.Path -> res Stream;
  TarFile : file.Path -> res TarArchive;
  ZipFile : file.Path -> res ZipArchive;
  AESZipFile : file.Path -> res ZipArchive;
  uuid4 : nat -> string;
  new_file : string -> file.bytes -> string -> file.File;
  env_at : nat -> task.Env
}.

(** The type of a format handler, [self] and the report apart: the
    archive file and the destination directory to the extracted paths. *)
Definition handler : Type := file.File -> string -> M World (list string).

(** ** [_extract_zip], lines 125-165 *)

(** Lines 138-150: the first candidate password with which the entry
    reads; [None] when every candidate raises [RuntimeError] (the [else]
    of the [for]); any other exception propagates. *)
Fixpoint try_passwords (archive : ZipArchive) (info : ZipInfo)
    (pwds : list string) : res (option string) :=
  match pwds with
  | [] => Ok None
  | pwd :: rest =>
      match read archive info pwd with
      | Ok _ => Ok (Some pwd)
      | Raise e =>
          if is_RuntimeError e then try_passwords archive info rest
          else Raise e
      end
  end.

Definition too_many_zip (self : Extractor) (total : N) : string :=
  "Too many files (" +:+ pretty total +:+ ") in the archive, stopping at "
    +:+ pretty (max_files_in_archive self) +:+ ".".

Definition skipping_zip (info : ZipInfo) : string :=
  "Skipping file " +:+ filename info +:+ ", too big ("
    +:+ pretty (file_size info) +:+ ").".

(** The [for ... else] of lines 129-164 over the entries not yet seen.
    [total] is [len(archive.infolist())], [pwd] the password last given
    to [setpassword]. *)
Fixpoint zip_loop (self : Extractor) (archive : ZipArchive) (dest_dir : string)
    (total : N) (infos : list ZipInfo) (file_number : N)
    (found_password : bool) (pwd : option string)
    (extracted_files : list string) : M World (list string) :=
  match infos with
  | [] =>
      let* w := get in
      (if eqb (report.status (report w)) RUNNING then set_status CLEAN
       else ret tt) ;;;
      ret extracted_files
  | info :: rest =>
      if (max_files_in_archive self <=? file_number)%N then
        set_status (overflow_status self) ;;;
        add_details "Warning" (too_many_zip self total) ;;;
        ret extracted_files
      else
        let body (found_password : bool) (pwd : option string) :=
          if is_dir info then
            zip_loop self archive dest_dir total rest (file_number + 1)%N
                     found_password pwd extracted_files
          else if (max_extracted_filesize self <? file_size info)%N then
            set_status (overflow_status self) ;;;
            add_details "Warning" (skipping_zip info) ;;;
            zip_loop self archive dest_dir total rest (file_number + 1)%N
                     found_password pwd extracted_files
          else
            let* out := lift (extract archive pwd info dest_dir) in
            write_file (fst out) (snd out) ;;;
            zip_loop self archive dest_dir total rest (file_number + 1)%N
                     found_password pwd (extracted_files ++ [fst out]) in
        let is_encrypted := Z.land (flag_bits info) 1 in
        if negb (Z.eqb is_encrypted 0) && negb found_password then
          let* w := get in
          let* found := lift (try_passwords archive info (passwords w)) in
          match found with
          | Some p => body true (Some p)
          | None =>
              set_status WARN ;;;
              add_details "Warning" "File encrypted and unable to find password" ;;;
              add_extra "no_password" (PyBool true) ;;;
              ret extracted_files
          end
        else body found_password pwd
  end.

Definition _extract_zip (self : Extractor)
    (zip_reader : file.Path -> res ZipArchive) : handler :=
  fun archive_file dest_dir =>
    let* archive := lift (zip_reader (file.path archive_file)) in
    zip_loop self archive dest_dir (len (infolist archive)) (infolist archive)
             0%N false None [].

(** ** [_extract_tar], lines 288-308 *)

Definition too_many_tar (self : Extractor) (file_number : N) : string :=
  "Too many files (" +:+ pretty file_number +:+ "/"
    +:+ pretty (max_files_in_archive self) +:+ ") in the archive".

Definition too_big (archive_file : file.File) (size : N) : string :=
  "File " +:+ file.name (file.path archive_file) +:+ " too big ("
    +:+ pretty size +:+ ").".

Fixpoint tar_loop (self : Extractor) (archive_file : file.File)
    (tar : TarArchive) (dest_dir : string) (members : list TarInfo)
    (file_number : N) (extracted_files : list string) : M World (list string) :=
  match members with
  | [] => ret extracted_files
  | tarinfo :: rest =>
      if (max_files_in_archive self <=? file_number)%N then
        set_status (overflow_status self) ;;;
        add_details "Warning" (too_many_tar self file_number) ;;;
        ret extracted_files
      else if negb (isfile tarinfo) then
        tar_loop self archive_file tar dest_dir rest (file_number + 1)%N
                 extracted_files
      else if (max_extracted_filesize self <=? tar_size tarinfo)%N then
        set_status (overflow_status self) ;;;
        add_details "Warning" (too_big archive_file (tar_size tarinfo)) ;;;
        tar_loop self archive_file tar dest_dir rest (file_number + 1)%N
                 extracted_files
      else
        let* written := lift (tar_extract tar tarinfo dest_dir) in
        let file_path := file.joinpath dest_dir (tar_name tarinfo) in
        (match written with
         | Some data => write_file file_path data
         | None => ret tt
         end) ;;;
        tar_loop self archive_file tar dest_dir rest (file_number + 1)%N
                 (extracted_files ++ [file_path])
  end.

Definition _extract_tar (self : Extractor) (P : Platform) : handler :=
  fun archive_file dest_dir =>
    let* tar := lift (TarFile P (file.path archive_file)) in
    let* members := lift (getmembers tar) in
    tar_loop self archive_file tar dest_dir members 0%N [].

(** ** [_extract_bz2], [_extract_gz], [_extract_lzma], lines 268-286 and
    310-342 *)

Definition _extract_bz2 (self : Extractor) (P : Platform) : handler :=
  fun archive_file dest_dir =>
    let* bz2file := lift (BZ2File P (file.path archive_file)) in
    let* data := lift (stream_read bz2file (max_extracted_filesize self + 1)%N) in
    if (max_extracted_filesize self <? len data)%N then
      set_status (overflow_status self) ;;;
      add_details "Warning" (too_big archive_file (len data)) ;;;
      ret []
    else
      let new_file_path :=
        if String.eqb (file.suffix (file.path archive_file)) ".bz2"
        then file.joinpath dest_dir (file.stem (file.path archive_file))
        else file.joinpath dest_dir (file.name (file.path archive_file)) in
      write_file new_file_path data ;;;
      ret [new_file_path].

Definition _extract_gz (self : Extractor) (P : Platform) : handler :=
  fun archive_file dest_dir =>
    let* gz_file := lift (GzipFile P (file.path archive_file)) in
    let* data := lift (stream_read gz_file (max_extracted_filesize self + 1)%N) in
    if (max_extracted_filesize self <? len data)%N then
      set_status (overflow_status self) ;;;
      add_details "Warning" (too_big archive_file (len data)) ;;;
      ret []
    else
      let new_file_path :=
        if String.eqb (file.suffix (file.path archive_file)) ".gz"
        then file.joinpath dest_dir (file.stem (file.path archive_file))
        else file.joinpath dest_dir (file.name (file.path archive_file)) in
      write_file new_file_path data ;;;
      ret [new_file_path].

Definition _extract_lzma (self : Extractor) (P : Platform) : handler :=
  fun archive_file dest_dir =>
    let* lzma_file := lift (LZMAFile P (file.path archive_file)) in
    let* data := lift (stream_read lzma_file (max_extracted_filesize self + 1)%N) in
    if (max_extracted_filesize self <? len data)%N then
      set_status (overflow_status self) ;;;
      add_details "Warning" (too_big archive_file (len data)) ;;;
      ret []
    else
      let new_file_path :=
        if String.eqb (file.suffix (file.path archive_file)) ".lzma"
        then file.joinpath dest_dir (file.stem (file.path archive_file))
        else file.joinpath dest_dir (file.name (file.path archive_file)) in
      write_file new_file_path data ;;;
      ret [new_file_path].

(** ** [analyse], lines 344-464 *)

(** The state of one call of [analyse]: the world its handlers act on,
    the local list [tasks] (appended to in place, so it outlives an
    exception caught inside [analyse]), the tasks handed to
    [pandora.enqueue_task] with their extracted references, the number of
    task ids drawn so far, and the seconds slept. *)
Record Run : Type := mkRun {
  world : World;
  tasks : list task.Task;
  queue : list task.Task;
  references : list (string * string);
  drawn : nat;
  clock : nat
}.

Definition with_world (f : World -> World) (r : Run) : Run :=
  mkRun (f (world r)) (tasks r) (queue r) (references r) (drawn r) (clock r).

Definition with_tasks (l : list task.Task) (r : Run) : Run :=
  mkRun (world r) l (queue r) (references r) (drawn r) (clock r).

Definition with_clock (c : nat) (r : Run) : Run :=
  mkRun (world r) (tasks r) (queue r) (references r) (drawn r) c.

(** A computation on the handlers' world, inside a run. *)
Definition in_world {A : Type} (m : M World A) : M Run A :=
  fun r =>
    match m (world r) with
    | (a, w') => (a, with_world (fun _ => w') r)
    end.

(** [try: body except BaseException as e: handle(e)] *)
Definition try_except {S A : Type} (body : M S A) (handle : exn -> M S A)
  : M S A :=
  fun w =>
    match body w with
    | (Ok a, w') => (Ok a, w')
    | (Raise e, w') => handle e w'
    end.

(** [try: body except Exception as e: handle(e)] *)
Definition try_except_Exception {S A : Type} (body : M S A)
    (handle : exn -> M S A) : M S A :=
  try_except body (fun e => if is_Exception e then handle e else raise e).

(** A block falls through to the next statement or executes [return]. *)
Inductive flow : Type :=
  | Next
  | Return.

(** [Path(p).name]: what follows the last slash. *)
Fixpoint basename_from (s acc : string) : string :=
  match s with
  | EmptyString => acc
  | String c s' =>
      if Ascii.eqb c (Ascii.ascii_of_nat 47) then basename_from s' EmptyString
      else basename_from s' (acc +:+ String c EmptyString)
  end.

Definition basename (p : string) : string := basename_from p EmptyString.

(** [with ef.open('rb') as f: sample = f.read()] *)
Definition read_file (p : string) : M World file.bytes :=
  fun w =>
    match disk w !! p with
    | Some data => (Ok data, w)
    | None => (Raise (Exn OtherException ("No such file or directory: " +:+ p)), w)
    end.

(** [shutil.rmtree(dir)] *)
Definition rmtree (dir : string) : M World unit :=
  update (with_disk
            (filter (fun kv => String.prefix (dir +:+ "/") (fst kv) = false))).

(** Modelled from the spec: [Task.new_task] is not in the [task.py] of the
    sources.  The child carries the extracted bytes and original name, the
    current task as parent, the top-level ancestor as origin and the same
    disabled-worker set; its stored status is the constructor's default. *)
Definition new_task (P : Platform) (parent : task.Task) (sample : file.bytes)
    (fname : string) (n : nat) : task.Task :=
  let tid := uuid4 P n in
  task.mkTask tid (new_file P tid sample fname) (task.user parent)
              (Some (task.uuid parent))
              (Some (match task.origin parent with
                     | Some o => o
                     | None => task.uuid parent
                     end))
              WAITING false (task.disabled_workers parent).

(** Lines 399-405 (and 415-421, 439-445): create the child, record the
    extracted reference, enqueue it, append it to [tasks]. *)
Definition spawn (P : Platform) (tsk : task.Task) (sample : file.bytes)
    (fname : string) : M Run unit :=
  fun r =>
    let nt := new_task P tsk sample fname (drawn r) in
    (Ok tt,
     mkRun (world r) (tasks r ++ [nt]) (queue r ++ [nt])
           (references r ++ [(task.uuid tsk, task.uuid nt)])
           (S (drawn r)) (clock r)).

(** Lines 395-405. *)
Fixpoint spawn_extracted (P : Platform) (tsk : task.Task)
    (extracted : list string) : M Run unit :=
  match extracted with
  | [] => ret tt
  | ef :: rest =>
      let* sample := in_world (read_file ef) in
      spawn P tsk sample (basename ef) ;;;
      spawn_extracted P tsk rest
  end.

(** Lines 414-421. *)
Fixpoint spawn_attachments (P : Platform) (tsk : task.Task)
    (atts : list file.eml_attachment) : M Run unit :=
  match atts with
  | [] => ret tt
  | att :: rest =>
      let* a := lift att in
      spawn P tsk (fst a) (snd a) ;;;
      spawn_attachments P tsk rest
  end.

(** Lines 434-445. *)
Fixpoint spawn_entries (P : Platform) (tsk : task.Task)
    (entries : list file.MsgEntry) : M Run unit :=
  match entries with
  | [] => ret tt
  | filepath :: rest =>
      if negb (file.entry_is_file filepath) then spawn_entries P tsk rest
      else
        let* attachment := lift (file.entry_content filepath) in
        spawn P tsk attachment (file.entry_name filepath) ;;;
        spawn_entries P tsk rest
  end.

Definition unable_to_extract (f : file.File) (e : exn) : string :=
  "Unable to extract " +:+ file.name (file.path f) +:+ ": " +:+ exn_msg e +:+ ".".

Definition dquote : string := String (Ascii.ascii_of_nat 34) EmptyString.

Definition suspicious_files : string :=
  "There are suspicious files in this archive, click on the " +:+ dquote
    +:+ "Extracted" +:+ dquote +:+ " tab for more.".

Definition looks_empty : string :=
  "Looks like the archive is empty (?). This is suspicious.".

Section Analyse.

(** The 7z, rar and ISO handlers (lines 76-123, 167-266) reach [analyse]
    as parameters: it is embedded over any handlers in their place. *)
Variables _extract_7z _extract_rar _extract_iso : Extractor -> handler.

Variable self : Extractor.
Variable P : Platform.

(** The body of the [try] of lines 365-387. *)
Definition dispatch : handler :=
  fun f extracted_dir =>
    let mime := file.mime_type f in
    if String.eqb mime "application/x-7z-compressed" then
      _extract_7z self f extracted_dir
    else if String.eqb mime "application/x-rar" then
      _extract_rar self f extracted_dir
    else if String.eqb mime "application/x-bzip2" then
      _extract_bz2 self P f extracted_dir
    else if String.eqb mime "application/gzip" then
      _extract_gz self P f extracted_dir
    else if String.eqb mime "application/x-tar" then
      _extract_tar self P f extracted_dir
    else if existsb (String.eqb mime)
              ["application/x-lzma"; "application/x-xz"; "application/x-lzip"] then
      _extract_lzma self P f extracted_dir
    else if String.eqb mime "application/x-iso9660-image" then
      _extract_iso self f extracted_dir
    else if String.eqb mime "application/zip" then
      let* extracted := _extract_zip self (ZipFile P) f extracted_dir in
      match extracted with
      | [] =>
          clear_extras ;;;
          clear_details ;;;
          _extract_zip self (AESZipFile P) f extracted_dir
      | _ :: _ => ret extracted
      end
    else raise (Exn PandoraException ("Unsupported mimetype: " +:+ mime)).

(** The [try] of lines 365-393 with its [except BaseException]. *)
Definition try_dispatch (tsk : task.Task) (extracted_dir : string)
  : M Run (list string) :=
  try_except (in_world (dispatch (task.file tsk) extracted_dir))
    (fun e =>
       in_world (set_status WARN) ;;;
       in_world (add_details "Warning" (unable_to_extract (task.file tsk) e)) ;;;
       in_world (add_extra "no_password" (PyBool true)) ;;;
       ret []).

(** Lines 358-406.  The [if task.password] of line 359 stands before the
    [try]. *)
Definition archive_part (tsk : task.Task) : M Run unit :=
  let* password := lift (task.password tsk) in
  in_world
    (update (with_passwords
               (match password with
                | Some p => if String.eqb p EmptyString then zip_passwords self else [p]
                | None => zip_passwords self
                end))) ;;;
  let extracted_dir := file.joinpath (file.directory (task.file tsk)) "extracted" in
  let* extracted := try_dispatch tsk extracted_dir in
  spawn_extracted P tsk extracted ;;;
  in_world (rmtree extracted_dir).

(** Lines 409-427. *)
Definition eml_part (tsk : task.Task) : M Run flow :=
  try_except_Exception
    (let* data := lift (file.eml_data (task.file tsk)) in
     match data with
     | Some (file.mkEml (Some (att :: atts))) =>
         let extracted_dir :=
           file.joinpath (file.directory (task.file tsk)) "extracted" in
         spawn_attachments P tsk (att :: atts) ;;;
         in_world (rmtree extracted_dir) ;;;
         ret Next
     | _ =>
         in_world (set_status NOTAPPLICABLE) ;;;
         ret Return
     end)
    (fun _ => ret Next).

(** Lines 428-451. *)
Definition msg_part (tsk : task.Task) : M Run flow :=
  try_except_Exception
    ((let* data := lift (file.msg_data (task.file tsk)) in
      match data with
      | Some m =>
          let* entries := lift (file.saved m) in
          spawn_entries P tsk entries
      | None => ret tt
      end) ;;;
     let* r := get in
     match tasks r with
     | [] => in_world (set_status NOTAPPLICABLE) ;;; ret Return
     | _ :: _ => ret Next
     end)
    (fun _ => ret Next).

(** Lines 345-451: everything before the wait.  Reading [task.user] at
    line 349 raises when the attribute is not set; when it is set it holds
    a [User] object, which is a true value, so that the [raise] of line
    350 is not reached. *)
Definition gather (tsk : task.Task) : M Run flow :=
  let f := task.file tsk in
  if negb (file.is_archive f || file.is_eml f || file.is_msg f) then
    in_world (set_status NOTAPPLICABLE) ;;;
    ret Return
  else
    match task.user tsk with
    | None => raise (AttributeError "'Task' object has no attribute 'user'")
    | Some _ =>
        update (with_tasks []) ;;;
        (if file.is_archive f then archive_part tsk else ret tt) ;;;
        if file.is_eml f then eml_part tsk
        else if file.is_msg f then msg_part tsk
        else ret Next
    end.

(** [all(t.workers_done for t in tasks)] after [now] seconds. *)
Definition all_workers_done (ts : list task.Task) (now : nat) : bool :=
  forallb (task.workers_done (env_at P now)) ts.

(** Lines 454-455: the second at which the loop is left, [None] when the
    children are still unfinished after [fuel] more seconds. *)
Fixpoint wait (ts : list task.Task) (fuel now : nat) : option nat :=
  if all_workers_done ts now then Some now
  else match fuel with
       | O => None
       | S fuel' => wait ts fuel' (S now)
       end.

(** [t.status] of a child, read after [now] seconds. *)
Definition child_status (now : nat) (t : task.Task) : res Status :=
  fst (task.status (env_at P now) t).

(** [t.status for t in tasks], consumed by [max]: the statuses are read
    in order and the first read that raises ends it. *)
Fixpoint children_statuses (now : nat) (ts : list task.Task)
  : res (list Status) :=
  match ts with
  | [] => Ok []
  | t :: ts' =>
      match child_status now t with
      | Raise e => Raise e
      | Ok s =>
          match children_statuses now ts' with
          | Raise e => Raise e
          | Ok l => Ok (s :: l)
          end
      end
  end.

(** Lines 457-464. *)
Definition finalize : M Run unit :=
  let* r := get in
  match tasks r with
  | t :: ts =>
      let* s := lift (child_status (clock r) t) in
      let* l := lift (children_statuses (clock r) ts) in
      in_world (set_status (max_of s l)) ;;;
      let* r' := get in
      if ltb CLEAN (report.status (report (world r'))) then
        in_world (add_details "Warning" suspicious_files)
      else ret tt
  | [] =>
      in_world (set_status WARN) ;;;
      in_world (add_details "Warning" looks_empty)
  end.

(** How a call of [analyse] ends. *)
Inductive outcome : Type :=
  | Returned
  | Raised (e : exn)
  | OutOfFuel.

Definition analyse (fuel : nat) (tsk : task.Task) (manual_trigger : bool)
    (r : Run) : outcome * Run :=
  match gather tsk r with
  | (Raise e, r1) => (Raised e, r1)
  | (Ok Return, r1) => (Returned, r1)
  | (Ok Next, r1) =>
      match wait (tasks r1) fuel (clock r1) with
      | None => (OutOfFuel, with_clock (clock r1 + fuel) r1)
      | Some k =>
          match finalize (with_clock k r1) with
          | (Ok _, r2) => (Returned, r2)
          | (Raise e, r2) => (Raised e, r2)
          end
      end
  end.

End Analyse.

(** ** [_extract_iso], lines 76-123 *)

(** An ISO image opened by [pycdlib], seen through the facade chosen at
    lines 84-91: the directories that [facade.walk('/')] yields, each with
    its list of files; what ends the walk, the end of the image ([None])
    or the exception the walk raises once it has yielded them; and the
    bytes that [get_file_from_iso_fp] writes for a path. *)
Record IsoImage : Type := mkIsoImage {
  walk : list (string * list string);
  walk_failure : option exn;
  get_file_from_iso_fp : string -> res file.bytes
}.

(** [archive_file.data], [None] standing for a false value, and
    [iso.open_fp]. *)
Record IsoReader : Type := mkIsoReader {
  data : file.File -> res (option file.bytes);
  open_fp : file.bytes -> res IsoImage
}.

(** [filename.lstrip('/')] *)
Fixpoint lstrip_slash (s : string) : string :=
  match s with
  | EmptyString => EmptyString
  | String c s' =>
      if Ascii.eqb c (Ascii.ascii_of_nat 47) then lstrip_slash s' else s
  end.

(** [dir / seg] for a [seg] that does not start with a slash. *)
Definition pathlib_join (dir seg : string) : string :=
  fold_left file.joinpath (file.path_parts seg) dir.

Definition too_many_iso (self : Extractor) : string :=
  "Too many files in the archive (more than "
    +:+ pretty (max_files_in_archive self) +:+ ").".

(** Lines 97-111: the inner [for], over the files of one directory. *)
Fixpoint iso_files (self : Extractor) (image : IsoImage)
    (archive_file : file.File) (dest_dir dirname : string)
    (filelist : list string) (extracted_files : list string)
  : M World (list string) :=
  match filelist with
  | [] => ret extracted_files
  | filename :: rest =>
      let filename := lstrip_slash filename in
      let* extracted :=
        lift (get_file_from_iso_fp image (dirname +:+ "/" +:+ filename)) in
      if (max_extracted_filesize self <=? len extracted)%N then
        set_status (overflow_status self) ;;;
        add_details "Warning" (too_big archive_file (len extracted)) ;;;
        iso_files self image archive_file dest_dir dirname rest extracted_files
      else if (max_files_in_archive self <? len extracted_files)%N then
        ret extracted_files
      else
        let tmp_dest_dir := pathlib_join dest_dir ("." +:+ dirname) in
        let filepath := pathlib_join tmp_dest_dir filename in
        write_file filepath extracted ;;;
        iso_files self image archive_file dest_dir dirname rest
                  (extracted_files ++ [filepath])
  end.

(** Lines 92-111: the outer [for], over the directories of the walk. *)
Fixpoint iso_dirs (self : Extractor) (image : IsoImage)
    (archive_file : file.File) (dest_dir : string)
    (dirs : list (string * list string)) (extracted_files : list string)
  : M World (list string) :=
  match dirs with
  | [] =>
      match walk_failure image with
      | Some e => raise e
      | None => ret extracted_files
      end
  | (dirname, filelist) :: rest =>
      if (max_files_in_archive self <? len extracted_files)%N then
        ret extracted_files
      else
        match filelist with
        | [] => iso_dirs self image archive_file dest_dir rest extracted_files
        | _ :: _ =>
            let* extracted_files :=
              iso_files self image archive_file dest_dir dirname filelist
                        extracted_files in
            iso_dirs self image archive_file dest_dir rest extracted_files
        end
  end.

Definition _extract_iso (self : Extractor) (R : IsoReader) : handler :=
  fun archive_file dest_dir =>
    let* d := lift (data R archive_file) in
    match d with
    | None => ret []
    | Some content =>
        let* image := lift (open_fp R content) in
        let* extracted_files :=
          iso_dirs self image archive_file dest_dir (walk image) [] in
        (if (max_files_in_archive self <? len extracted_files)%N then
           set_status (overflow_status self) ;;;
           add_details "Warning" (too_many_iso self)
         else ret tt) ;;;
        ret extracted_files
    end.

(** ** [_try_password_7z] and [_extract_7z], lines 215-266 *)

(** A 7z archive opened by [py7zr]: [getnames()], the outcome of
    [read(name)] (the data read is discarded by the caller),
    [archiveinfo().uncompressed], and the files that
    [extractall(path=dest_dir)] writes, each path with its content. *)
Record SevenZipArchive : Type := mkSevenZipArchive {
  getnames : list string;
  read_name : string -> res unit;
  uncompressed : N;
  extractall : string -> res (list (string * file.bytes))
}.

(** [py7zr.SevenZipFile(file=path, mode='r', password=...)] and the test
    [isinstance(e, py7zr.exceptions.PasswordRequired)]. *)
Record SevenZipReader : Type := mkSevenZipReader {
  SevenZipFile : file.Path -> option string -> res SevenZipArchive;
  is_PasswordRequired : exn -> bool
}.

(** The body of the [with] of lines 218-221 and 234-237: open the
    archive and read its first member, if it has one. *)
Definition read_first (R : SevenZipReader) (path : file.Path)
    (password : option string) : res bool :=
  match SevenZipFile R path password with
  | Raise e => Raise e
  | Ok archive =>
      match getnames archive with
      | [] => Ok false
      | name :: _ =>
          match read_name archive name with
          | Ok _ => Ok true
          | Raise e => Raise e
          end
      end
  end.

(** Lines 215-228: the first candidate with which the archive opens and
    its first member reads; a candidate is passed over when that raises
    [PasswordRequired] or any [Exception], and when the archive it opens
    has no member. *)
Fixpoint _try_password_7z (R : SevenZipReader) (path : file.Path)
    (pwds : list string) : res (option string) :=
  match pwds with
  | [] => Ok None
  | pwd :: rest =>
      match read_first R path (Some pwd) with
      | Ok true => Ok (Some pwd)
      | Ok false => _try_password_7z R path rest
      | Raise e =>
          if is_PasswordRequired R e || is_Exception e
          then _try_password_7z R path rest
          else Raise e
      end
  end.

Definition too_many_7z (self : Extractor) (n : N) : string :=
  "Too many files (" +:+ pretty n +:+ "/"
    +:+ pretty (max_files_in_archive self) +:+ ") in the archive".

(** [path.is_file()] for a [path] of [dest_dir.iterdir()]: a file of the
    disk that lies directly in [dir]. *)
Definition directly_in (dir p : string) : bool :=
  String.prefix (dir +:+ "/") p
  && match String.index 0 "/"
             (String.substring (String.length dir + 1)
                               (String.length p - (String.length dir + 1)) p) with
     | Some _ => false
     | None => true
     end.

(** [[path for path in dest_dir.iterdir() if path.is_file()]], in the
    order in which the disk lists its paths. *)
Definition iterdir_files (dir : string) : M World (list string) :=
  fun w =>
    (Ok (List.filter (directly_in dir) (map fst (map_to_list (disk w)))), w).

(** Lines 245-264: the second [with]. *)
Definition extract_all_7z (self : Extractor) (archive_file : file.File)
    (dest_dir : string) (archive : SevenZipArchive) : M World (list string) :=
  if (max_extracted_filesize self <=? uncompressed archive)%N then
    set_status (overflow_status self) ;;;
    add_details "Warning" (too_big archive_file (uncompressed archive)) ;;;
    ret []
  else if (max_files_in_archive self <? len (getnames archive))%N then
    set_status (overflow_status self) ;;;
    add_details "Warning" (too_many_7z self (len (getnames archive))) ;;;
    ret []
  else
    let* written := lift (extractall archive dest_dir) in
    update (with_disk (fun d => fold_left (fun d o => <[fst o := snd o]> d)
                                          written d)) ;;;
    iterdir_files dest_dir.

Definition _extract_7z (self : Extractor) (R : SevenZipReader) : handler :=
  fun archive_file dest_dir =>
    let* needs_password :=
      lift (match read_first R (file.path archive_file) None with
            | Ok _ => Ok false
            | Raise e => if is_PasswordRequired R e then Ok true else Raise e
            end) in
    let* w := get in
    let* found :=
      (if needs_password : bool
       then lift (_try_password_7z R (file.path archive_file) (passwords w))
       else ret None) in
    match needs_password, found with
    | true, None =>
        set_status WARN ;;;
        add_details "Warning" "Encrypted archive, unable to find password" ;;;
        add_extra "no_password" (PyBool true) ;;;
        ret []
    | _, password =>
        let* archive :=
          lift (SevenZipFile R (file.path archive_file) password) in
        extract_all_7z self archive_file dest_dir archive
    end.

(** ** [_extract_rar], lines 167-213 *)

(** A [RarInfo]. *)
Record RarInfo : Type := mkRarInfo {
  rar_filename : string;
  needs_password : bool;
  rar_file_size : N;
  rar_is_dir : bool
}.

(** An opened rar archive: its [infolist()], the outcome of
    [open(info, pwd=...)] followed by [read()] (the data read is
    discarded by the caller), and the outcome of [extract(info, dest_dir)]
    under the password last given to [setpassword]: the path written and
    its content. *)
Record RarArchive : Type := mkRarArchive {
  rar_infolist : list RarInfo;
  rar_open_read : RarInfo -> string -> res unit;
  rar_extract : option string -> RarInfo -> string -> res (string * file.bytes)
}.

(** [rarfile.RarFile(path)] and the test
    [isinstance(e, (rarfile.BadRarFile, rarfile.PasswordRequired))]. *)
Record RarReader : Type := mkRarReader {
  RarFile : file.Path -> res RarArchive;
  is_BadRarFile_or_PasswordRequired : exn -> bool
}.

(** Lines 185-200: the first candidate password with which the entry
    opens and reads; [None] when every candidate raises [BadRarFile] or
    [PasswordRequired]; any other exception propagates. *)
Fixpoint rar_try_passwords (R : RarReader) (archive : RarArchive)
    (info : RarInfo) (pwds : list string) : res (option string) :=
  match pwds with
  | [] => Ok None
  | pwd :: rest =>
      match rar_open_read archive info pwd with
      | Ok _ => Ok (Some pwd)
      | Raise e =>
          if is_BadRarFile_or_PasswordRequired R e
          then rar_try_passwords R archive info rest
          else Raise e
      end
  end.

Definition skipping_rar (info : RarInfo) : string :=
  "Skipping file " +:+ rar_filename info +:+ ", too big ("
    +:+ pretty (rar_file_size info) +:+ ").".

(** The [for ... else] of lines 177-212 over the entries not yet seen. *)
Fixpoint rar_loop (self : Extractor) (R : RarReader) (archive : RarArchive)
    (dest_dir : string) (infos : list RarInfo) (file_number : N)
    (found_password : bool) (pwd : option string)
    (extracted_files : list string) : M World (list string) :=
  match infos with
  | [] =>
      let* w := get in
      (if eqb (report.status (report w)) RUNNING then set_status CLEAN
       else ret tt) ;;;
      ret extracted_files
  | info :: rest =>
      if (max_files_in_archive self <=? file_number)%N then
        set_status (overflow_status self) ;;;
        add_details "Warning" (too_many_tar self file_number) ;;;
        ret extracted_files
      else
        let body (found_password : bool) (pwd : option string) :=
          if rar_is_dir info then
            rar_loop self R archive dest_dir rest (file_number + 1)%N
                     found_password pwd extracted_files
          else if (max_extracted_filesize self <? rar_file_size info)%N then
            set_status (overflow_status self) ;;;
            add_details "Warning" (skipping_rar info) ;;;
            rar_loop self R archive dest_dir rest (file_number + 1)%N
                     found_password pwd extracted_files
          else
            let* out := lift (rar_extract archive pwd info dest_dir) in
            write_file (fst out) (snd out) ;;;
            rar_loop self R archive dest_dir rest (file_number + 1)%N
                     found_password pwd (extracted_files ++ [fst out]) in
        if needs_password info && negb found_password then
          let* w := get in
          let* found := lift (rar_try_passwords R archive info (passwords w)) in
          match found with
          | Some p => body true (Some p)
          | None =>
              set_status WARN ;;;
              add_details "Warning" "File encrypted and unable to find password" ;;;
              add_extra "no_password" (PyBool true) ;;;
              ret extracted_files
          end
        else body found_password pwd
  end.

Definition _extract_rar (self : Extractor) (R : RarReader) : handler :=
  fun archive_file dest_dir =>
    let* archive := lift (RarFile R (file.path archive_file)) in
    rar_loop self R archive dest_dir (rar_infolist archive) 0%N false None [].

End extractor.
(* ===================================================================== *)
(** * pandora/workers/observables.py *)
(* ===================================================================== *)

Module observables.
Import helpers py.

Definition known_as_bad : string :=
  "At least one observable in known as bad, click on the "
    +:+ extractor.dquote +:+ "Observables" +:+ extractor.dquote
    +:+ " tab for more.".

(** [Observables.analyse], lines 10-31.  [found] is what
    [task.init_observables_from_file()] followed by [task.observables]
    gives: the statuses of the observables, in order, or the exception
    raised on the way; [is_TooManyObservables] is the test
    [isinstance(e, TooManyObservables)]. *)
Definition analyse (is_TooManyObservables : exn -> bool)
    (found : res (list Status)) (r : report.Report) : res unit * report.Report :=
  match found with
  | Ok statuses =>
      let r1 := fold_left (fun r observable_status =>
                             report.set_status observable_status r)
                          statuses r in
      (Ok tt,
       if leb WARN (report.status r1)
       then report.add_details "Warning" known_as_bad r1
       else r1)
  | Raise e =>
      if is_TooManyObservables e then
        (Ok tt,
         report.add_details "suspicious"
           "There are too many observables in this file."
           (report.set_status WARN r))
      else if is_Exception e then
        (Ok tt,
         report.add_details "suspicious"
           ("Unable to get observables: " +:+ exn_msg e)
           (report.set_status WARN r))
      else (Raise e, r)
  end.

End observables.

(* ===================================================================== *)
(** * website/web/__init__.py: downloads *)
(* ===================================================================== *)

Module web.
Import py.

(** The members of [Action] that [api_task_download] asks about. *)
Inductive Action : Type :=
  | download_images
  | download_pdf
  | download_text
  | download_zip.

(** What [api_task_download] reads of [task.file]. *)
Record FileView : Type := mkFileView {
  previews : list string;
  previews_archive : option string;
  is_pdf : bool;
  path : string;
  text : string;
  data : file.bytes;
  mime_type : string;
  zip_name : option string;
  zip_path : string
}.

(** The argument of [send_file]. *)
Inductive target : Type :=
  | Location (p : option string)
  | Content (data : file.bytes) (mimetype : string).

Definition AssertionError (msg : string) : exn := Exn OtherException msg.

Definition quote : string := String (Ascii.ascii_of_nat 39) EmptyString.

Section Download.

(** The page a view answers with. *)
Variable Response : Type.

(** [pandora.get_task], [flask_login.current_user.role.can] once
    [update_user_role] has run, and [send_file]. *)
Variable get_task : string -> option FileView.
Variable can : Action -> bool.
Variable send_file : target -> res Response.

(** [api_task_download], lines 191-220, before [html_answer]. *)
Definition api_task_download_view (task_id source : string)
    (idx : option nat) : res Response :=
  if negb (existsb (String.eqb source) ["img"; "pdf"; "txt"; "zip"]) then
    Raise (AssertionError ("unexpected source " +:+ quote +:+ source +:+ quote))
  else
    match get_task task_id with
    | None => Raise (AssertionError "analysis not found")
    | Some f =>
        if String.eqb source "img" && can download_images then
          match previews f with
          | [] => Raise (AssertionError "content not available")
          | _ :: _ =>
              match idx with
              | Some i =>
                  match nth_error (previews f) i with
                  | Some preview => send_file (Location (Some preview))
                  | None =>
                      Raise (Exn OtherException "list index out of range")
                  end
              | None => send_file (Location (previews_archive f))
              end
          end
        else if String.eqb source "pdf" && can download_pdf then
          if is_pdf f then send_file (Location (Some (path f)))
          else Raise (AssertionError "PDF not available")
        else if String.eqb source "txt" && can download_text then
          if String.eqb (text f) EmptyString
          then Raise (AssertionError "text content not available")
          else send_file (Content (data f) (mime_type f))
        else if String.eqb source "zip" && can download_zip then
          match zip_name f with
          | None => Raise (AssertionError "content not available")
          | Some _ => send_file (Location (Some (zip_path f)))
          end
        else Raise (AssertionError "forbidden")
    end.

(** What the client gets. *)
Inductive answer : Type :=
  | Page (response : Response)
  | NotFound.

(** [html_answer], lines 121-133: any exception becomes [abort(404)]. *)
Definition html_answer (res : res Response) : answer :=
  match res with
  | Ok response => Page response
  | Raise _ => NotFound
  end.

Definition api_task_download (task_id source : string) (idx : option nat)
  : answer :=
  html_answer (api_task_download_view task_id source idx).

End Download.

End web.

(* ===================================================================== *)
(** * Concrete tasks and reports used by the examples *)
(* ===================================================================== *)

Module task_examples.
Import helpers.

Definition a_path : file.Path := file.mkPath "/srv/t1" "sample.bin" "sample" ".bin".

Definition a_file : file.File :=
  file.mkFile a_path "f1" "sample.bin" false "application/octet-stream" "BIN"
              (py.Ok None) (py.Ok None).

(** A task whose stored status is the constructor's default. *)
Definition t1 : task.Task :=
  task.mkTask "t1" a_file (Some "admin") None None WAITING false [].

Definition finished (w : string) (s : Status) : report.Report :=
  report.mkReport "t1" w s true [] ∅.

(** Two enabled workers, both finished: the extractor with WARN, mwdb
    with ALERT. *)
Definition env_warn_alert : task.Env :=
  task.mkEnv ["extractor"; "mwdb"]
    (<[("t1", "extractor") := finished "extractor" WARN]>
       (<[("t1", "mwdb") := finished "mwdb" ALERT]> ∅)).

(** Two enabled workers, both finished with CLEAN. *)
Definition env_clean : task.Env :=
  task.mkEnv ["extractor"; "mwdb"]
    (<[("t1", "extractor") := finished "extractor" CLEAN]>
       (<[("t1", "mwdb") := finished "mwdb" CLEAN]> ∅)).

(** The extractor has finished with CLEAN, mwdb has no stored report. *)
Definition env_one_pending : task.Env :=
  task.mkEnv ["extractor"; "mwdb"]
    (<[("t1", "extractor") := finished "extractor" CLEAN]> ∅).

End task_examples.

(* ===================================================================== *)
(** * Concrete archives used by the examples *)
(* ===================================================================== *)

Module extractor_examples.
Import helpers py extractor.

(** Two files at most, one megabyte per file, overflow reported as ALERT. *)
Definition cfg : Extractor := mkExtractor 2 1 false ["infected"].

(** The limits of [cfg] with overflow reported as ERROR. *)
Definition cfg_error : Extractor := mkExtractor 2 1 true ["infected"].

(** The same limits with a ceiling of zero bytes per file and overflow
    reported as ERROR. *)
Definition strict : Extractor := mkExtractor 2 0 true ["infected"].

Definition unreadable {A : Type} (what : string) : file.Path -> res A :=
  fun _ => Raise (Exn OtherException what).

Definition a_child_file (tid : string) (sample : file.bytes) (fname : string)
  : file.File :=
  file.mkFile (file.mkPath ("/srv/" +:+ tid) fname fname EmptyString) tid fname false
              "application/octet-stream" "BIN" (Ok None) (Ok None).

(** A platform on which no archive opens and no report is ever stored. *)
Definition bare : Platform :=
  mkPlatform (unreadable "not a bzip2 file") (unreadable "not a gzip file")
             (unreadable "not an lzma file") (unreadable "not a tar file")
             (unreadable "File is not a zip file")
             (unreadable "File is not a zip file")
             (fun n => "child-" +:+ pretty n) a_child_file
             (fun _ => task.mkEnv ["extractor"; "mwdb"] ∅).

Definition with_gzip (s : Stream) (P : Platform) : Platform :=
  mkPlatform (BZ2File P) (fun _ => Ok s) (LZMAFile P) (TarFile P) (ZipFile P)
             (AESZipFile P) (uuid4 P) (new_file P) (env_at P).

Definition with_tar (t : TarArchive) (P : Platform) : Platform :=
  mkPlatform (BZ2File P) (GzipFile P) (LZMAFile P) (fun _ => Ok t) (ZipFile P)
             (AESZipFile P) (uuid4 P) (new_file P) (env_at P).

Definition with_zip (z : ZipArchive) (P : Platform) : Platform :=
  mkPlatform (BZ2File P) (GzipFile P) (LZMAFile P) (TarFile P) (fun _ => Ok z)
             (AESZipFile P) (uuid4 P) (new_file P) (env_at P).

Definition with_env (e : nat -> task.Env) (P : Platform) : Platform :=
  mkPlatform (BZ2File P) (GzipFile P) (LZMAFile P) (TarFile P) (ZipFile P)
             (AESZipFile P) (uuid4 P) (new_file P) e.

Definition archive (nm st sfx mime : string) : file.File :=
  file.mkFile (file.mkPath "/srv/t1" nm st sfx) "f1" nm false mime "ARC"
              (Ok None) (Ok None).

Definition dest : string := "/srv/t1/extracted".

(** The report as the runner hands it over: RUNNING, nothing recorded. *)
Definition running_report : report.Report :=
  report.mkReport "t1" "extractor" RUNNING false [] ∅.

Definition world0 : World := mkWorld running_report ∅ [].

Definition run0 : Run := mkRun world0 [] [] [] 0 0.

Definition parent_task (f : file.File) : task.Task :=
  task.mkTask "t1" f (Some "admin") None None WAITING false [].

(** A gzip member of three bytes. *)
Definition three_bytes : file.bytes := [Byte.x68; Byte.x69; Byte.x0a].
Definition gz_file : file.File :=
  archive "notes.txt.gz" "notes.txt" ".gz" "application/gzip".
Definition gz_platform : Platform := with_gzip (mkStream three_bytes None) bare.

Definition gunzip (self : Extractor) : res (list string) * World :=
  _extract_gz self gz_platform gz_file dest world0.

(** A gzip file cut short: three bytes decompress, then the decompressor
    raises EOFError. *)
Definition gz_truncated : Stream :=
  mkStream three_bytes
    (Some (Exn OtherException
             "Compressed file ended before the end-of-stream marker was reached")).

(** Zip entries: a regular file, a directory, an encrypted file. *)
Definition entry (nm : string) (size : N) : ZipInfo := mkZipInfo nm 0 size false.
Definition folder (nm : string) : ZipInfo := mkZipInfo nm 0 0 true.
Definition locked (nm : string) (size : N) : ZipInfo := mkZipInfo nm 1 size false.

(** A zip archive whose encrypted entries no password opens and whose
    entries all extract to three bytes. *)
Definition a_zip (infos : list ZipInfo) : ZipArchive :=
  mkZipArchive infos
    (fun info _ =>
       if Z.eqb (Z.land (flag_bits info) 1) 0 then Ok tt
       else Raise (Exn RuntimeError "Bad password for file"))
    (fun _ info d => Ok (file.joinpath d (filename info), three_bytes)).

Definition zip_file : file.File :=
  archive "bundle.zip" "bundle" ".zip" "application/zip".

Definition zip_three_files : ZipArchive :=
  a_zip [entry "a.txt" 3; entry "b.txt" 3; entry "c.txt" 3].

Definition unzip_three (self : Extractor) : res (list string) * World :=
  _extract_zip self (fun _ => Ok zip_three_files) zip_file dest world0.

Definition zip_folder_first : ZipArchive :=
  a_zip [folder "docs/"; entry "docs/a.txt" 3; entry "docs/b.txt" 3].

Definition zip_locked_then_big : ZipArchive :=
  a_zip [locked "secret.txt" 3; entry "big.bin" 5000000].

Definition zip_big_then_small : ZipArchive :=
  a_zip [entry "big.bin" 5000000; entry "small.txt" 3].

Definition unzip_big_small (self : Extractor) : res (list string) * World :=
  _extract_zip self (fun _ => Ok zip_big_then_small) zip_file dest world0.

(** Tar members: regular files; every member extracts to three bytes. *)
Definition a_tar (members : list TarInfo) : TarArchive :=
  mkTarArchive (Ok members) (fun _ _ => Ok (Some three_bytes)).

Definition tar_file : file.File :=
  archive "bundle.tar" "bundle" ".tar" "application/x-tar".

Definition tar_at_ceiling : TarArchive :=
  a_tar [mkTarInfo "exact.bin" 1000000 true].

Definition tar_big_then_small : TarArchive :=
  a_tar [mkTarInfo "big.bin" 5000000 true; mkTarInfo "small.txt" 3 true].

Definition untar_big_small (self : Extractor) : res (list string) * World :=
  _extract_tar self (with_tar tar_big_then_small bare) tar_file dest world0.

(** Stand-ins for the 7z, rar and ISO handlers. *)
Definition no_handler : Extractor -> handler :=
  fun _ _ _ => raise (Exn OtherException "not available").


(** The two children of [zip_three_files] under [cfg] finish after two
    seconds: the first is CLEAN for both workers, the second is CLEAN for
    the extractor and ALERT for mwdb. *)
Definition done_report (tid wname : string) (s : Status) : report.Report :=
  report.mkReport tid wname s true [] ∅.

Definition children_done : task.Env :=
  task.mkEnv ["extractor"; "mwdb"]
    (<[("child-0", "extractor") := done_report "child-0" "extractor" CLEAN]>
       (<[("child-0", "mwdb") := done_report "child-0" "mwdb" CLEAN]>
          (<[("child-1", "extractor") := done_report "child-1" "extractor" CLEAN]>
             (<[("child-1", "mwdb") := done_report "child-1" "mwdb" ALERT]> ∅)))).

Definition two_seconds (now : nat) : task.Env :=
  if Nat.ltb now 2 then task.mkEnv ["extractor"; "mwdb"] ∅ else children_done.

Definition zip_platform : Platform :=
  with_env two_seconds (with_zip zip_three_files bare).




(** An archive of a format the Extractor has no handler for. *)
Definition cpio_file : file.File :=
  archive "bundle.cpio" "bundle" ".cpio" "application/x-cpio".


End extractor_examples.
(* ===================================================================== *)
(** * Concrete configuration files and files used by the examples *)
(* ===================================================================== *)

Module extra_examples.
Import helpers.

(** [base.yml]: every worker is enabled and kept for a day. *)
Definition base_config : Config :=
  mkConfig (Some (<["replicas" := py.PyInt 1]> ∅))
           (Some (<["disabled" := py.PyBool false]>
                    (<["cache" := py.PyStr "1d"]> ∅))).

(** [yara.yml] overrides the cache of its sample, which overrides the
    number of replicas of the base. *)
Definition yara_yml : ConfigFile :=
  mkConfigFile "yara.yml" "yara"
    (mkConfig (Some ∅) (Some (<["cache" := py.PyStr "30m"]> ∅)))
    (Some (mkConfig (Some (<["replicas" := py.PyInt 3]> ∅))
                    (Some (<["cache" := py.PyStr "1h"]> ∅)))).

Definition extractor_yml : ConfigFile :=
  mkConfigFile "extractor.yml" "extractor"
    (mkConfig (Some ∅) None) (Some (mkConfig (Some ∅) None)).

Definition base_yml : ConfigFile :=
  mkConfigFile "base.yml" "base" base_config None.

(** A worker file left without its sample. *)
Definition mwdb_yml : ConfigFile :=
  mkConfigFile "mwdb.yml" "mwdb" (mkConfig (Some ∅) None) None.

Definition config_files : list ConfigFile := [yara_yml; base_yml; extractor_yml].

Definition loaded : list (string * WorkerConfig) :=
  match workers base_config config_files with
  | py.Ok l => l
  | py.Raise _ => []
  end.

(** An ISO image under its usual name, typed as [File.type] types it. *)
Definition iso_file : file.File :=
  file.mkFile (file.mkPath "/srv/t1" "disk.iso" "disk" ".iso") "f1" "disk.iso"
              false "application/x-iso9660-image"
              (file.type_of ".iso" "application/x-iso9660-image" ".iso")
              (py.Ok None) (py.Ok None).

(** A zip archive and a tar archive within the limits of
    [extractor_examples.cfg]. *)
Definition zip_folder_and_file : extractor.ZipArchive :=
  extractor_examples.a_zip
    [extractor_examples.folder "docs/"; extractor_examples.entry "docs/a.txt" 3].

Definition tar_link_and_file : extractor.TarArchive :=
  extractor_examples.a_tar
    [extractor.mkTarInfo "latest" 0 false; extractor.mkTarInfo "./a.txt" 3 true].

(** An ISO image of three files of three bytes, in two directories. *)
Definition iso_image : extractor.IsoImage :=
  extractor.mkIsoImage
    [("/", ["A.TXT;1"]); ("/EMPTY", []); ("/DOCS", ["/B.TXT;1"; "C.TXT;1"])]
    None (fun _ => py.Ok extractor_examples.three_bytes).

Definition iso_reader : extractor.IsoReader :=
  extractor.mkIsoReader (fun _ => py.Ok (Some extractor_examples.three_bytes))
                        (fun _ => py.Ok iso_image).

(** The same image under an archive name. *)
Definition iso_as_zip : file.File :=
  extractor_examples.archive "disk.zip" "disk" ".zip"
                             "application/x-iso9660-image".

(** A 7z archive of two members, one of them in a folder, that opens
    with the password [infected] only. *)
Definition seven_zip : extractor.SevenZipArchive :=
  extractor.mkSevenZipArchive ["a.txt"; "sub/b.txt"] (fun _ => py.Ok tt) 6
    (fun d => py.Ok [(file.joinpath d "a.txt", extractor_examples.three_bytes);
                     (file.joinpath d "sub/b.txt", extractor_examples.three_bytes)]).

Definition password_required : string :=
  "Password is required for extracting given archive.".

Definition seven_zip_reader : extractor.SevenZipReader :=
  extractor.mkSevenZipReader
    (fun _ password =>
       match password with
       | Some pwd =>
           if String.eqb pwd "infected" then py.Ok seven_zip
           else py.Raise (py.Exn py.OtherException "Corrupt input data")
       | None => py.Raise (py.Exn py.OtherException password_required)
       end)
    (fun e => String.eqb (py.exn_msg e) password_required).

Definition seven_zip_file : file.File :=
  extractor_examples.archive "bundle.7z" "bundle" ".7z"
                             "application/x-7z-compressed".

(** A rar archive of four entries that all extract to three bytes. *)
Definition a_rar : extractor.RarArchive :=
  extractor.mkRarArchive
    [extractor.mkRarInfo "a.txt" false 3 false;
     extractor.mkRarInfo "docs" false 0 true;
     extractor.mkRarInfo "docs/big.bin" false 5000000 false;
     extractor.mkRarInfo "docs/b.txt" false 3 false]
    (fun _ _ => py.Ok tt)
    (fun _ info d =>
       py.Ok (file.joinpath d (extractor.rar_filename info),
              extractor_examples.three_bytes)).

Definition rar_reader : extractor.RarReader :=
  extractor.mkRarReader (fun _ => py.Ok a_rar) (fun _ => false).

Definition rar_file : file.File :=
  extractor_examples.archive "bundle.rar" "bundle" ".rar" "application/x-rar".

(** A PDF task without previews, text or zip, for a role that may only
    download the PDF; [send_file] answers with the location it is given. *)
Definition pdf_view : web.FileView :=
  web.mkFileView [] None true "/srv/t1/report.pdf" EmptyString [] "application/pdf"
                 None "/srv/t1/report.zip".

Definition one_task (task_id : string) : option web.FileView :=
  if String.eqb task_id "t1" then Some pdf_view else None.

Definition pdf_only (a : web.Action) : bool :=
  match a with web.download_pdf => true | _ => false end.

Definition send_location (what : web.target) : py.res string :=
  match what with
  | web.Location (Some p) => py.Ok p
  | _ => py.Raise (py.Exn py.OtherException "nothing to send")
  end.

(** What the ISO handler returns for [iso_as_zip] under [cfg]. *)
Definition dispatch_iso : py.res (list string) * extractor.World :=
  extractor.dispatch extractor_examples.no_handler
    (fun s => extractor._extract_rar s rar_reader)
    (fun s => extractor._extract_iso s iso_reader)
    extractor_examples.cfg extractor_examples.bare iso_as_zip
    extractor_examples.dest extractor_examples.world0.

Definition iso_paths : list string :=
  match fst dispatch_iso with
  | py.Ok l => l
  | py.Raise _ => []
  end.

End extra_examples.

(* ===================================================================== *)
(** * The Status enumeration and the boolean helpers *)
(* ===================================================================== *)

Section StatusOrder.
Import helpers.

Lemma Status_value_inj (a b : Status) : value a = value b -> a = b.
Proof. destruct a, b; simpl; intros H; first [reflexivity | discriminate H]. Qed.

Lemma Status_eqb_eq (a b : Status) : eqb a b = true <-> a = b.
Proof.
  unfold eqb. rewrite Z.eqb_eq. split; [apply Status_value_inj | intros ->; reflexivity].
Qed.

Lemma Status_eqb_neq (a b : Status) : eqb a b = false <-> a <> b.
Proof.
  rewrite <- Status_eqb_eq. destruct (eqb a b); split; intros H; congruence.
Qed.

Lemma Status_value_range (s : Status) : 1 <= value s <= 14.
Proof. destruct s; simpl; lia. Qed.

Lemma max2_ge_l (a b : Status) : le a (max2 a b).
Proof. unfold le, max2, ltb. destruct (Z.ltb_spec (value a) (value b)); lia. Qed.

Lemma max2_ge_r (a b : Status) : le b (max2 a b).
Proof. unfold le, max2, ltb. destruct (Z.ltb_spec (value a) (value b)); lia. Qed.

Lemma max2_cases (a b : Status) : max2 a b = a \/ max2 a b = b.
Proof. unfold max2. destruct (ltb a b); auto. Qed.

Lemma max_of_ge_init (l : list Status) (a : Status) : le a (max_of a l).
Proof.
  revert a. induction l as [|x l IH]; intros a; unfold max_of; simpl.
  - unfold le. lia.
  - specialize (IH (max2 a x)). pose proof (max2_ge_l a x).
    unfold le, max_of in *. lia.
Qed.

Lemma max_of_ge (l : list Status) (a x : Status) :
  In x (a :: l) -> le x (max_of a l).
Proof.
  revert a. induction l as [|y l IH]; intros a [->|Hin]; simpl.
  - unfold le, max_of. simpl. lia.
  - destruct Hin.
  - apply (max_of_ge_init (y :: l)).
  - destruct Hin as [->|Hin].
    + pose proof (max_of_ge_init l (max2 a x)) as H1.
      pose proof (max2_ge_r a x) as H2. unfold le, max_of in *. lia.
    + apply IH. right. exact Hin.
Qed.

Lemma max_of_In (l : list Status) (a : Status) : In (max_of a l) (a :: l).
Proof.
  revert a. induction l as [|y l IH]; intros a.
  - left. reflexivity.
  - change (max_of a (y :: l)) with (max_of (max2 a y) l).
    destruct (IH (max2 a y)) as [H|H].
    + rewrite <- H. destruct (max2_cases a y) as [-> | ->]; simpl; auto.
    + right. right. exact H.
Qed.

End StatusOrder.

(** C8. The Status enumeration is totally ordered by its integer values,
    and the twelve members WAITING, RUNNING, DELETED, NOTAPPLICABLE,
    MANUAL, UNKNOWN, DISABLED, ERROR, CLEAN, WARN, ALERT, OVERWRITE compare
    in exactly this strictly ascending order; OVERWRITE dominates every
    other member, and CLEAN is above ERROR and DISABLED and below WARN and
    ALERT. *)
Theorem C8_status_rank_order :
  (* the listed chain, strictly ascending *)
  helpers.ltb helpers.WAITING helpers.RUNNING = true /\
  helpers.ltb helpers.RUNNING helpers.DELETED = true /\
  helpers.ltb helpers.DELETED helpers.NOTAPPLICABLE = true /\
  helpers.ltb helpers.NOTAPPLICABLE helpers.MANUAL = true /\
  helpers.ltb helpers.MANUAL helpers.UNKNOWN = true /\
  helpers.ltb helpers.UNKNOWN helpers.DISABLED = true /\
  helpers.ltb helpers.DISABLED helpers.ERROR = true /\
  helpers.ltb helpers.ERROR helpers.CLEAN = true /\
  helpers.ltb helpers.CLEAN helpers.WARN = true /\
  helpers.ltb helpers.WARN helpers.ALERT = true /\
  helpers.ltb helpers.ALERT helpers.OVERWRITE = true /\
  (* a strict total order on all members *)
  (forall a : helpers.Status, helpers.ltb a a = false) /\
  (forall a b c : helpers.Status,
      helpers.ltb a b = true -> helpers.ltb b c = true -> helpers.ltb a c = true) /\
  (forall a b : helpers.Status,
      helpers.ltb a b = true \/ a = b \/ helpers.ltb b a = true) /\
  (* OVERWRITE dominates every other status *)
  (forall s : helpers.Status,
      s <> helpers.OVERWRITE -> helpers.ltb s helpers.OVERWRITE = true) /\
  (* CLEAN above ERROR and DISABLED, below WARN and ALERT *)
  helpers.ltb helpers.DISABLED helpers.CLEAN = true /\
  helpers.ltb helpers.CLEAN helpers.ALERT = true.
Proof.
  repeat split; try reflexivity.
  - intros a. unfold helpers.ltb. apply Z.ltb_irrefl.
  - intros a b c. unfold helpers.ltb. rewrite !Z.ltb_lt. lia.
  - intros a b. unfold helpers.ltb. rewrite !Z.ltb_lt.
    destruct (Z.lt_trichotomy (helpers.value a) (helpers.value b)) as [H|[H|H]].
    + left. exact H.
    + right. left. apply Status_value_inj. exact H.
    + right. right. exact H.
  - intros s Hs. destruct s; try reflexivity. contradiction Hs. reflexivity.
Qed.

(** C10. [make_bool] is [True] exactly on [True], the integer 1 and the
    string "1", and [False] on every other input (among them "true",
    "True" and 0); hence [make_bool (make_bool_for_redis b) = b] for every
    boolean [b]. *)
Theorem C10_make_bool_exact :
  (forall v : py.value,
      helpers.make_bool v = true <->
      v = py.PyBool true \/ v = py.PyInt 1 \/ v = py.PyStr "1") /\
  helpers.make_bool (py.PyStr "true") = false /\
  helpers.make_bool (py.PyStr "True") = false /\
  helpers.make_bool (py.PyInt 0) = false /\
  (forall b : bool,
      helpers.make_bool (py.PyInt (helpers.make_bool_for_redis (py.PyBool b))) = b).
Proof.
  split; [|repeat split; try reflexivity; intros []; reflexivity].
  intros v. split.
  - intros H. unfold helpers.make_bool, py.contains in H.
    destruct v as [|b|z|s]; simpl in H.
    + discriminate H.
    + destruct b; [auto | discriminate H].
    + destruct (Z.eqb_spec z 1) as [Hz|Hz]; [subst z; auto | discriminate H].
    + destruct (String.eqb_spec s "1") as [Hs|Hs]; [subst s; auto | discriminate H].
  - intros [->|[->| ->]]; reflexivity.
Qed.

(** The enumeration has no member named SUCCESS, although [task.py]
    reads [Status.SUCCESS]: the lookup fails. *)
Example Status_has_no_SUCCESS :
  helpers.by_name "SUCCESS" = None /\
  helpers.member "SUCCESS" = py.Raise (py.AttributeError "SUCCESS") /\
  helpers.member "CLEAN" = py.Ok helpers.CLEAN.
Proof. repeat split. Qed.

(** The deletion flag of a File survives [to_dict] and [__init__] when
    the path still exists. *)
Lemma File_deleted_roundtrip (f : file.File) :
  file.init_deleted (py.PyInt (file.to_dict_deleted f)) true = file.deleted f.
Proof.
  unfold file.init_deleted, file.to_dict_deleted. cbn [negb].
  destruct (file.deleted f); reflexivity.
Qed.

(* ===================================================================== *)
(** * Task status *)
(* ===================================================================== *)

Section TaskStatus.
Import helpers.

Lemma all_done_true rs :
  task.all_done rs = true <->
  (forall w r, In (w, r) rs -> report.is_done r = true).
Proof.
  induction rs as [|[w0 r0] rs IH]; simpl.
  - split; [intros _ w r [] | reflexivity].
  - destruct (report.is_done r0) eqn:E; simpl.
    + rewrite IH. split.
      * intros H w r [Heq|Hin]; [congruence | eauto].
      * intros H w r Hin. apply (H w r). right. exact Hin.
    + split; [discriminate|]. intros H.
      specialize (H w0 r0 (or_introl eq_refl)). congruence.
Qed.

Lemma all_done_false rs :
  task.all_done rs = false <->
  (exists w r, In (w, r) rs /\ report.is_done r = false).
Proof.
  induction rs as [|[w0 r0] rs IH]; simpl.
  - split; [discriminate | intros (w & r & [] & _)].
  - destruct (report.is_done r0) eqn:E; simpl.
    + rewrite IH. split.
      * intros (w & r & Hin & Hr). exists w, r. auto.
      * intros (w & r & [Heq|Hin] & Hr); [congruence | eauto].
    + split; [|reflexivity]. intros _. exists w0, r0. auto.
Qed.

(** [Status] has no member SUCCESS, so building the list of final values
    on the getter's first line already raises. *)
Lemma final_values_raise :
  task.status_list ["DELETED"; "ERROR"; "ALERT"; "WARN"; "SUCCESS"]
  = py.Raise (py.AttributeError "SUCCESS").
Proof. reflexivity. Qed.

(** Every read of the [status] property raises and leaves the task as it
    was: no branch of the getter is reached. *)
Lemma status_read_raises env t :
  task.status env t = (py.Raise (py.AttributeError "SUCCESS"), t).
Proof. unfold task.status. rewrite final_values_raise. reflexivity. Qed.

End TaskStatus.

(** C1 (code defect). The claim promises the highest-ranked status among
    the finished reports.  For a task all of whose enabled workers'
    reports are finished, a read of the status raises AttributeError on
    [Status.SUCCESS] ([task.py], line 137), stores nothing and returns no
    status at all, whatever the reports are. *)
Theorem C1_status_read_raises (env : task.Env) (t : task.Task) :
  (forall w r, In (w, r) (task.reports env t) -> report.is_done r = true) ->
  task.workers_done env t = true /\
  task.status env t = (py.Raise (py.AttributeError "SUCCESS"), t).
Proof.
  intros Hdone. split.
  - apply all_done_true. exact Hdone.
  - apply status_read_raises.
Qed.

Lemma C1_status_read_raises_witness :
  map (fun wr => (fst wr, report.status (snd wr)))
      (task.reports task_examples.env_warn_alert task_examples.t1)
    = [("extractor", helpers.WARN); ("mwdb", helpers.ALERT)] /\
  helpers.max_of helpers.WARN [helpers.ALERT] = helpers.ALERT /\
  task.workers_done task_examples.env_warn_alert task_examples.t1 = true /\
  task.status task_examples.env_warn_alert task_examples.t1
    = (py.Raise (py.AttributeError "SUCCESS"), task_examples.t1).
Proof.
  split; [reflexivity|]. split; [reflexivity|].
  apply (C1_status_read_raises task_examples.env_warn_alert task_examples.t1).
  intros w r Hin. vm_compute in Hin.
  destruct Hin as [Heq|[Heq|[]]]; inversion Heq; reflexivity.
Defined.

(** C2 (code defect). The claim promises WAITING while a worker has not
    finished.  For a task that has an enabled worker whose report is not
    finished, a read of the status raises AttributeError on
    [Status.SUCCESS] ([task.py], line 137) before the getter looks at the
    workers. *)
Theorem C2_unfinished_read_raises (env : task.Env) (t : task.Task) :
  (exists w r, In (w, r) (task.reports env t) /\ report.is_done r = false) ->
  task.workers_done env t = false /\
  task.status env t = (py.Raise (py.AttributeError "SUCCESS"), t).
Proof.
  intros Hex. split.
  - apply all_done_false. exact Hex.
  - apply status_read_raises.
Qed.

Lemma C2_unfinished_read_raises_witness :
  task.workers_done task_examples.env_one_pending task_examples.t1 = false /\
  task.status task_examples.env_one_pending task_examples.t1
    = (py.Raise (py.AttributeError "SUCCESS"), task_examples.t1).
Proof.
  apply (C2_unfinished_read_raises
           task_examples.env_one_pending task_examples.t1).
  exists "mwdb", (report.new "t1" "mwdb"). split; [|reflexivity].
    vm_compute. right. left. reflexivity.
Defined.

(** C9 (as the code has it). A task keeps its status in a stored field:
    the constructor fills it from its [status] argument (a member, the
    name of a member, or WAITING for anything else) and overwrites it
    with DELETED for a deleted file; the public setter replaces it with
    any status, changes no other field and leaves the task's reports as
    they are. *)
Theorem C9_status_stored_and_settable :
  (forall t s,
      task._status (task.status_setter t s) = s /\
      task.uuid (task.status_setter t s) = task.uuid t /\
      task.file (task.status_setter t s) = task.file t /\
      task.user (task.status_setter t s) = task.user t /\
      task.parent (task.status_setter t s) = task.parent t /\
      task.origin (task.status_setter t s) = task.origin t /\
      task.done (task.status_setter t s) = task.done t /\
      task.disabled_workers (task.status_setter t s) = task.disabled_workers t /\
      forall env, task.reports env (task.status_setter t s) = task.reports env t) /\
  (forall tid f usr prnt orig dn disabled,
      (forall s,
          task.init tid f usr prnt orig (task.ArgStatus s) dn disabled
          = py.Ok (task.mkTask tid f usr prnt orig
                     (if file.deleted f then helpers.DELETED else s)
                     dn disabled)) /\
      (forall s,
          task.init tid f usr prnt orig
                    (task.ArgStr (helpers.name s)) dn disabled
          = py.Ok (task.mkTask tid f usr prnt orig
                     (if file.deleted f then helpers.DELETED else s)
                     dn disabled)) /\
      task.init tid f usr prnt orig task.ArgOther dn disabled
      = py.Ok (task.mkTask tid f usr prnt orig
                 (if file.deleted f then helpers.DELETED else helpers.WAITING)
                 dn disabled)).
Proof.
  split.
  - intros t s. repeat split.
  - intros tid f usr prnt orig dn disabled. unfold task.init.
    split; [|split].
    + intros s. destruct (file.deleted f); reflexivity.
    + intros s. destruct s; cbn; destruct (file.deleted f); reflexivity.
    + destruct (file.deleted f); reflexivity.
Qed.

(** C9 does not hold as the specification states it.  The task [t1] has
    two finished reports, both CLEAN, and the stored status WAITING; the
    setter stores ALERT while the reports stay what they were. *)
Lemma C9_setter_drifts_counterexample :
  map (fun wr => report.status (snd wr))
      (task.reports task_examples.env_clean task_examples.t1)
    = [helpers.CLEAN; helpers.CLEAN] /\
  task._status task_examples.t1 = helpers.WAITING /\
  task._status (task.status_setter task_examples.t1 helpers.ALERT)
    = helpers.ALERT /\
  task.reports task_examples.env_clean
               (task.status_setter task_examples.t1 helpers.ALERT)
    = task.reports task_examples.env_clean task_examples.t1.
Proof. vm_compute. repeat split; reflexivity. Qed.

(* ===================================================================== *)
(** * The Extractor: single-stream formats *)
(* ===================================================================== *)

Section StreamRead.
Import extractor.

Lemma len_firstn {A : Type} (n : N) (l : list A) :
  (n <= len l)%N -> len (firstn (N.to_nat n) l) = n.
Proof.
  unfold len. intros H. rewrite length_firstn. lia.
Qed.

Lemma stream_read_short (s : Stream) (size : N) (data : file.bytes) :
  stream_read s size = py.Ok data ->
  (len (content s) < size)%N ->
  data = content s /\ failure s = None.
Proof.
  unfold stream_read. intros H Hlt.
  destruct (N.leb_spec size (len (content s))) as [Hle|_]; [lia|].
  destruct (failure s); [discriminate H|]. inversion H. auto.
Qed.

Lemma stream_read_full (s : Stream) (size : N) (data : file.bytes) :
  stream_read s size = py.Ok data ->
  (size <= len (content s))%N ->
  data = firstn (N.to_nat size) (content s) /\ len data = size.
Proof.
  unfold stream_read. intros H Hle.
  destruct (N.leb_spec size (len (content s))) as [_|Hlt]; [|lia].
  inversion H. split; [reflexivity|]. apply len_firstn. exact Hle.
Qed.

Lemma stream_read_bound (s : Stream) (size : N) (data : file.bytes) :
  stream_read s size = py.Ok data -> (len data <= size)%N.
Proof.
  intros H. destruct (N.le_gt_cases size (len (content s))) as [Hle|Hlt].
  - destruct (stream_read_full s size data H Hle) as [_ ->]. lia.
  - destruct (stream_read_short s size data H Hlt) as [-> _]. lia.
Qed.

End StreamRead.

Lemma stream_read_raises (s : extractor.Stream) (size : N) (e : py.exn) :
  extractor.stream_read s size = py.Raise e ->
  (extractor.len (extractor.content s) < size)%N /\
  extractor.failure s = Some e.
Proof.
  unfold extractor.stream_read. intros H.
  destruct (N.leb_spec size (extractor.len (extractor.content s))) as [Hle|Hlt];
    [discriminate H|].
  destruct (extractor.failure s); inversion H. auto.
Qed.

(** Unfolds one of the three single-stream handlers on what the opener
    gave. *)
Ltac run_stream_handler Hopen :=
  unfold extractor._extract_bz2, extractor._extract_gz, extractor._extract_lzma,
    extractor.bind, extractor.lift;
  rewrite Hopen.

(** C4 (as the code has it). Each of the bzip2, gzip and lzma/xz handlers
    asks the decompressor for ceiling+1 bytes.  If the stream does not
    open, or ends in a decompression error before ceiling+1 bytes, the
    handler raises that exception, writes no file and leaves the report
    as it was.  Otherwise it has read at most ceiling+1 bytes: if the
    decompressed stream is longer than the ceiling the handler writes no
    file, sets the report to ERROR if [max_is_error] and to ALERT if not,
    adds the detail "File <name> too big (<ceiling+1>)." and returns the
    empty list; if not, it writes exactly one file, holding the whole
    decompressed stream, and returns that single path. *)
Theorem C4_stream_handlers_bounded
    (self : extractor.Extractor) (P : extractor.Platform)
    (archive_file : file.File) (dest_dir : string) (w : extractor.World)
    (h : extractor.Extractor -> extractor.Platform -> extractor.handler)
    (opener : extractor.Platform -> file.Path -> py.res extractor.Stream)
    (sfx : string) :
  In (h, opener, sfx)
     [(extractor._extract_bz2, extractor.BZ2File, ".bz2");
      (extractor._extract_gz, extractor.GzipFile, ".gz");
      (extractor._extract_lzma, extractor.LZMAFile, ".lzma")] ->
  let out := h self P archive_file dest_dir w in
  let ceiling := extractor.max_extracted_filesize self in
  let new_file_path :=
    if String.eqb (file.suffix (file.path archive_file)) sfx
    then file.joinpath dest_dir (file.stem (file.path archive_file))
    else file.joinpath dest_dir (file.name (file.path archive_file)) in
  match opener P (file.path archive_file) with
  | py.Raise e => out = (py.Raise e, w)
  | py.Ok s =>
      match extractor.stream_read s (ceiling + 1)%N with
      | py.Raise e =>
          (extractor.len (extractor.content s) <= ceiling)%N /\
          extractor.failure s = Some e /\
          out = (py.Raise e, w)
      | py.Ok data =>
          (extractor.len data <= ceiling + 1)%N /\
          ((ceiling < extractor.len (extractor.content s))%N ->
           fst out = py.Ok [] /\
           extractor.disk (snd out) = extractor.disk w /\
           report.status (extractor.report (snd out))
           = (if extractor.max_is_error self
              then helpers.ERROR else helpers.ALERT) /\
           report.details (extractor.report (snd out))
           = report.details (extractor.report w)
               ++ [("Warning",
                    "File " +:+ file.name (file.path archive_file)
                      +:+ " too big (" +:+ pretty (ceiling + 1)%N +:+ ").")]) /\
          ((extractor.len (extractor.content s) <= ceiling)%N ->
           data = extractor.content s /\
           extractor.failure s = None /\
           fst out = py.Ok [new_file_path] /\
           extractor.disk (snd out)
           = <[new_file_path := extractor.content s]> (extractor.disk w) /\
           extractor.report (snd out) = extractor.report w)
      end
  end.
Proof.
  intros Hin out ceiling new_file_path.
  destruct (opener P (file.path archive_file)) as [s|e] eqn:Hopen.
  2: { subst out.
       destruct Hin as [Heq|[Heq|[Heq|[]]]]; inversion Heq; subst h opener sfx;
         run_stream_handler Hopen; reflexivity. }
  destruct (extractor.stream_read s (ceiling + 1)%N) as [data|e] eqn:Hread.
  2: { destruct (stream_read_raises s _ e Hread) as [Hlt Hf].
       split; [lia|]. split; [exact Hf|]. subst out ceiling.
       destruct Hin as [Heq|[Heq|[Heq|[]]]]; inversion Heq; subst h opener sfx;
         run_stream_handler Hopen; rewrite Hread; reflexivity. }
  split; [apply (stream_read_bound s _ data Hread)|].
  split.
  - intros Hbig.
    destruct (stream_read_full s _ data Hread) as [_ Hlen]; [lia|].
    assert (Hlt : (extractor.max_extracted_filesize self <? extractor.len data)%N = true)
      by (apply N.ltb_lt; subst ceiling; lia).
    subst out ceiling.
    destruct Hin as [Heq|[Heq|[Heq|[]]]]; inversion Heq; subst h opener sfx;
      run_stream_handler Hopen; rewrite Hread, Hlt; cbn;
      unfold extractor.too_big, extractor.overflow_status; rewrite Hlen; auto.
  - intros Hsmall.
    destruct (stream_read_short s _ data Hread) as [Hdata Hf]; [lia|].
    assert (Hlt : (extractor.max_extracted_filesize self <? extractor.len data)%N = false)
      by (apply N.ltb_ge; rewrite Hdata; exact Hsmall).
    subst out new_file_path ceiling.
    destruct Hin as [Heq|[Heq|[Heq|[]]]]; inversion Heq; subst h opener sfx;
      run_stream_handler Hopen; rewrite Hread, Hlt; cbn; rewrite Hdata; auto.
Qed.

Lemma C4_stream_handlers_bounded_witness :
  (fst (extractor_examples.gunzip extractor_examples.strict) = py.Ok [] /\
   extractor.disk (snd (extractor_examples.gunzip extractor_examples.strict))
   = ∅ /\
   report.status
     (extractor.report (snd (extractor_examples.gunzip extractor_examples.strict)))
   = helpers.ERROR /\
   report.details
     (extractor.report (snd (extractor_examples.gunzip extractor_examples.strict)))
   = [("Warning", "File notes.txt.gz too big (1).")]) /\
  (fst (extractor_examples.gunzip extractor_examples.cfg)
   = py.Ok ["/srv/t1/extracted/notes.txt"] /\
   extractor.disk (snd (extractor_examples.gunzip extractor_examples.cfg))
   = <["/srv/t1/extracted/notes.txt" := extractor_examples.three_bytes]> ∅ /\
   extractor.report (snd (extractor_examples.gunzip extractor_examples.cfg))
   = extractor_examples.running_report).
Proof.
  split.
  - refine (proj1 (proj2 (C4_stream_handlers_bounded extractor_examples.strict
              extractor_examples.gz_platform extractor_examples.gz_file
              extractor_examples.dest extractor_examples.world0
              extractor._extract_gz extractor.GzipFile ".gz"
              (or_intror (or_introl eq_refl)))) _).
    reflexivity.
  - refine (proj2 (proj2 (proj2 (proj2 (C4_stream_handlers_bounded
              extractor_examples.cfg
              extractor_examples.gz_platform extractor_examples.gz_file
              extractor_examples.dest extractor_examples.world0
              extractor._extract_gz extractor.GzipFile ".gz"
              (or_intror (or_introl eq_refl)))) _))).
    vm_compute. discriminate.
Defined.

(** C4 does not hold as the specification states it.  A gzip file that
    decompresses to three bytes and then
    ends before its end-of-stream marker stays under the ceiling of one
    megabyte, yet the handler writes no file and returns no path: it
    raises the decompressor's exception. *)
Lemma C4_truncated_stream_counterexample :
  (extractor.len (extractor.content extractor_examples.gz_truncated)
   <=? extractor.max_extracted_filesize extractor_examples.cfg)%N = true /\
  extractor._extract_gz extractor_examples.cfg
    (extractor_examples.with_gzip extractor_examples.gz_truncated
       extractor_examples.bare)
    extractor_examples.gz_file extractor_examples.dest extractor_examples.world0
  = (py.Raise
       (py.Exn py.OtherException
          "Compressed file ended before the end-of-stream marker was reached"),
     extractor_examples.world0).
Proof. split; vm_compute; reflexivity. Qed.

(* ===================================================================== *)
(** * The Extractor: zip and tar archives *)
(* ===================================================================== *)

Section ZipLoop.
Import extractor.

Variable self : Extractor.
Variable archive : ZipArchive.
Variable dest_dir : string.
Variable total : N.

Lemma overflow_not_running : helpers.eqb (overflow_status self) helpers.RUNNING = false.
Proof. unfold overflow_status. destruct (max_is_error self); reflexivity. Qed.

Lemma last_cons_some {A : Type} (x y : A) (l : list A) :
  last l = Some y -> last (x :: l) = Some y.
Proof. destruct l; [discriminate|]. intros H. exact H. Qed.

Lemma zip_loop_inv (infos : list ZipInfo) :
  forall (file_number : N) (found : bool) (pwd : option string)
         (acc : list string) (w : World) (paths : list string) (w' : World),
    zip_loop self archive dest_dir total infos file_number found pwd acc w
      = (py.Ok paths, w') ->
    report.extras (report w') !! "no_password" = None ->
    let budget := N.to_nat (max_files_in_archive self - file_number) in
    let head := firstn budget infos in
    let kept :=
      List.filter (fun i => negb (is_dir i)
                            && (file_size i <=? max_extracted_filesize self)%N)
                  head in
    exists (outs : list (string * file.bytes)) (more : list (string * string)),
      Forall2 (fun i o => exists pw, extract archive pw i dest_dir = py.Ok o)
              kept outs /\
      paths = acc ++ map fst outs /\
      disk w' = fold_left (fun d o => <[fst o := snd o]> d) outs (disk w) /\
      report.details (report w') = report.details (report w) ++ more /\
      (forall i, In i head -> is_dir i = false ->
                 (max_extracted_filesize self < file_size i)%N ->
                 In ("Warning", skipping_zip i) more) /\
      ((budget < length infos)%nat ->
       last more = Some ("Warning", too_many_zip self total) /\
       report.status (report w') = overflow_status self) /\
      (report.status (report w) = overflow_status self ->
       report.status (report w') = overflow_status self) /\
      ((exists i, In i head /\ is_dir i = false /\
                  (max_extracted_filesize self < file_size i)%N) ->
       report.status (report w') = overflow_status self).
Proof.
  induction infos as [|info rest IH];
    intros file_number found pwd acc w paths w' Hrun Hextra budget head kept.
  - (* the loop ends: the [else] clause *)
    cbn in Hrun. unfold bind, get, set_status, update, ret in Hrun.
    assert (Hw : paths = acc /\ disk w' = disk w /\
                 report.details (report w') = report.details (report w) /\
                 (report.status (report w) = overflow_status self ->
                  report.status (report w') = overflow_status self)).
    { destruct (helpers.eqb (report.status (report w)) helpers.RUNNING) eqn:Erun;
        inversion Hrun; subst; cbn; repeat split; auto.
      intros Hs. rewrite Hs in Erun. rewrite overflow_not_running in Erun.
      discriminate Erun. }
    destruct Hw as (-> & Hd & Hdet & Hst).
    exists [], []. subst head kept. rewrite firstn_nil. cbn [List.filter map fold_left].
    rewrite !app_nil_r.
    split; [constructor|]. split; [reflexivity|]. split; [exact Hd|].
    split; [exact Hdet|]. split; [intros i []|].
    split; [cbn; lia|]. split; [exact Hst|]. intros (i & [] & _).
  - cbn [zip_loop] in Hrun.
    destruct (N.leb_spec (max_files_in_archive self) file_number) as [Hfull|Hroom].
    + (* the count limit is reached: break *)
      cbn in Hrun. inversion Hrun; subst paths w'; clear Hrun.
      assert (Hb : budget = 0%nat) by (subst budget; lia).
      subst head kept. rewrite Hb. cbn [firstn List.filter map fold_left].
      exists [], [("Warning", too_many_zip self total)].
      rewrite app_nil_r.
      split; [constructor|]. split; [reflexivity|]. split; [reflexivity|].
      split; [reflexivity|]. split; [intros i []|].
      split; [intros _; split; reflexivity|]. split; [intros _; reflexivity|].
      intros (i & [] & _).
    + (* below the limit *)
      assert (Hb : budget = S (N.to_nat (max_files_in_archive self - (file_number + 1))))
        by (subst budget; lia).
      set (budget' := N.to_nat (max_files_in_archive self - (file_number + 1))) in *.
      assert (Hbody : forall found0 pwd0,
        (if is_dir info then
           zip_loop self archive dest_dir total rest (file_number + 1) found0 pwd0 acc
         else if (max_extracted_filesize self <? file_size info)%N then
           bind (set_status (overflow_status self))
             (fun _ => bind (add_details "Warning" (skipping_zip info))
               (fun _ => zip_loop self archive dest_dir total rest
                           (file_number + 1) found0 pwd0 acc))
         else
           bind (lift (extract archive pwd0 info dest_dir))
             (fun out => bind (write_file (fst out) (snd out))
               (fun _ => zip_loop self archive dest_dir total rest
                           (file_number + 1) found0 pwd0 (acc ++ [fst out]))))
          w = (py.Ok paths, w') ->
        exists (outs : list (string * file.bytes)) (more : list (string * string)),
          Forall2 (fun i o => exists pw, extract archive pw i dest_dir = py.Ok o)
              kept outs /\
          paths = acc ++ map fst outs /\
          disk w' = fold_left (fun d o => <[fst o := snd o]> d) outs (disk w) /\
          report.details (report w') = report.details (report w) ++ more /\
          (forall i, In i head -> is_dir i = false ->
                     (max_extracted_filesize self < file_size i)%N ->
                     In ("Warning", skipping_zip i) more) /\
          ((budget < length (info :: rest))%nat ->
           last more = Some ("Warning", too_many_zip self total) /\
           report.status (report w') = overflow_status self) /\
          (report.status (report w) = overflow_status self ->
           report.status (report w') = overflow_status self) /\
          ((exists i, In i head /\ is_dir i = false /\
                      (max_extracted_filesize self < file_size i)%N) ->
           report.status (report w') = overflow_status self)).
      { intros found0 pwd0 Hb0. subst head kept. rewrite Hb. cbn [firstn List.filter].
        destruct (is_dir info) eqn:Edir.
        - (* a directory: continue *)
          destruct (IH _ _ _ _ _ _ _ Hb0 Hextra)
            as (outs & more & H1 & H2 & H3 & H4 & H5 & H6 & H7 & H8).
          fold budget' in H1, H5, H6, H8.
          exists outs, more. cbn [negb andb].
          split; [exact H1|]. split; [exact H2|]. split; [exact H3|].
          split; [exact H4|].
          split; [intros i [<-|Hin] Hd Hsz; [congruence | eauto]|].
          split; [intros Hlt; apply H6; cbn in Hlt; lia|].
          split; [exact H7|].
          intros (i & [<-|Hin] & Hd & Hsz); [congruence|]. apply H8. eauto.
        - destruct (N.ltb_spec (max_extracted_filesize self) (file_size info))
            as [Hbig|Hfit].
          + (* too big: record and continue *)
            unfold bind at 1 2 in Hb0. cbn [set_status add_details update] in Hb0.
            destruct (IH _ _ _ _ _ _ _ Hb0 Hextra)
              as (outs & more & H1 & H2 & H3 & H4 & H5 & H6 & H7 & H8).
            fold budget' in H1, H5, H6, H8.
            cbn in H3, H4, H7.
            exists outs, (("Warning", skipping_zip info) :: more).
            assert (Hle : (file_size info <=? max_extracted_filesize self)%N = false)
              by (apply N.leb_gt; exact Hbig).
            rewrite Hle. cbn [negb andb].
            split; [exact H1|]. split; [exact H2|]. split; [exact H3|].
            split; [rewrite H4, <- app_assoc; reflexivity|].
            split; [intros i [<-|Hin] Hd Hsz; [left; reflexivity | right; eauto]|].
            split; [intros Hlt; cbn in Hlt;
                    destruct H6 as [H6a H6b]; [lia|];
                    split; [apply last_cons_some; exact H6a | exact H6b]|].
            split; [intros _; apply H7; reflexivity|].
            intros _. apply H7. reflexivity.
          + (* within the ceiling: extract *)
            unfold bind at 1 in Hb0. unfold lift in Hb0.
            destruct (extract archive pwd0 info dest_dir) as [out|e] eqn:Eout;
              [|discriminate Hb0].
            unfold bind at 1 in Hb0. cbn [write_file update] in Hb0.
            destruct (IH _ _ _ _ _ _ _ Hb0 Hextra)
              as (outs & more & H1 & H2 & H3 & H4 & H5 & H6 & H7 & H8).
            fold budget' in H1, H5, H6, H8.
            cbn in H3, H4, H7.
            exists (out :: outs), more.
            assert (Hle : (file_size info <=? max_extracted_filesize self)%N = true)
              by (apply N.leb_le; exact Hfit).
            rewrite Hle. cbn [negb andb].
            split; [constructor; [exists pwd0; exact Eout | exact H1]|].
            split; [rewrite H2, <- app_assoc; reflexivity|].
            split; [exact H3|]. split; [exact H4|].
            split; [intros i [<-|Hin] Hd Hsz; [lia | eauto]|].
            split; [intros Hlt; apply H6; cbn in Hlt; lia|].
            split; [exact H7|].
            intros (i & [<-|Hin] & Hd & Hsz); [lia|]. apply H8. eauto. }
      destruct (negb (Z.land (flag_bits info) 1 =? 0)%Z && negb found) eqn:Eenc.
      * (* an encrypted entry and no password yet: probe the candidates *)
        unfold bind at 1 in Hrun. unfold get in Hrun.
        unfold bind at 1 in Hrun. unfold lift in Hrun.
        destruct (try_passwords archive info (passwords w)) as [[p|]|e] eqn:Etry.
        -- apply (Hbody true (Some p)). exact Hrun.
        -- cbn in Hrun. inversion Hrun; subst paths w'. cbn in Hextra.
           rewrite lookup_insert_eq in Hextra. discriminate Hextra.
        -- discriminate Hrun.
      * apply (Hbody found pwd). exact Hrun.
Qed.

End ZipLoop.

Lemma last_app_some {A : Type} (l more : list A) (x : A) :
  last more = Some x -> last (l ++ more) = Some x.
Proof.
  intros H. induction l as [|y l IH]; [exact H|].
  cbn [app]. apply last_cons_some. exact IH.
Qed.

Lemma Forall2_len {A B : Type} (R : A -> B -> Prop) (l : list A) (l' : list B) :
  Forall2 R l l' -> length l = length l'.
Proof. induction 1; cbn; congruence. Qed.

Lemma filter_all {A : Type} (f : A -> bool) (l : list A) :
  Forall (fun x => f x = true) l -> List.filter f l = l.
Proof.
  induction 1 as [|x l Hx _ IH]; [reflexivity|].
  cbn. rewrite Hx, IH. reflexivity.
Qed.

(** C5 (as the code has it). For a zip archive of N entries, N above the
    max-files limit, on which the handler returns without having met an
    encrypted entry that no candidate password opens: enumeration stops at
    the limit; the returned paths are, in order, the extractions of those
    of the first max-files entries that are neither directories nor above
    the size ceiling, so there are at most max-files of them, and exactly
    max-files when all of the first max-files entries are files within the
    ceiling; the report's status is ERROR if [max_is_error] and ALERT
    otherwise, and its last detail cites N and the limit. *)
Theorem C5_zip_count_limit
    (self : extractor.Extractor)
    (zip_reader : file.Path -> py.res extractor.ZipArchive)
    (archive_file : file.File) (dest_dir : string)
    (archive : extractor.ZipArchive) (w w' : extractor.World)
    (paths : list string) :
  zip_reader (file.path archive_file) = py.Ok archive ->
  (extractor.max_files_in_archive self
   < extractor.len (extractor.infolist archive))%N ->
  extractor._extract_zip self zip_reader archive_file dest_dir w
    = (py.Ok paths, w') ->
  report.extras (extractor.report w') !! "no_password" = None ->
  let head := firstn (N.to_nat (extractor.max_files_in_archive self))
                     (extractor.infolist archive) in
  let kept :=
    List.filter
      (fun i => negb (extractor.is_dir i)
                && (extractor.file_size i
                    <=? extractor.max_extracted_filesize self)%N)
      head in
  (exists outs : list (string * file.bytes),
      Forall2 (fun i o => exists pw,
                   extractor.extract archive pw i dest_dir = py.Ok o)
              kept outs /\
      paths = map fst outs) /\
  (extractor.len paths <= extractor.max_files_in_archive self)%N /\
  (Forall (fun i => extractor.is_dir i = false /\
                    (extractor.file_size i
                     <= extractor.max_extracted_filesize self)%N) head ->
   extractor.len paths = extractor.max_files_in_archive self) /\
  report.status (extractor.report w')
  = (if extractor.max_is_error self then helpers.ERROR else helpers.ALERT) /\
  last (report.details (extractor.report w'))
  = Some ("Warning",
          "Too many files ("
            +:+ pretty (extractor.len (extractor.infolist archive))
            +:+ ") in the archive, stopping at "
            +:+ pretty (extractor.max_files_in_archive self) +:+ ".").
Proof.
  intros Hopen HN Hrun Hextra head kept.
  unfold extractor._extract_zip, extractor.bind, extractor.lift in Hrun.
  rewrite Hopen in Hrun.
  destruct (zip_loop_inv self archive dest_dir _ _ _ _ _ _ _ _ _ Hrun Hextra)
    as (outs & more & H1 & H2 & H3 & H4 & H5 & H6 & H7 & H8).
  rewrite N.sub_0_r in H1, H5, H6, H8. fold head in H1, H5, H6, H8.
  fold kept in H1. cbn [app] in H2.
  assert (Hlen : length head = N.to_nat (extractor.max_files_in_archive self)).
  { subst head. rewrite length_firstn. unfold extractor.len in HN. lia. }
  assert (Hpaths : length paths = length kept).
  { rewrite H2, length_map. symmetry. exact (Forall2_len _ _ _ H1). }
  destruct H6 as [H6a H6b]; [unfold extractor.len in HN; lia|].
  split; [exists outs; auto|].
  split.
  { unfold extractor.len. rewrite Hpaths. subst kept.
    pose proof (filter_length_le
      (fun i => negb (extractor.is_dir i)
                && (extractor.file_size i
                    <=? extractor.max_extracted_filesize self)%N) head). lia. }
  split.
  { intros Hall. unfold extractor.len. rewrite Hpaths. subst kept.
    rewrite filter_all; [lia|].
    eapply Forall_impl; [exact Hall|]. cbn beta. intros i [Hd Hs].
    rewrite Hd. cbn. apply N.leb_le. exact Hs. }
  split; [exact H6b|].
  rewrite H4. apply last_app_some. exact H6a.
Qed.

Lemma C5_zip_count_limit_witness :
  (fst (extractor_examples.unzip_three extractor_examples.cfg_error)
   = py.Ok ["/srv/t1/extracted/a.txt"; "/srv/t1/extracted/b.txt"] /\
   report.status
     (extractor.report
        (snd (extractor_examples.unzip_three extractor_examples.cfg_error)))
   = helpers.ERROR /\
   last (report.details
           (extractor.report
              (snd (extractor_examples.unzip_three extractor_examples.cfg_error))))
   = Some ("Warning", "Too many files (3) in the archive, stopping at 2.")) /\
  report.status
    (extractor.report
       (snd (extractor_examples.unzip_three extractor_examples.cfg)))
  = helpers.ALERT.
Proof.
  split.
  - split; [vm_compute; reflexivity|].
    refine (proj2 (proj2 (proj2 (C5_zip_count_limit extractor_examples.cfg_error
              (fun _ => py.Ok extractor_examples.zip_three_files)
              extractor_examples.zip_file extractor_examples.dest
              extractor_examples.zip_three_files extractor_examples.world0
              (snd (extractor_examples.unzip_three extractor_examples.cfg_error))
              ["/srv/t1/extracted/a.txt"; "/srv/t1/extracted/b.txt"]
              _ _ _ _)))).
    + reflexivity.
    + vm_compute. reflexivity.
    + vm_compute. reflexivity.
    + vm_compute. reflexivity.
  - refine (proj1 (proj2 (proj2 (proj2 (C5_zip_count_limit extractor_examples.cfg
              (fun _ => py.Ok extractor_examples.zip_three_files)
              extractor_examples.zip_file extractor_examples.dest
              extractor_examples.zip_three_files extractor_examples.world0
              (snd (extractor_examples.unzip_three extractor_examples.cfg))
              ["/srv/t1/extracted/a.txt"; "/srv/t1/extracted/b.txt"]
              _ _ _ _))))).
    + reflexivity.
    + vm_compute. reflexivity.
    + vm_compute. reflexivity.
    + vm_compute. reflexivity.
Defined.

(** C5 does not hold as the specification states it.
    A zip archive of three entries, a
    directory and two files in it, under a limit of two files, yields one
    extracted path, not two. *)
Lemma C5_directory_entry_counterexample :
  extractor.len (extractor.infolist extractor_examples.zip_folder_first) = 3%N /\
  extractor.max_files_in_archive extractor_examples.cfg = 2%N /\
  fst (extractor._extract_zip extractor_examples.cfg
         (fun _ => py.Ok extractor_examples.zip_folder_first)
         extractor_examples.zip_file extractor_examples.dest
         extractor_examples.world0)
  = py.Ok ["/srv/t1/extracted/docs/a.txt"].
Proof. vm_compute. repeat split; reflexivity. Qed.

Section TarLoop.
Import extractor.

Variable self : Extractor.
Variable archive_file : file.File.
Variable tar : TarArchive.
Variable dest_dir : string.

Lemma tar_loop_inv (members : list TarInfo) :
  forall (file_number : N) (acc : list string) (w : World)
         (paths : list string) (w' : World),
    tar_loop self archive_file tar dest_dir members file_number acc w
      = (py.Ok paths, w') ->
    let budget := N.to_nat (max_files_in_archive self - file_number) in
    let head := firstn budget members in
    let kept :=
      List.filter (fun m => isfile m
                            && (tar_size m <? max_extracted_filesize self)%N)
                  head in
    exists (outs : list (option file.bytes)) (more : list (string * string)),
      Forall2 (fun m o => tar_extract tar m dest_dir = py.Ok o) kept outs /\
      paths = acc ++ map (fun m => file.joinpath dest_dir (tar_name m)) kept /\
      disk w'
      = fold_left
          (fun d mo =>
             match snd mo with
             | Some data => <[file.joinpath dest_dir (tar_name (fst mo)) := data]> d
             | None => d
             end)
          (combine kept outs) (disk w) /\
      report.details (report w') = report.details (report w) ++ more /\
      (forall m, In m head -> isfile m = true ->
                 (max_extracted_filesize self <= tar_size m)%N ->
                 In ("Warning", too_big archive_file (tar_size m)) more) /\
      (report.status (report w) = overflow_status self ->
       report.status (report w') = overflow_status self) /\
      ((exists m, In m head /\ isfile m = true /\
                  (max_extracted_filesize self <= tar_size m)%N) ->
       report.status (report w') = overflow_status self).
Proof.
  induction members as [|tarinfo rest IH];
    intros file_number acc w paths w' Hrun budget head kept.
  - cbn in Hrun. inversion Hrun; subst paths w'.
    exists [], []. subst head kept. rewrite firstn_nil.
    cbn [List.filter map combine fold_left]. rewrite !app_nil_r.
    split; [constructor|]. split; [reflexivity|]. split; [reflexivity|].
    split; [reflexivity|]. split; [intros m []|].
    split; [auto|]. intros (m & [] & _).
  - cbn [tar_loop] in Hrun.
    destruct (N.leb_spec (max_files_in_archive self) file_number) as [Hfull|Hroom].
    + cbn in Hrun. inversion Hrun; subst paths w'; clear Hrun.
      assert (Hb : budget = 0%nat) by (subst budget; lia).
      subst head kept. rewrite Hb. cbn [firstn List.filter map combine fold_left].
      exists [], [("Warning", too_many_tar self file_number)].
      rewrite app_nil_r.
      split; [constructor|]. split; [reflexivity|]. split; [reflexivity|].
      split; [reflexivity|]. split; [intros m []|].
      split; [intros _; reflexivity|]. intros (m & [] & _).
    + assert (Hb : budget = S (N.to_nat (max_files_in_archive self - (file_number + 1))))
        by (subst budget; lia).
      set (budget' := N.to_nat (max_files_in_archive self - (file_number + 1))) in *.
      subst head kept. rewrite Hb. cbn [firstn List.filter].
      destruct (isfile tarinfo) eqn:Efile; cbn [negb andb] in *.
      * destruct (N.leb_spec (max_extracted_filesize self) (tar_size tarinfo))
          as [Hbig|Hfit].
        -- (* at or above the ceiling: record and continue *)
           unfold bind at 1 2 in Hrun. cbn [set_status add_details update] in Hrun.
           destruct (IH _ _ _ _ _ Hrun)
             as (outs & more & H1 & H2 & H3 & H4 & H5 & H6 & H7).
           fold budget' in H1, H2, H3, H5, H7.
           cbn in H3, H4, H6.
           assert (Hlt : (tar_size tarinfo <? max_extracted_filesize self)%N = false)
             by (apply N.ltb_ge; exact Hbig).
           rewrite Hlt.
           exists outs, (("Warning", too_big archive_file (tar_size tarinfo)) :: more).
           split; [exact H1|]. split; [exact H2|]. split; [exact H3|].
           split; [rewrite H4, <- app_assoc; reflexivity|].
           split; [intros m [<-|Hin] Hf Hsz; [left; reflexivity | right; eauto]|].
           split; [intros _; apply H6; reflexivity|].
           intros _. apply H6. reflexivity.
        -- (* below the ceiling: extract *)
           unfold bind at 1 in Hrun. unfold lift in Hrun.
           destruct (tar_extract tar tarinfo dest_dir) as [written|e] eqn:Eout;
             [|discriminate Hrun].
           unfold bind at 1 in Hrun.
           assert (Hlt : (tar_size tarinfo <? max_extracted_filesize self)%N = true)
             by (apply N.ltb_lt; exact Hfit).
           rewrite Hlt.
           destruct written as [data|]; cbn [write_file update ret] in Hrun;
             destruct (IH _ _ _ _ _ Hrun)
               as (outs & more & H1 & H2 & H3 & H4 & H5 & H6 & H7);
             fold budget' in H1, H2, H3, H5, H7;
             cbn in H3, H4, H6;
             [exists (Some data :: outs), more | exists (None :: outs), more];
             (split; [constructor; [exact Eout | exact H1]|]);
             (split; [rewrite H2, <- app_assoc; reflexivity|]);
             (split; [exact H3|]); (split; [exact H4|]);
             (split; [intros m [<-|Hin] Hf Hsz; [lia | eauto]|]);
             (split; [exact H6|]);
             intros (m & [<-|Hin] & Hf & Hsz); [lia | apply H7; eauto
                                               | lia | apply H7; eauto].
      * (* not a regular file: continue *)
        destruct (IH _ _ _ _ _ Hrun)
          as (outs & more & H1 & H2 & H3 & H4 & H5 & H6 & H7).
        fold budget' in H1, H2, H3, H5, H7.
        exists outs, more.
        split; [exact H1|]. split; [exact H2|]. split; [exact H3|].
        split; [exact H4|].
        split; [intros m [<-|Hin] Hf Hsz; [congruence | eauto]|].
        split; [exact H6|].
        intros (m & [<-|Hin] & Hf & Hsz); [congruence|]. apply H7. eauto.
Qed.

End TarLoop.

(** C6 (as the code has it). On a zip archive (when the handler returns
    without having met an encrypted entry that no candidate password
    opens) and on a tar archive (when the handler returns), the returned
    paths are, in order, the extractions of those of the first max-files
    entries that are regular files within the ceiling (zip: declared size
    at most the ceiling; tar: size below the ceiling), written to disk;
    every regular-file entry among the first max-files entries that is
    over the ceiling (zip: size above it; tar: size at or above it) is
    skipped: it is not among the extracted entries, the report holds a
    detail citing its size, and the report's status is ERROR if
    [max_is_error] and ALERT if not. *)
Theorem C6_oversize_entries_skipped
    (self : extractor.Extractor) (archive_file : file.File)
    (dest_dir : string) (w w' : extractor.World) (paths : list string) :
  (forall (zip_reader : file.Path -> py.res extractor.ZipArchive)
          (archive : extractor.ZipArchive),
      zip_reader (file.path archive_file) = py.Ok archive ->
      extractor._extract_zip self zip_reader archive_file dest_dir w
        = (py.Ok paths, w') ->
      report.extras (extractor.report w') !! "no_password" = None ->
      let head := firstn (N.to_nat (extractor.max_files_in_archive self))
                         (extractor.infolist archive) in
      let kept :=
        List.filter
          (fun i => negb (extractor.is_dir i)
                    && (extractor.file_size i
                        <=? extractor.max_extracted_filesize self)%N)
          head in
      (exists outs : list (string * file.bytes),
          Forall2 (fun i o => exists pw,
                       extractor.extract archive pw i dest_dir = py.Ok o)
                  kept outs /\
          paths = map fst outs /\
          extractor.disk w'
          = fold_left (fun d o => <[fst o := snd o]> d) outs (extractor.disk w)) /\
      (forall info,
          In info head -> extractor.is_dir info = false ->
          (extractor.max_extracted_filesize self < extractor.file_size info)%N ->
          ~ In info kept /\
          In ("Warning",
              "Skipping file " +:+ extractor.filename info +:+ ", too big ("
                +:+ pretty (extractor.file_size info) +:+ ").")
             (report.details (extractor.report w')) /\
          report.status (extractor.report w')
          = (if extractor.max_is_error self
             then helpers.ERROR else helpers.ALERT))) /\
  (forall (P : extractor.Platform) (tar : extractor.TarArchive)
          (members : list extractor.TarInfo),
      extractor.TarFile P (file.path archive_file) = py.Ok tar ->
      extractor.getmembers tar = py.Ok members ->
      extractor._extract_tar self P archive_file dest_dir w = (py.Ok paths, w') ->
      let head := firstn (N.to_nat (extractor.max_files_in_archive self)) members in
      let kept :=
        List.filter
          (fun m => extractor.isfile m
                    && (extractor.tar_size m
                        <? extractor.max_extracted_filesize self)%N)
          head in
      (exists outs : list (option file.bytes),
          Forall2 (fun m o => extractor.tar_extract tar m dest_dir = py.Ok o)
                  kept outs /\
          paths = map (fun m => file.joinpath dest_dir (extractor.tar_name m)) kept /\
          extractor.disk w'
          = fold_left
              (fun d mo =>
                 match snd mo with
                 | Some data =>
                     <[file.joinpath dest_dir (extractor.tar_name (fst mo)) := data]> d
                 | None => d
                 end)
              (combine kept outs) (extractor.disk w)) /\
      (forall m,
          In m head -> extractor.isfile m = true ->
          (extractor.max_extracted_filesize self <= extractor.tar_size m)%N ->
          ~ In m kept /\
          In ("Warning",
              "File " +:+ file.name (file.path archive_file) +:+ " too big ("
                +:+ pretty (extractor.tar_size m) +:+ ").")
             (report.details (extractor.report w')) /\
          report.status (extractor.report w')
          = (if extractor.max_is_error self
             then helpers.ERROR else helpers.ALERT))).
Proof.
  split.
  - intros zip_reader archive Hopen Hrun Hextra head kept.
    unfold extractor._extract_zip, extractor.bind, extractor.lift in Hrun.
    rewrite Hopen in Hrun.
    destruct (zip_loop_inv self archive dest_dir _ _ _ _ _ _ _ _ _ Hrun Hextra)
      as (outs & more & H1 & H2 & H3 & H4 & H5 & _ & _ & H8).
    rewrite N.sub_0_r in H1, H5, H8. fold head in H1, H5, H8. fold kept in H1.
    split; [exists outs; auto|].
    intros info Hin Hd Hsz. split; [|split].
    + subst kept. rewrite filter_In. intros [_ Hk].
      rewrite Hd in Hk. cbn in Hk. apply N.leb_le in Hk. lia.
    + rewrite H4. apply in_or_app. right. apply (H5 info); assumption.
    + apply H8. eauto.
  - intros P tar members Hopen Hmem Hrun head kept.
    unfold extractor._extract_tar, extractor.bind, extractor.lift in Hrun.
    rewrite Hopen, Hmem in Hrun.
    destruct (tar_loop_inv self archive_file tar dest_dir _ _ _ _ _ _ Hrun)
      as (outs & more & H1 & H2 & H3 & H4 & H5 & _ & H7).
    rewrite N.sub_0_r in H1, H2, H3, H5, H7.
    fold head in H1, H2, H3, H5, H7. fold kept in H1, H2, H3.
    split; [exists outs; auto|].
    intros m Hin Hf Hsz. split; [|split].
    + subst kept. rewrite filter_In. intros [_ Hk].
      rewrite Hf in Hk. cbn in Hk. apply N.ltb_lt in Hk. lia.
    + rewrite H4. apply in_or_app. right. apply (H5 m); assumption.
    + apply H7. eauto.
Qed.

Lemma C6_oversize_entries_skipped_witness :
  (fst (extractor_examples.untar_big_small extractor_examples.cfg_error)
   = py.Ok ["/srv/t1/extracted/small.txt"] /\
   extractor.disk (snd (extractor_examples.untar_big_small extractor_examples.cfg_error))
   = <["/srv/t1/extracted/small.txt" := extractor_examples.three_bytes]> ∅ /\
   In ("Warning", "File bundle.tar too big (5000000).")
      (report.details
         (extractor.report
            (snd (extractor_examples.untar_big_small extractor_examples.cfg_error)))) /\
   report.status
     (extractor.report
        (snd (extractor_examples.untar_big_small extractor_examples.cfg_error)))
   = helpers.ERROR) /\
  (In ("Warning", "Skipping file big.bin, too big (5000000).")
      (report.details
         (extractor.report
            (snd (extractor_examples.unzip_big_small extractor_examples.cfg)))) /\
   report.status
     (extractor.report
        (snd (extractor_examples.unzip_big_small extractor_examples.cfg)))
   = helpers.ALERT).
Proof.
  split.
  - pose proof (proj2 (C6_oversize_entries_skipped extractor_examples.cfg_error
              extractor_examples.tar_file extractor_examples.dest
              extractor_examples.world0
              (snd (extractor_examples.untar_big_small extractor_examples.cfg_error))
              ["/srv/t1/extracted/small.txt"])
              (extractor_examples.with_tar extractor_examples.tar_big_then_small
                 extractor_examples.bare)
              extractor_examples.tar_big_then_small
              [extractor.mkTarInfo "big.bin" 5000000 true;
               extractor.mkTarInfo "small.txt" 3 true]
              eq_refl eq_refl eq_refl) as [_ Hskip].
    destruct (Hskip (extractor.mkTarInfo "big.bin" 5000000 true))
      as (_ & Hdetail & Hstatus).
    + left. reflexivity.
    + reflexivity.
    + vm_compute. discriminate.
    + split; [reflexivity|]. split; [reflexivity|].
      split; [exact Hdetail | exact Hstatus].
  - pose proof (proj1 (C6_oversize_entries_skipped extractor_examples.cfg
              extractor_examples.zip_file extractor_examples.dest
              extractor_examples.world0
              (snd (extractor_examples.unzip_big_small extractor_examples.cfg))
              ["/srv/t1/extracted/small.txt"])
              (fun _ => py.Ok extractor_examples.zip_big_then_small)
              extractor_examples.zip_big_then_small
              eq_refl eq_refl eq_refl) as [_ Hskip].
    destruct (Hskip (extractor_examples.entry "big.bin" 5000000))
      as (_ & Hdetail & Hstatus).
    + left. reflexivity.
    + reflexivity.
    + reflexivity.
    + split; [exact Hdetail | exact Hstatus].
Defined.

(** C6 does not hold as the specification states it.
    In a zip archive whose first entry is
    encrypted and opens with no candidate password, enumeration stops
    there: the five-megabyte entry behind it (ceiling: one megabyte) is
    never examined, the report ends WARN and its only detail is about the
    password.  In a tar archive, a member of exactly the ceiling's size,
    which does not exceed the ceiling, is skipped and reported too big. *)
Lemma C6_unexamined_entry_counterexample :
  extractor._extract_zip extractor_examples.cfg
    (fun _ => py.Ok extractor_examples.zip_locked_then_big)
    extractor_examples.zip_file extractor_examples.dest
    (extractor.with_passwords ["infected"] extractor_examples.world0)
  = (py.Ok [],
     extractor.with_report
       (fun _ =>
          report.mkReport "t1" "extractor" helpers.WARN false
            [("Warning", "File encrypted and unable to find password")]
            (<["no_password" := py.PyBool true]> ∅))
       (extractor.with_passwords ["infected"] extractor_examples.world0)) /\
  extractor.max_extracted_filesize extractor_examples.cfg = 1000000%N /\
  extractor._extract_tar extractor_examples.cfg
    (extractor_examples.with_tar extractor_examples.tar_at_ceiling
       extractor_examples.bare)
    extractor_examples.tar_file extractor_examples.dest
    extractor_examples.world0
  = (py.Ok [],
     extractor.with_report
       (fun _ =>
          report.mkReport "t1" "extractor" helpers.ALERT false
            [("Warning", "File bundle.tar too big (1000000).")] ∅)
       extractor_examples.world0).
Proof. vm_compute. repeat split; reflexivity. Qed.

(* ===================================================================== *)
(** * The Extractor: [analyse] *)
(* ===================================================================== *)

Section AnalyseFacts.
Import extractor.

Variables h7z hrar hiso : Extractor -> handler.
Variable self : Extractor.
Variable P : Platform.

Lemma archive_not_mail (f : file.File) :
  file.is_archive f = true -> file.is_eml f = false /\ file.is_msg f = false.
Proof.
  unfold file.is_archive, file.is_eml, file.is_msg. intros H.
  apply String.eqb_eq in H. rewrite H. split; reflexivity.
Qed.




Lemma archive_part_raises (tsk : task.Task) (r : Run) :
  archive_part h7z hrar hiso self P tsk r
  = (py.Raise (py.AttributeError "'Task' object has no attribute 'password'"), r).
Proof. reflexivity. Qed.

End AnalyseFacts.

(** C7 (code defect). The claim promises that an archive whose handler
    raises leaves the report WARN, with [analyse] returning.  For every
    task whose file is an archive and whose user is set, [analyse] reads
    [task.password] ([extractor.py], line 359) before the [try]; a Task
    has no such attribute, so [analyse] raises AttributeError: no format
    handler is called, the report is left as it was and no child is
    created. *)
Theorem C7_archive_raises_before_handler
    (h7z hrar hiso : extractor.Extractor -> extractor.handler)
    (self : extractor.Extractor) (P : extractor.Platform)
    (fuel : nat) (tsk : task.Task) (manual_trigger : bool)
    (r : extractor.Run) :
  file.is_archive (task.file tsk) = true ->
  is_Some (task.user tsk) ->
  extractor.analyse h7z hrar hiso self P fuel tsk manual_trigger r
  = (extractor.Raised
       (py.AttributeError "'Task' object has no attribute 'password'"),
     extractor.with_tasks [] r).
Proof.
  intros Harc [u Hu].
  unfold extractor.analyse, extractor.gather.
  rewrite Harc, Hu. cbn [orb negb].
  unfold extractor.bind at 1. cbn [extractor.update].
  unfold extractor.bind at 1. rewrite archive_part_raises. reflexivity.
Qed.

Lemma C7_archive_raises_before_handler_witness :
  extractor.analyse extractor_examples.no_handler
    extractor_examples.no_handler extractor_examples.no_handler
    extractor_examples.cfg extractor_examples.bare 0
    (extractor_examples.parent_task extractor_examples.zip_file) false
    extractor_examples.run0
  = (extractor.Raised
       (py.AttributeError "'Task' object has no attribute 'password'"),
     extractor_examples.run0).
Proof.
  apply (C7_archive_raises_before_handler
           extractor_examples.no_handler extractor_examples.no_handler
           extractor_examples.no_handler extractor_examples.cfg
           extractor_examples.bare 0
           (extractor_examples.parent_task extractor_examples.zip_file) false
           extractor_examples.run0).
  - reflexivity.
  - exists "admin". reflexivity.
Defined.

Section GatherReturn.
Import extractor.

Variables h7z hrar hiso : Extractor -> handler.
Variable self : Extractor.
Variable P : Platform.

Lemma eml_part_return (tsk : task.Task) (r r1 : Run) :
  eml_part P tsk r = (py.Ok Return, r1) ->
  report.status (report (world r1)) = helpers.NOTAPPLICABLE.
Proof.
  unfold eml_part, try_except_Exception, try_except.
  unfold bind at 1. unfold lift.
  destruct (file.eml_data (task.file tsk)) as [data|e].
  - assert (Hna : forall r0 : Run,
              bind (in_world (set_status helpers.NOTAPPLICABLE))
                   (fun _ => ret Return) r0 = (py.Ok Return, r1) ->
              report.status (report (world r1)) = helpers.NOTAPPLICABLE).
    { intros r0 H. cbn in H. inversion H. reflexivity. }
    destruct data as [[[[|att atts]|]]|]; try (intros H; exact (Hna _ H)).
    unfold bind at 1.
    destruct (spawn_attachments P tsk (att :: atts) r) as [[[]|e] r2].
    + cbn. intros H. inversion H.
    + unfold raise, ret. destruct (py.is_Exception e); intros H; inversion H.
  - unfold raise, ret. destruct (py.is_Exception e); intros H; inversion H.
Qed.

Lemma msg_part_return (tsk : task.Task) (r r1 : Run) :
  msg_part P tsk r = (py.Ok Return, r1) ->
  report.status (report (world r1)) = helpers.NOTAPPLICABLE.
Proof.
  unfold msg_part, try_except_Exception, try_except.
  unfold bind at 1.
  match goal with
  | |- context [match ?m r with _ => _ end] => destruct (m r) as [[[]|e] r2]
  end.
  - unfold bind at 1. unfold get. destruct (tasks r2).
    + cbn. intros H. inversion H. reflexivity.
    + cbn. intros H. inversion H.
  - unfold raise, ret. destruct (py.is_Exception e); intros H; inversion H.
Qed.

Lemma gather_return (tsk : task.Task) (r r1 : Run) :
  gather h7z hrar hiso self P tsk r = (py.Ok Return, r1) ->
  report.status (report (world r1)) = helpers.NOTAPPLICABLE.
Proof.
  unfold gather.
  destruct (negb (file.is_archive (task.file tsk) || file.is_eml (task.file tsk)
                  || file.is_msg (task.file tsk))).
  - cbn. intros H. inversion H. reflexivity.
  - destruct (task.user tsk); [|intros H; inversion H].
    unfold bind at 1. cbn [update].
    unfold bind at 1.
    match goal with
    | |- context [match ?m ?r0 with _ => _ end] => destruct (m r0) as [[[]|e] r2]
    end; [|intros H; inversion H].
    destruct (file.is_eml (task.file tsk)); [apply eml_part_return|].
    destruct (file.is_msg (task.file tsk)); [apply msg_part_return|].
    intros H. inversion H.
Qed.

End GatherReturn.



(* ===================================================================== *)
(** * Further properties: [expire_in_sec] *)
(* ===================================================================== *)

Section ExpireInSec.
Import helpers.

Lemma append_nil_l (t : string) : EmptyString +:+ t = t.
Proof. reflexivity. Qed.

Lemma append_cons (c : Ascii.ascii) (s t : string) :
  String c s +:+ t = String c (s +:+ t).
Proof. reflexivity. Qed.

Lemma append_nil_r (s : string) : s +:+ EmptyString = s.
Proof.
  induction s as [|c s IH]; [reflexivity|].
  rewrite append_cons, IH. reflexivity.
Qed.

Lemma pretty_N_char_digit (d : N) :
  (d < 10)%N ->
  is_digit (pretty_N_char d) = true /\
  (Ascii.N_of_ascii (pretty_N_char d) - 48)%N = d.
Proof.
  intros H.
  assert (Hd : (d = 0 \/ d = 1 \/ d = 2 \/ d = 3 \/ d = 4 \/ d = 5 \/ d = 6
                \/ d = 7 \/ d = 8 \/ d = 9)%N) by lia.
  repeat (destruct Hd as [->|Hd]; [split; reflexivity|]).
  subst d. split; reflexivity.
Qed.

Lemma pretty_N_go_app (x : N) :
  forall s t : string, pretty_N_go x s +:+ t = pretty_N_go x (s +:+ t).
Proof.
  induction (N.lt_wf_0 x) as [x _ IH]. intros s t.
  destruct (N.eq_dec x 0%N) as [->|Hx].
  - rewrite !pretty_N_go_0. reflexivity.
  - rewrite !(pretty_N_go_step x) by lia.
    rewrite IH by (apply N.div_lt; lia). reflexivity.
Qed.

Lemma span_digits_pretty_N_go (x : N) :
  forall s : string,
    span_digits (pretty_N_go x s)
    = (pretty_N_go x (fst (span_digits s)), snd (span_digits s)).
Proof.
  induction (N.lt_wf_0 x) as [x _ IH]. intros s.
  destruct (N.eq_dec x 0%N) as [->|Hx].
  - rewrite !pretty_N_go_0. destruct (span_digits s); reflexivity.
  - rewrite !(pretty_N_go_step x) by lia.
    rewrite IH by (apply N.div_lt; lia).
    cbn [span_digits].
    destruct (pretty_N_char_digit (x `mod` 10)%N) as [Hdig _];
      [apply N.mod_lt; lia|].
    rewrite Hdig. reflexivity.
Qed.

Lemma int_of_digits_pretty_N_go (x : N) :
  exists k : N,
    forall (s : string) (acc : N),
      int_of_digits_from (pretty_N_go x s) acc
      = int_of_digits_from s (acc * 10 ^ k + x)%N.
Proof.
  induction (N.lt_wf_0 x) as [x _ IH].
  destruct (N.eq_dec x 0%N) as [->|Hx].
  - exists 0%N. intros s acc. rewrite pretty_N_go_0. f_equal. cbn. lia.
  - destruct (IH (x `div` 10)%N) as [k Hk]; [apply N.div_lt; lia|].
    exists (k + 1)%N. intros s acc.
    rewrite pretty_N_go_step by lia. rewrite Hk.
    cbn [int_of_digits_from].
    destruct (pretty_N_char_digit (x `mod` 10)%N) as [_ Hval];
      [apply N.mod_lt; lia|].
    rewrite Hval. f_equal.
    rewrite N.pow_add_r, N.pow_1_r.
    pose proof (N.div_mod x 10). lia.
Qed.

Lemma pretty_N_as_go (n : N) :
  pretty n = pretty_N_go n EmptyString \/ (n = 0%N /\ pretty n = "0").
Proof.
  unfold pretty, pretty_N. destruct (decide (n = 0%N)); auto.
Qed.

Lemma pretty_N_go_nonempty (x : N) (s : string) :
  (0 < x)%N -> pretty_N_go x s <> EmptyString.
Proof.
  revert s. induction (N.lt_wf_0 x) as [x _ IH]. intros s Hx.
  rewrite pretty_N_go_step by lia.
  destruct (N.eq_dec (x `div` 10)%N 0%N) as [->|Hq].
  - rewrite pretty_N_go_0. discriminate.
  - apply IH; [apply N.div_lt; lia | apply N.neq_0_lt_0; exact Hq].
Qed.

(** What [span_digits] and [int] make of a printed number followed by a
    unit that starts with no digit. *)
Lemma span_pretty_unit (n : N) (u : string) :
  span_digits u = (EmptyString, u) ->
  span_digits (pretty n +:+ u) = (pretty n, u) /\
  pretty n <> EmptyString /\
  int_of_digits (pretty n) = n.
Proof.
  intros Hu.
  destruct (pretty_N_as_go n) as [Hgo|[-> Hz]].
  - destruct (N.eq_dec n 0%N) as [->|Hn].
    + change (pretty 0%N) with "0".
      rewrite append_cons, append_nil_l. cbn [span_digits].
      change (is_digit (Ascii.ascii_of_nat 48)) with true. cbn iota.
      rewrite Hu. repeat split. discriminate.
    + rewrite Hgo. rewrite pretty_N_go_app, append_nil_l.
      rewrite span_digits_pretty_N_go, Hu. cbn [fst snd].
      split; [reflexivity|]. split; [apply pretty_N_go_nonempty; lia|].
      destruct (int_of_digits_pretty_N_go n) as [k Hk].
      unfold int_of_digits. rewrite Hk. cbn. lia.
  - rewrite Hz.
    rewrite append_cons, append_nil_l. cbn [span_digits].
    change (is_digit (Ascii.ascii_of_nat 48)) with true. cbn iota.
    rewrite Hu. repeat split. discriminate.
Qed.

Lemma span_digits_split (s : string) :
  s = fst (span_digits s) +:+ snd (span_digits s) /\
  Forall (fun c => is_digit c = true) (String.list_ascii_of_string (fst (span_digits s))).
Proof.
  induction s as [|c s [IH1 IH2]]; cbn.
  - split; [reflexivity | constructor].
  - destruct (is_digit c) eqn:E; cbn.
    + split; [rewrite append_cons; f_equal; exact IH1 | constructor; assumption].
    + split; [reflexivity | constructor].
Qed.

End ExpireInSec.

(** X1. [expire_in_sec] turns a decimal number followed by nothing, "s",
    "m", "h" or "d" into that many seconds, minutes, hours or days, in
    seconds, as long as the duration fits a [timedelta]; a non-negative
    integer is taken as seconds. *)
Theorem X1_expire_in_sec_units (n : N) :
  (forall (u : string) (unit_seconds : N),
      In (u, unit_seconds)
         [(EmptyString, 1%N); ("s", 1%N); ("m", 60%N); ("h", 3600%N);
          ("d", 86400%N)] ->
      (n * unit_seconds <= helpers.timedelta_max_seconds)%N ->
      helpers.expire_in_sec (py.PyStr (pretty n +:+ u))
      = py.Ok (Z.of_N (n * unit_seconds))) /\
  ((n <= helpers.timedelta_max_seconds)%N ->
   helpers.expire_in_sec (py.PyInt (Z.of_N n)) = py.Ok (Z.of_N n)).
Proof.
  assert (Hunits : forall (u : string) (unit_seconds : N),
      In (u, unit_seconds)
         [(EmptyString, 1%N); ("s", 1%N); ("m", 60%N); ("h", 3600%N);
          ("d", 86400%N)] ->
      (n * unit_seconds <= helpers.timedelta_max_seconds)%N ->
      helpers.expire_in_sec (py.PyStr (pretty n +:+ u))
      = py.Ok (Z.of_N (n * unit_seconds))).
  { intros u unit_seconds Hin Hfit.
    assert (Hu : helpers.span_digits u = (EmptyString, u)).
    { destruct Hin as [H|[H|[H|[H|[H|[]]]]]]; inversion H; reflexivity. }
    destruct (span_pretty_unit n u Hu) as (Hspan & Hne & Hval).
    assert (Hleb : (n * unit_seconds <=? helpers.timedelta_max_seconds)%N = true)
      by (apply N.leb_le; exact Hfit).
    assert (Hmatch : helpers.fullmatch_time (pretty n +:+ u) = Some (pretty n, u)).
    { unfold helpers.fullmatch_time. rewrite Hspan. cbn [fst snd].
      apply String.eqb_neq in Hne. rewrite Hne.
      destruct Hin as [H|[H|[H|[H|[H|[]]]]]]; inversion H; reflexivity. }
    assert (Htruthy : helpers.truthy (py.PyStr (pretty n +:+ u)) = true).
    { cbn [helpers.truthy]. apply negb_true_iff, String.eqb_neq. intros Heq.
      apply Hne. destruct (pretty n); [reflexivity|].
      rewrite append_cons in Heq. discriminate Heq. }
    unfold helpers.expire_in_sec. rewrite Htruthy. cbn [negb helpers.str].
    rewrite Hmatch, Hval.
    destruct Hin as [H|[H|[H|[H|[H|[]]]]]]; inversion H; subst u unit_seconds;
      cbn -[helpers.timedelta_seconds]; unfold helpers.timedelta_seconds;
      rewrite Hleb; reflexivity. }
  split; [exact Hunits|].
  intros Hfit.
  destruct (N.eq_dec n 0%N) as [->|Hn]; [reflexivity|].
  specialize (Hunits EmptyString 1%N (or_introl eq_refl)).
  rewrite N.mul_1_r, append_nil_r in Hunits. specialize (Hunits Hfit).
  unfold helpers.expire_in_sec in *.
  assert (Ht : helpers.truthy (py.PyInt (Z.of_N n)) = true).
  { cbn. apply negb_true_iff, Z.eqb_neq. lia. }
  rewrite Ht. cbn [negb].
  assert (Hs : helpers.truthy (py.PyStr (pretty n)) = true).
  { cbn. apply negb_true_iff, String.eqb_neq.
    destruct (span_pretty_unit n EmptyString eq_refl) as (_ & Hne & _). exact Hne. }
  rewrite Hs in Hunits. cbn [negb helpers.str] in Hunits.
  replace (helpers.str (py.PyInt (Z.of_N n))) with (pretty n); [exact Hunits|].
  destruct n; [lia | reflexivity].
Qed.

Lemma X1_expire_in_sec_units_witness :
  helpers.expire_in_sec (py.PyStr "30m") = py.Ok 1800.
Proof.
  apply (proj1 (X1_expire_in_sec_units 30) "m" 60%N).
  - right. right. left. reflexivity.
  - vm_compute. discriminate.
Defined.

(** X2. [expire_in_sec] raises on every negative integer; on a decimal
    number followed by text (of code points below 256) that does not
    begin with a digit and is not one of the letters s, m, h, d; and on
    every number whose duration does not fit a [timedelta]. *)
Theorem X2_expire_in_sec_rejects :
  (forall p : positive,
      exists e, helpers.expire_in_sec (py.PyInt (Z.neg p)) = py.Raise e) /\
  (forall (n : N) (u : string),
      helpers.span_digits u = (EmptyString, u) ->
      ~ In u helpers.time_units ->
      helpers.expire_in_sec (py.PyStr (pretty n +:+ u))
      = py.Raise (py.Exn py.OtherException
                    ("impossible to parse cache '" +:+ (pretty n +:+ u) +:+ "'"))) /\
  (forall (n : N) (u : string) (unit_seconds : N),
      In (u, unit_seconds)
         [(EmptyString, 1%N); ("s", 1%N); ("m", 60%N); ("h", 3600%N);
          ("d", 86400%N)] ->
      (helpers.timedelta_max_seconds < n * unit_seconds)%N ->
      exists e,
        helpers.expire_in_sec (py.PyStr (pretty n +:+ u)) = py.Raise e).
Proof.
  assert (Htruthy : forall (n : N) (u : string),
             helpers.span_digits u = (EmptyString, u) ->
             helpers.truthy (py.PyStr (pretty n +:+ u)) = true).
  { intros n u Hu. destruct (span_pretty_unit n u Hu) as (_ & Hne & _).
    cbn [helpers.truthy]. apply negb_true_iff, String.eqb_neq. intros Heq.
    apply Hne. destruct (pretty n); [reflexivity|].
    rewrite append_cons in Heq. discriminate Heq. }
  split; [|split].
  - intros p. eexists. reflexivity.
  - intros n u Hu Hnot.
    destruct (span_pretty_unit n u Hu) as (Hspan & Hne & _).
    unfold helpers.expire_in_sec. rewrite (Htruthy n u Hu).
    cbn [negb helpers.str].
    unfold helpers.fullmatch_time. rewrite Hspan. cbn [fst snd].
    apply String.eqb_neq in Hne. rewrite Hne.
    destruct (existsb (String.eqb u) helpers.time_units) eqn:Eu; [|reflexivity].
    exfalso. apply Hnot.
    apply existsb_exists in Eu. destruct Eu as (u' & Hin & Heq).
    apply String.eqb_eq in Heq. rewrite Heq. exact Hin.
  - intros n u unit_seconds Hin Hbig.
    assert (Hu : helpers.span_digits u = (EmptyString, u)).
    { destruct Hin as [H|[H|[H|[H|[H|[]]]]]]; inversion H; reflexivity. }
    destruct (span_pretty_unit n u Hu) as (Hspan & Hne & Hval).
    assert (Hleb : (n * unit_seconds <=? helpers.timedelta_max_seconds)%N = false)
      by (apply N.leb_gt; exact Hbig).
    unfold helpers.expire_in_sec. rewrite (Htruthy n u Hu).
    cbn [negb helpers.str].
    unfold helpers.fullmatch_time. rewrite Hspan. cbn [fst snd].
    apply String.eqb_neq in Hne. rewrite Hne.
    destruct Hin as [H|[H|[H|[H|[H|[]]]]]]; inversion H; subst u unit_seconds;
      cbn -[helpers.timedelta_seconds]; unfold helpers.timedelta_seconds;
      rewrite Hval, Hleb; eexists; reflexivity.
Qed.

Lemma X2_expire_in_sec_rejects_witness :
  helpers.expire_in_sec (py.PyStr "30 m")
  = py.Raise (py.Exn py.OtherException "impossible to parse cache '30 m'") /\
  exists e,
    helpers.expire_in_sec (py.PyStr (pretty 1000000000%N +:+ "d")) = py.Raise e.
Proof.
  split.
  - apply (proj1 (proj2 X2_expire_in_sec_rejects) 30%N " m").
    + reflexivity.
    + vm_compute. intros [H|[H|[H|[H|[H|[]]]]]]; discriminate H.
  - apply (proj2 (proj2 X2_expire_in_sec_rejects) 1000000000%N "d" 86400%N).
    + right. right. right. right. left. reflexivity.
    + vm_compute. reflexivity.
Defined.

(* ===================================================================== *)
(** * Further properties: [workers] *)
(* ===================================================================== *)

Section WorkersConfig.
Import helpers.

Variable default_config : Config.

Lemma load_configs_entries (files : list ConfigFile) :
  forall acc m,
    load_configs default_config files acc = py.Ok m ->
    (forall name wc,
        m !! name = Some wc ->
        acc !! name = Some wc \/
        exists f,
          In f files /\ file_stem f = name /\
          file_name f <> "base.yml" /\
          exists sample default_meta sample_meta module_meta default_settings,
            sample_config f = Some sample /\
            meta default_config = Some default_meta /\
            meta sample = Some sample_meta /\
            meta (module_config f) = Some module_meta /\
            settings default_config = Some default_settings /\
            wc = mkWorkerConfig
                   (module_meta ∪ (sample_meta ∪ default_meta))
                   (update_from (settings (module_config f))
                      (update_from (settings sample) default_settings))) /\
    (forall name, is_Some (acc !! name) -> is_Some (m !! name)) /\
    (forall f, In f files -> file_name f <> "base.yml" ->
               is_Some (m !! file_stem f)).
Proof.
  induction files as [|f rest IH]; intros acc m Hload.
  - cbn in Hload. inversion Hload; subst m.
    split; [auto|]. split; [auto|]. intros f [].
  - cbn [load_configs] in Hload.
    destruct (String.eqb (file_name f) "base.yml") eqn:Ebase.
    + destruct (IH _ _ Hload) as (H1 & H2 & H3).
      split; [|split].
      * intros name wc Hm. destruct (H1 name wc Hm) as [Ha|(f' & Hin & Hs & Hb)];
          [left; exact Ha | right; exists f'; split; [right; exact Hin | auto]].
      * exact H2.
      * intros f' [<-|Hin] Hnb; [|apply H3; assumption].
        apply String.eqb_eq in Ebase. contradiction.
    + destruct (sample_config f) as [sample|] eqn:Esample;
        [|destruct (meta default_config); discriminate Hload].
      destruct (meta default_config) as [dm|] eqn:Edm; [|discriminate Hload].
      destruct (meta sample) as [sm|] eqn:Esm; [|discriminate Hload].
      destruct (meta (module_config f)) as [mm|] eqn:Emm; [|discriminate Hload].
      destruct (settings default_config) as [ds|] eqn:Eds; [|discriminate Hload].
      cbn [getitem] in Hload.
      destruct (IH _ _ Hload) as (H1 & H2 & H3).
      split; [|split].
      * intros name wc Hm. destruct (H1 name wc Hm) as [Ha|(f' & Hin & Hs & Hb)].
        -- destruct (decide (file_stem f = name)) as [Heq|Hne].
           ++ right. exists f. split; [left; reflexivity|]. split; [exact Heq|].
              rewrite Heq, lookup_insert_eq in Ha. inversion Ha; subst wc.
              split; [apply String.eqb_neq; exact Ebase|].
              exists sample, dm, sm, mm, ds. auto 10.
           ++ left. rewrite lookup_insert_ne in Ha by exact Hne. exact Ha.
        -- right. exists f'. split; [right; exact Hin | auto].
      * intros name Hsome. apply H2.
        destruct (decide (file_stem f = name)) as [Heq|Hne].
        -- rewrite Heq, lookup_insert_eq. eauto.
        -- rewrite lookup_insert_ne by exact Hne. exact Hsome.
      * intros f' [<-|Hin] Hnb; [|apply H3; assumption].
        apply H2. rewrite lookup_insert_eq. eauto.
Qed.

Lemma load_configs_needs_sample (files : list ConfigFile) :
  forall acc f,
    In f files ->
    file_name f <> "base.yml" ->
    sample_config f = None \/
    (exists c, sample_config f = Some c /\ meta c = None) ->
    exists e, load_configs default_config files acc = py.Raise e.
Proof.
  induction files as [|f0 rest IH]; intros acc f Hin Hnb Hsample; [destruct Hin|].
  cbn [load_configs].
  destruct (String.eqb (file_name f0) "base.yml") eqn:Ebase.
  - destruct Hin as [<-|Hin]; [|eapply IH; eassumption].
    apply String.eqb_eq in Ebase. contradiction.
  - destruct (getitem (meta default_config) "meta") as [dm|e]; [|eauto].
    destruct Hin as [<-|Hin].
    + destruct Hsample as [->|(c & -> & ->)]; cbn; eauto.
    + destruct (getitem _ "meta") as [sm|e]; [|eauto].
      destruct (getitem _ "meta") as [mm|e]; [|eauto].
      destruct (getitem _ "settings") as [ds|e]; [|eauto].
      eapply IH; eassumption.
Qed.

Lemma name_le_total : Total name_le.
Proof. intros a b. unfold name_le. apply String.leb_total. Qed.

Lemma lookup_update_from (section : option (gmap string py.value))
    (d : gmap string py.value) (k : string) :
  update_from section d !! k
  = match section ≫= (fun m => m !! k) with
    | Some v => Some v
    | None => d !! k
    end.
Proof.
  destruct section as [other|]; cbn; [|reflexivity].
  rewrite lookup_union. destruct (other !! k), (d !! k); reflexivity.
Qed.

End WorkersConfig.

(** X3. When [workers] returns, its names are in ascending order without
    repetition, every configuration file other than [base.yml] has an
    entry under its stem, and every entry comes from such a file: each of
    its settings (and each meta key) is the module file's value if it has
    one, else the sample file's, else the default's. *)
Theorem X3_workers_sorted_and_merged
    (default_config : helpers.Config) (files : list helpers.ConfigFile)
    (l : list (string * helpers.WorkerConfig)) :
  helpers.workers default_config files = py.Ok l ->
  Sorted (fun a b => String.leb a b = true) (map fst l) /\
  NoDup (map fst l) /\
  (forall f, In f files -> helpers.file_name f <> "base.yml" ->
             In (helpers.file_stem f) (map fst l)) /\
  (forall name wc,
      In (name, wc) l ->
      exists f sample default_settings default_meta sample_meta module_meta,
        In f files /\ helpers.file_name f <> "base.yml" /\
        helpers.file_stem f = name /\
        helpers.sample_config f = Some sample /\
        helpers.settings default_config = Some default_settings /\
        helpers.meta default_config = Some default_meta /\
        helpers.meta sample = Some sample_meta /\
        helpers.meta (helpers.module_config f) = Some module_meta /\
        (forall k,
            helpers.worker_settings wc !! k
            = match helpers.settings (helpers.module_config f)
                    ≫= (fun m => m !! k) with
              | Some v => Some v
              | None =>
                  match helpers.settings sample ≫= (fun m => m !! k) with
                  | Some v => Some v
                  | None => default_settings !! k
                  end
              end) /\
        (forall k,
            helpers.worker_meta wc !! k
            = match module_meta !! k with
              | Some v => Some v
              | None =>
                  match sample_meta !! k with
                  | Some v => Some v
                  | None => default_meta !! k
                  end
              end)).
Proof.
  unfold helpers.workers. intros Hw.
  destruct (helpers.load_configs default_config files ∅) as [m|e] eqn:Hload;
    [|discriminate Hw].
  inversion Hw; subst l; clear Hw.
  destruct (load_configs_entries default_config files _ _ Hload) as (H1 & _ & H3).
  pose proof (merge_sort_Permutation helpers.name_le (map_to_list m)) as Hperm.
  split; [|split; [|split]].
  - change (map fst ?x) with (fst <$> x).
    apply Sorted_fmap with (R1 := helpers.name_le); [intros a b H; exact H|].
    apply (@Sorted_merge_sort _ helpers.name_le _ name_le_total).
  - change (map fst ?x) with (fst <$> x).
    rewrite Hperm. apply NoDup_fst_map_to_list.
  - intros f Hin Hnb. destruct (H3 f Hin Hnb) as [wc Hwc].
    apply in_map_iff. exists (helpers.file_stem f, wc). split; [reflexivity|].
    apply list_elem_of_In. rewrite Hperm. apply elem_of_map_to_list. exact Hwc.
  - intros name wc Hin.
    apply list_elem_of_In in Hin. rewrite Hperm in Hin.
    apply elem_of_map_to_list in Hin.
    destruct (H1 name wc Hin) as [Hempty|(f & Hf & Hstem & Hnb & Hb)];
      [rewrite lookup_empty in Hempty; discriminate Hempty|].
    destruct Hb as (sample & dm & sm & mm & ds & Es & Edm & Esm & Emm & Eds & ->).
    exists f, sample, ds, dm, sm, mm.
    repeat (split; [assumption|]).
    split.
    + intros k. cbn [helpers.worker_settings].
      rewrite !lookup_update_from. reflexivity.
    + intros k. cbn [helpers.worker_meta].
      rewrite !lookup_union.
      destruct (mm !! k), (sm !! k), (dm !! k); reflexivity.
Qed.

(** X4. [workers] raises (a [KeyError]) as soon as one configuration file
    other than [base.yml] has no sample file beside it, or a sample file
    without a ["meta"] section. *)
Theorem X4_workers_needs_sample
    (default_config : helpers.Config) (files : list helpers.ConfigFile)
    (f : helpers.ConfigFile) :
  In f files ->
  helpers.file_name f <> "base.yml" ->
  helpers.sample_config f = None \/
  (exists c, helpers.sample_config f = Some c /\ helpers.meta c = None) ->
  exists e, helpers.workers default_config files = py.Raise e.
Proof.
  intros Hin Hnb Hsample. unfold helpers.workers.
  destruct (load_configs_needs_sample default_config files ∅ f Hin Hnb Hsample)
    as [e ->].
  exists e. reflexivity.
Qed.

Lemma X3_workers_sorted_and_merged_witness :
  helpers.workers extra_examples.base_config extra_examples.config_files
  = py.Ok extra_examples.loaded /\
  map fst extra_examples.loaded = ["extractor"; "yara"] /\
  Sorted (fun a b => String.leb a b = true) (map fst extra_examples.loaded).
Proof.
  assert (H : helpers.workers extra_examples.base_config
                extra_examples.config_files
              = py.Ok extra_examples.loaded) by (vm_compute; reflexivity).
  split; [exact H|].
  split; [vm_compute; reflexivity|].
  exact (proj1 (X3_workers_sorted_and_merged _ _ _ H)).
Defined.

Lemma X4_workers_needs_sample_witness :
  exists e,
    helpers.workers extra_examples.base_config
      (extra_examples.mwdb_yml :: extra_examples.config_files)
    = py.Raise e.
Proof.
  apply (X4_workers_needs_sample extra_examples.base_config
           (extra_examples.mwdb_yml :: extra_examples.config_files)
           extra_examples.mwdb_yml).
  - left. reflexivity.
  - intros H. discriminate H.
  - left. reflexivity.
Defined.

(* ===================================================================== *)
(** * Further properties: tasks *)
(* ===================================================================== *)

Section DictSet.

Context {V : Type}.

Lemma dict_set_keys (d : list (string * V)) (k : string) (v : V) :
  map fst (task.dict_set d k v)
  = if existsb (String.eqb k) (map fst d) then map fst d
    else map fst d ++ [k].
Proof.
  induction d as [|[k' v'] d IH]; cbn; [reflexivity|].
  destruct (String.eqb k k') eqn:E; cbn.
  - apply String.eqb_eq in E. subst k'. reflexivity.
  - rewrite IH. destruct (existsb (String.eqb k) (map fst d)); reflexivity.
Qed.

Lemma dict_set_In (d : list (string * V)) (k : string) (v : V) (kv : string * V) :
  In kv (task.dict_set d k v) -> kv = (k, v) \/ In kv d.
Proof.
  induction d as [|[k' v'] d IH]; cbn.
  - intros [<-|[]]. left. reflexivity.
  - destruct (String.eqb k k'); cbn.
    + intros [<-|H]; auto.
    + intros [<-|H]; [auto|]. destruct (IH H); auto.
Qed.

Lemma dict_set_has (d : list (string * V)) (k : string) (v : V) :
  In (k, v) (task.dict_set d k v).
Proof.
  induction d as [|[k' v'] d IH]; cbn; [auto|].
  destruct (String.eqb k k') eqn:E; cbn; auto.
Qed.

Lemma existsb_eqb_In (k : string) (l : list string) :
  existsb (String.eqb k) l = true <-> In k l.
Proof.
  rewrite existsb_exists. split.
  - intros (x & Hin & Heq). apply String.eqb_eq in Heq. subst x. exact Hin.
  - intros Hin. exists k. split; [exact Hin | apply String.eqb_refl].
Qed.

Lemma dict_set_NoDup (d : list (string * V)) (k : string) (v : V) :
  NoDup (map fst d) -> NoDup (map fst (task.dict_set d k v)).
Proof.
  intros Hd. rewrite dict_set_keys.
  destruct (existsb (String.eqb k) (map fst d)) eqn:E; [exact Hd|].
  apply NoDup_app. split; [exact Hd|]. split; [|apply NoDup_singleton].
  intros x Hx Hk. apply list_elem_of_In in Hx, Hk.
  destruct Hk as [<-|[]].
  apply existsb_eqb_In in Hx. congruence.
Qed.

Lemma dict_set_fresh (d : list (string * V)) (k : string) (v : V) :
  ~ In k (map fst d) -> task.dict_set d k v = d ++ [(k, v)].
Proof.
  induction d as [|[k' v'] d IH]; cbn; intros Hk; [reflexivity|].
  destruct (String.eqb_spec k k') as [->|Hne]; [tauto|].
  rewrite IH by tauto. reflexivity.
Qed.

End DictSet.

Section Reports.

Variable env : task.Env.
Variable t : task.Task.

(** The report of a worker: the stored one, else a fresh one. *)
Local Abbreviation report_of w :=
  (match task.storage env !! (task.uuid t, w%string) with
   | Some stored_report => stored_report
   | None => report.new (task.uuid t) w
   end).

Local Abbreviation enabled w :=
  (negb (existsb (String.eqb w) (task.disabled_workers t))).

Local Abbreviation step :=
  (fun to_return worker_name =>
     if existsb (String.eqb worker_name) (task.disabled_workers t)
     then to_return
     else task.dict_set to_return worker_name (report_of worker_name)).

Lemma reports_fold (ws : list string) :
  forall acc : list (string * report.Report),
    NoDup (map fst acc) ->
    (forall w r, In (w, r) acc -> r = report_of w /\ enabled w = true) ->
    NoDup (map fst (fold_left step ws acc)) /\
    (forall w r, In (w, r) (fold_left step ws acc) ->
                 r = report_of w /\ enabled w = true /\
                 (In w (map fst acc) \/ In w ws)) /\
    (forall w, In w (map fst acc) \/ (In w ws /\ enabled w = true) ->
               In w (map fst (fold_left step ws acc))) /\
    (NoDup ws -> (forall w, In w ws -> ~ In w (map fst acc)) ->
     map fst (fold_left step ws acc)
     = map fst acc ++ List.filter (fun w => enabled w) ws).
Proof.
  induction ws as [|w0 ws IH]; intros acc Hnd Hacc; cbn [fold_left].
  - split; [exact Hnd|]. split.
    + intros w r Hin. destruct (Hacc w r Hin) as [H1 H2].
      split; [exact H1|]. split; [exact H2|]. left.
      apply in_map_iff. exists (w, r). auto.
    + split; [intros w [H|[[] _]]; exact H|].
      intros _ _. cbn. rewrite app_nil_r. reflexivity.
  - destruct (existsb (String.eqb w0) (task.disabled_workers t)) eqn:Edis.
    + destruct (IH acc Hnd Hacc) as (H1 & H2 & H3 & H4).
      split; [exact H1|]. split; [|split].
      * intros w r Hin. destruct (H2 w r Hin) as (Ha & Hb & [Hc|Hc]); auto.
        split; [exact Ha|]. split; [exact Hb|]. right. right. exact Hc.
      * intros w [H|[[<-|H] He]]; [apply H3; auto | | apply H3; auto].
        rewrite Edis in He. discriminate He.
      * intros Hws Hfresh. cbn [List.filter]. rewrite Edis. cbn [negb].
        apply H4; [apply NoDup_cons in Hws; tauto|].
        intros w Hw. apply Hfresh. right. exact Hw.
    + assert (Hnd' : NoDup (map fst (task.dict_set acc w0 (report_of w0))))
        by (apply dict_set_NoDup; exact Hnd).
      assert (Hacc' : forall w r,
                 In (w, r) (task.dict_set acc w0 (report_of w0)) ->
                 r = report_of w /\ enabled w = true).
      { intros w r Hin. destruct (dict_set_In _ _ _ _ Hin) as [Heq|Hin'].
        - inversion Heq; subst. rewrite Edis. auto.
        - apply Hacc. exact Hin'. }
      destruct (IH _ Hnd' Hacc') as (H1 & H2 & H3 & H4).
      split; [exact H1|]. split; [|split].
      * intros w r Hin. destruct (H2 w r Hin) as (Ha & Hb & [Hc|Hc]).
        -- split; [exact Ha|]. split; [exact Hb|].
           rewrite dict_set_keys in Hc.
           destruct (existsb (String.eqb w0) (map fst acc)); [left; exact Hc|].
           apply in_app_or in Hc. destruct Hc as [Hc|[<-|[]]];
             [left; exact Hc | right; left; reflexivity].
        -- split; [exact Ha|]. split; [exact Hb|]. right. right. exact Hc.
      * intros w Hw. apply H3.
        destruct Hw as [Hw|[[<-|Hw] He]].
        -- left. rewrite dict_set_keys.
           destruct (existsb (String.eqb w0) (map fst acc)); [exact Hw|].
           apply in_or_app. left. exact Hw.
        -- left. apply in_map_iff. exists (w0, report_of w0).
           split; [reflexivity | apply dict_set_has].
        -- right. auto.
      * intros Hws Hfresh. cbn [List.filter]. rewrite Edis. cbn [negb].
        apply NoDup_cons in Hws. destruct Hws as [Hw0 Hws].
        rewrite H4.
        -- rewrite dict_set_fresh by (apply Hfresh; left; reflexivity).
           rewrite map_app, <- app_assoc. reflexivity.
        -- exact Hws.
        -- intros w Hw. rewrite dict_set_keys.
           assert (He : existsb (String.eqb w0) (map fst acc) = false).
           { apply not_true_iff_false. intros He. apply existsb_eqb_In in He.
             apply (Hfresh w0); [left; reflexivity | exact He]. }
           rewrite He. intros Hin. apply in_app_or in Hin.
           destruct Hin as [Hin|[<-|[]]].
           ++ apply (Hfresh w); [right; exact Hw | exact Hin].
           ++ apply Hw0. apply list_elem_of_In. exact Hw.
Qed.

End Reports.

(** X5. [Task.reports] holds exactly one report per configured worker
    that is not disabled: no name occurs twice, a name is present if and
    only if it is configured and not disabled, each report is the stored
    one, or a fresh one when nothing is stored, and when the configured
    names are distinct the reports come in the configured order. *)
Theorem X5_reports_one_per_enabled_worker (env : task.Env) (t : task.Task) :
  NoDup (map fst (task.reports env t)) /\
  (forall w,
      In w (map fst (task.reports env t)) <->
      In w (task.workers env) /\
      existsb (String.eqb w) (task.disabled_workers t) = false) /\
  (forall w r,
      In (w, r) (task.reports env t) ->
      r = match task.storage env !! (task.uuid t, w) with
          | Some stored_report => stored_report
          | None => report.new (task.uuid t) w
          end) /\
  (NoDup (task.workers env) ->
   map fst (task.reports env t)
   = List.filter
       (fun w => negb (existsb (String.eqb w) (task.disabled_workers t)))
       (task.workers env)).
Proof.
  destruct (reports_fold env t (task.workers env) [])
    as (H1 & H2 & H3 & H4); [constructor | intros w r [] |].
  fold (task.reports env t) in H1, H2, H3, H4.
  split; [exact H1|]. split; [|split].
  - intros w. split.
    + intros Hin. apply in_map_iff in Hin. destruct Hin as ([w' r] & <- & Hin).
      destruct (H2 w' r Hin) as (_ & He & [[]|Hw]).
      split; [exact Hw|]. apply negb_true_iff. exact He.
    + intros [Hw He]. apply H3. right. split; [exact Hw|].
      apply negb_true_iff. exact He.
  - intros w r Hin. apply (H2 w r Hin).
  - intros Hnd. apply H4; [exact Hnd | intros w _ []].
Qed.

Lemma fold_dict_set_fresh {A V : Type} (f : A -> V) (l : list (string * A)) :
  forall acc : list (string * V),
    NoDup (map fst acc ++ map fst l) ->
    fold_left (fun to_return wr => task.dict_set to_return (fst wr) (f (snd wr)))
              l acc
    = acc ++ map (fun wr => (fst wr, f (snd wr))) l.
Proof.
  induction l as [|[k a] l IH]; intros acc Hnd; cbn [fold_left map].
  - rewrite app_nil_r. reflexivity.
  - cbn [fst snd map] in *.
    apply NoDup_app in Hnd. destruct Hnd as (Hacc & Hdisj & Hl).
    apply NoDup_cons in Hl. destruct Hl as [Hk Hl].
    rewrite dict_set_fresh.
    + rewrite IH.
      * rewrite <- app_assoc. reflexivity.
      * rewrite map_app. cbn [map fst]. rewrite <- app_assoc. cbn [app].
        apply NoDup_app. split; [exact Hacc|]. split.
        -- intros x Hx Hin. apply (Hdisj x Hx). exact Hin.
        -- apply NoDup_cons. split; assumption.
    + intros Hin. apply (Hdisj k); [apply list_elem_of_In; exact Hin|].
      left.
Qed.

Lemma all_done_forallb (rs : list (string * report.Report)) :
  task.all_done rs = forallb (fun wr => report.is_done (snd wr)) rs.
Proof.
  induction rs as [|[w r] rs IH]; cbn; [reflexivity|].
  destruct (report.is_done r); cbn; [exact IH | reflexivity].
Qed.

Lemma forallb_snd_map {A : Type} (g : A -> bool) (l : list (string * A)) :
  forallb snd (map (fun wr => (fst wr, g (snd wr))) l)
  = forallb (fun wr => g (snd wr)) l.
Proof.
  induction l as [|wr l IH]; cbn; [reflexivity|]. rewrite IH. reflexivity.
Qed.

(** X6. [workers_status] has one entry per report, in the order of the
    reports, holding whether that report is finished; [workers_done] is
    true exactly when every entry of [workers_status] is true. *)
Theorem X6_workers_status_agrees_with_workers_done
    (env : task.Env) (t : task.Task) :
  task.workers_status env t
  = map (fun wr => (fst wr, report.is_done (snd wr))) (task.reports env t) /\
  task.workers_done env t = forallb snd (task.workers_status env t).
Proof.
  assert (Hs : task.workers_status env t
               = map (fun wr => (fst wr, report.is_done (snd wr)))
                     (task.reports env t)).
  { unfold task.workers_status.
    rewrite (fold_dict_set_fresh report.is_done); [reflexivity|].
    cbn [map app]. apply (X5_reports_one_per_enabled_worker env t). }
  split; [exact Hs|].
  rewrite Hs. unfold task.workers_done. rewrite all_done_forallb.
  symmetry. apply forallb_snd_map.
Qed.


(* ===================================================================== *)
(** * File types *)
(* ===================================================================== *)

Section FileType.

Lemma get_Some_In {V : Type} (d : list (string * V)) (key : string) (v : V) :
  file.get d key = Some v -> In (key, v) d.
Proof.
  unfold file.get. destruct (find _ d) as [[k v']|] eqn:Hf; [|discriminate].
  cbn. intros H. inversion H; subst v'.
  apply find_some in Hf. destruct Hf as [Hin Hk]. cbn in Hk.
  apply String.eqb_eq in Hk. subst k. exact Hin.
Qed.

(** Every type named by one of the two guessing tables, and the default,
    has an icon and a description. *)
Lemma tables_closed :
  forallb (fun e : string * (string * string) =>
             match file.icon (fst (snd e)), file.info (fst (snd e)) with
             | Some _, Some _ => true
             | _, _ => false
             end) file.MIME_TYPE_EQUAL = true /\
  forallb (fun e : string * list string =>
             match file.icon (fst e), file.info (fst e) with
             | Some _, Some _ => true
             | _, _ => false
             end) file.TYPE_EXTENSIONS = true.
Proof. split; vm_compute; reflexivity. Qed.

Lemma suffix_search_not_ARC (suffix_ : string) (rest : list (string * list string))
    (ty : string) :
  Forall (fun te => fst te <> "ARC") rest ->
  match find (fun te => existsb (String.eqb suffix_) (snd te)) rest with
  | Some te => fst te
  | None => "BIN"
  end = ty ->
  ty <> "ARC".
Proof.
  intros Hall. destruct (find _ rest) as [te|] eqn:Hf; intros <-.
  - apply find_some in Hf. destruct Hf as [Hin _].
    rewrite Forall_forall in Hall. apply Hall. apply list_elem_of_In. exact Hin.
  - discriminate.
Qed.

End FileType.

(** X10. Whatever the name and the mime type of a file, the type that
    [File.type] gives it is one of the seventeen known types, so that
    [icon] and [info] never return [None]. *)
Theorem X10_type_has_icon_and_info (extension mime suffix_ : string) :
  In (file.type_of extension mime suffix_) (map fst file.TYPE_ICONS) /\
  exists icon_name description : string,
    file.icon (file.type_of extension mime suffix_) = Some icon_name /\
    file.info (file.type_of extension mime suffix_) = Some description.
Proof.
  assert (Hok : match file.icon (file.type_of extension mime suffix_),
                      file.info (file.type_of extension mime suffix_) with
                | Some _, Some _ => true
                | _, _ => false
                end = true).
  { destruct tables_closed as [Hm Ht].
    rewrite forallb_forall in Hm. rewrite forallb_forall in Ht.
    unfold file.type_of.
    destruct (String.eqb extension ".eml"); [reflexivity|].
    destruct (file.get file.MIME_TYPE_EQUAL mime) as [entry|] eqn:Hg.
    - apply get_Some_In in Hg. apply (Hm _ Hg).
    - destruct (find _ file.TYPE_EXTENSIONS) as [te|] eqn:Hf; [|reflexivity].
      apply find_some in Hf. apply (Ht _ (proj1 Hf)). }
  destruct (file.icon _) as [i|] eqn:Hi; [|discriminate Hok].
  destruct (file.info _) as [d|] eqn:Hd; [|discriminate Hok].
  split; [|exists i, d; split; reflexivity].
  apply get_Some_In in Hi. apply (in_map fst) in Hi. exact Hi.
Qed.

(** X11. None of the mime types that the Extractor dispatches on, other
    than zip and 7z, is in the mime table; and a file whose mime type is
    not in the table (and whose extension is not [.eml]) is an archive
    exactly when its suffix is one of [.zip .tar .gz .bz2 .bz .rar .7z]. *)
Theorem X11_archive_type_by_suffix :
  Forall (fun mime => file.get file.MIME_TYPE_EQUAL mime = None)
    ["application/x-rar"; "application/x-bzip2"; "application/gzip";
     "application/x-tar"; "application/x-lzma"; "application/x-xz";
     "application/x-lzip"; "application/x-iso9660-image"] /\
  forall extension mime suffix_ : string,
    extension <> ".eml" ->
    file.get file.MIME_TYPE_EQUAL mime = None ->
    (file.type_of extension mime suffix_ = "ARC" <->
     In suffix_ [".zip"; ".tar"; ".gz"; ".bz2"; ".bz"; ".rar"; ".7z"]).
Proof.
  split; [repeat constructor|].
  intros extension mime suffix_ Hext Hmime.
  unfold file.type_of. rewrite Hmime.
  apply String.eqb_neq in Hext. rewrite Hext.
  unfold file.TYPE_EXTENSIONS.
  match goal with
  | |- context [find ?f (?x :: ?l)] =>
      change (find f (x :: l)) with (if f x then Some x else find f l)
  end.
  cbv beta. cbn [snd].
  destruct (existsb (String.eqb suffix_)
              [".zip"; ".tar"; ".gz"; ".bz2"; ".bz"; ".rar"; ".7z"]) eqn:Hex.
  - cbn [fst]. split; [intros _|reflexivity].
    apply existsb_exists in Hex. destruct Hex as [x [Hin Hx]].
    apply String.eqb_eq in Hx. subst x. exact Hin.
  - split.
    + intros H. exfalso. revert H.
      eapply suffix_search_not_ARC; [|reflexivity].
      repeat constructor; cbn; discriminate.
    + intros Hin. exfalso.
      assert (Ht : existsb (String.eqb suffix_)
                     [".zip"; ".tar"; ".gz"; ".bz2"; ".bz"; ".rar"; ".7z"] = true).
      { apply existsb_exists. exists suffix_. split; [exact Hin|].
        apply String.eqb_refl. }
      rewrite Ht in Hex. discriminate Hex.
Qed.

(** X12. A file whose mime type is not in the mime table and whose suffix
    is neither an archive suffix nor [.eml] or [.msg] (an ISO image named
    [disk.iso], an xz stream named [data.xz]) is not unpacked: [analyse]
    returns at once, whatever the handlers, with the report NOTAPPLICABLE
    and nothing else changed. *)
Theorem X12_unlisted_suffix_not_unpacked
    (h7z hrar hiso : extractor.Extractor -> extractor.handler)
    (self : extractor.Extractor) (P : extractor.Platform)
    (fuel : nat) (tsk : task.Task) (manual_trigger : bool) (r : extractor.Run)
    (extension : string) :
  extension <> ".eml" ->
  file.type (task.file tsk)
  = file.type_of extension (file.mime_type (task.file tsk))
      (file.suffix (file.path (task.file tsk))) ->
  file.get file.MIME_TYPE_EQUAL (file.mime_type (task.file tsk)) = None ->
  ~ In (file.suffix (file.path (task.file tsk)))
       [".zip"; ".tar"; ".gz"; ".bz2"; ".bz"; ".rar"; ".7z"; ".eml"; ".msg"] ->
  extractor.analyse h7z hrar hiso self P fuel tsk manual_trigger r
  = (extractor.Returned,
     extractor.mkRun
       (extractor.mkWorld
          (report.set_status helpers.NOTAPPLICABLE
             (extractor.report (extractor.world r)))
          (extractor.disk (extractor.world r))
          (extractor.passwords (extractor.world r)))
       (extractor.tasks r) (extractor.queue r) (extractor.references r)
       (extractor.drawn r) (extractor.clock r)).
Proof.
  intros Hext Hty Hmime Hsfx.
  assert (Hkind : file.is_archive (task.file tsk) = false /\
                  file.is_eml (task.file tsk) = false /\
                  file.is_msg (task.file tsk) = false).
  { unfold file.is_archive, file.is_eml, file.is_msg. rewrite Hty.
    unfold file.type_of. rewrite Hmime.
    apply String.eqb_neq in Hext. rewrite Hext.
    set (sfx := file.suffix (file.path (task.file tsk))) in *.
    destruct (find _ file.TYPE_EXTENSIONS) as [te|] eqn:Hf;
      [|repeat split; reflexivity].
    apply find_some in Hf. destruct Hf as [Hin Hex].
    apply existsb_exists in Hex. destruct Hex as [x [Hx Hsx]].
    apply String.eqb_eq in Hsx. subst x.
    unfold file.TYPE_EXTENSIONS in Hin. cbn [In] in Hin.
    repeat (destruct Hin as [<-|Hin]; [try (repeat split; reflexivity)|]);
      try contradiction;
      exfalso; apply Hsfx; cbn [snd In] in Hx; cbn [In]; tauto. }
  destruct Hkind as [Ha [He Hm]].
  unfold extractor.analyse, extractor.gather. rewrite Ha, He, Hm. reflexivity.
Qed.

Lemma X12_unlisted_suffix_not_unpacked_witness :
  file.mime_type extra_examples.iso_file = "application/x-iso9660-image" /\
  extractor.analyse extractor_examples.no_handler
    extractor_examples.no_handler extractor_examples.no_handler
    extractor_examples.cfg extractor_examples.bare 5
    (extractor_examples.parent_task extra_examples.iso_file) false
    extractor_examples.run0
  = (extractor.Returned,
     extractor.mkRun
       (extractor.mkWorld
          (report.mkReport "t1" "extractor" helpers.NOTAPPLICABLE false [] ∅)
          ∅ [])
       [] [] [] 0 0).
Proof.
  split; [reflexivity|].
  apply (X12_unlisted_suffix_not_unpacked
           extractor_examples.no_handler extractor_examples.no_handler
           extractor_examples.no_handler extractor_examples.cfg
           extractor_examples.bare 5
           (extractor_examples.parent_task extra_examples.iso_file) false
           extractor_examples.run0 ".iso").
  - intros H. discriminate H.
  - reflexivity.
  - reflexivity.
  - cbn. intros H.
    repeat (destruct H as [H|H]; [discriminate H|]). exact H.
Defined.

(** X23. A [File] whose path no longer exists, or that is flagged as
    deleted, is only built when the three hashes and the size it is given
    are all true values: it then stores exactly these hashes and
    [int(size)]; with any of them missing or empty, [__init__] raises.  A
    [File] on disk that is not flagged ignores the hashes and the size it
    is given: nothing is stored. *)
Theorem X23_deleted_file_needs_hashes
    (int_of_str : string -> py.res Z) (path_exists : bool)
    (md5 sha1 sha256 size deleted : py.value) :
  (path_exists = false \/ helpers.make_bool deleted = true ->
   (forall h : file.Hashes,
       file.init_hashes int_of_str path_exists md5 sha1 sha256 size deleted
       = py.Ok h ->
       helpers.truthy md5 = true /\ helpers.truthy sha1 = true /\
       helpers.truthy sha256 = true /\ helpers.truthy size = true /\
       file._md5 h = md5 /\ file._sha1 h = sha1 /\ file._sha256 h = sha256 /\
       file.int int_of_str size = py.Ok (file._size h)) /\
   (helpers.truthy md5 && helpers.truthy sha1 && helpers.truthy sha256
    && helpers.truthy size = false ->
    exists e : py.exn,
      file.init_hashes int_of_str path_exists md5 sha1 sha256 size deleted
      = py.Raise e)) /\
  (path_exists = true -> helpers.make_bool deleted = false ->
   file.init_hashes int_of_str path_exists md5 sha1 sha256 size deleted
   = py.Ok (file.mkHashes py.PyNone py.PyNone py.PyNone 0)).
Proof.
  split.
  - intros Hdel.
    assert (Hd : file.init_deleted deleted path_exists = true).
    { unfold file.init_deleted. destruct Hdel as [-> | Hm]; [reflexivity|].
      rewrite Hm. destruct (negb path_exists); reflexivity. }
    unfold file.init_hashes. rewrite Hd.
    destruct (helpers.truthy md5), (helpers.truthy sha1),
      (helpers.truthy sha256), (helpers.truthy size); cbn [negb orb andb];
      (split; [intros h H; try discriminate H
              |intros H; try discriminate H; eexists; reflexivity]).
    destruct (file.int int_of_str size) as [n|e]; [|discriminate H].
    inversion H; subst h. cbn. repeat split; reflexivity.
  - intros -> Hm. unfold file.init_hashes, file.init_deleted.
    rewrite Hm. reflexivity.
Qed.

Lemma X23_deleted_file_needs_hashes_witness :
  file.init_hashes (fun s => py.Ok (Z.of_N (helpers.int_of_digits s))) false
    (py.PyStr "d41d8cd9") (py.PyStr "da39a3ee") (py.PyStr "e3b0c442")
    (py.PyStr "12") (py.PyInt 0)
  = py.Ok (file.mkHashes (py.PyStr "d41d8cd9") (py.PyStr "da39a3ee")
             (py.PyStr "e3b0c442") 12) /\
  helpers.truthy (py.PyStr "12") = true.
Proof.
  split; [vm_compute; reflexivity|].
  refine (proj1 (proj2 (proj2 (proj2
    (proj1 (proj1 (X23_deleted_file_needs_hashes
                     (fun s => py.Ok (Z.of_N (helpers.int_of_digits s))) false
                     (py.PyStr "d41d8cd9") (py.PyStr "da39a3ee")
                     (py.PyStr "e3b0c442") (py.PyStr "12") (py.PyInt 0))
                  (or_introl eq_refl))
        (file.mkHashes (py.PyStr "d41d8cd9") (py.PyStr "da39a3ee")
                       (py.PyStr "e3b0c442") 12) _))))).
  vm_compute. reflexivity.
Defined.
(* ===================================================================== *)
(** * The Extractor: the children of a task *)
(* ===================================================================== *)

Section Books.
Import extractor.

Variable P : Platform.
Variable tsk : task.Task.

(** From [r0] to [r], children were appended to the task list, and each
    of them was enqueued and referenced once, in the same order. *)
Local Abbreviation book r0 r :=
  (exists children : list task.Task,
      tasks r = tasks r0 ++ children /\
      queue r = queue r0 ++ children /\
      references r
      = references r0 ++ map (fun t => (task.uuid tsk, task.uuid t)) children /\
      clock r = clock r0).

Local Abbreviation keeps m :=
  (forall r a r', m r = (a, r') -> book r r').
















Variables h7z hrar hiso : Extractor -> handler.
Variable self : Extractor.





End Books.



(** X14. The [try] block of lines 365-393, taken by itself, never raises.
    When the handler it dispatches to returns, the block returns the
    handler's paths and leaves the report as the handler left it.  When
    the handler raises any exception, or the MIME type is none of the
    supported ones, the block returns the empty list, sets the report to
    WARN, sets the extra [no_password] to [True] and appends the detail
    "Unable to extract <file name>: <message>.". *)
Theorem X14_try_block_catches
    (h7z hrar hiso : extractor.Extractor -> extractor.handler)
    (self : extractor.Extractor) (P : extractor.Platform)
    (tsk : task.Task) (extracted_dir : string) (r : extractor.Run) :
  (forall paths w1,
      extractor.dispatch h7z hrar hiso self P (task.file tsk) extracted_dir
        (extractor.world r) = (py.Ok paths, w1) ->
      extractor.try_dispatch h7z hrar hiso self P tsk extracted_dir r
      = (py.Ok paths, extractor.with_world (fun _ => w1) r)) /\
  (forall e w1,
      extractor.dispatch h7z hrar hiso self P (task.file tsk) extracted_dir
        (extractor.world r) = (py.Raise e, w1) ->
      extractor.try_dispatch h7z hrar hiso self P tsk extracted_dir r
      = (py.Ok [],
         extractor.with_world
           (fun _ =>
              extractor.mkWorld
                (report.mkReport
                   (report.task_uuid (extractor.report w1))
                   (report.worker_name (extractor.report w1))
                   helpers.WARN
                   (report.is_done (extractor.report w1))
                   (report.details (extractor.report w1)
                      ++ [("Warning",
                           "Unable to extract "
                             +:+ file.name (file.path (task.file tsk))
                             +:+ ": " +:+ py.exn_msg e +:+ ".")])
                   (<["no_password" := py.PyBool true]>
                      (report.extras (extractor.report w1))))
                (extractor.disk w1) (extractor.passwords w1))
           r)) /\
  (~ In (file.mime_type (task.file tsk))
        ["application/x-7z-compressed"; "application/x-rar";
         "application/x-bzip2"; "application/gzip"; "application/x-tar";
         "application/x-lzma"; "application/x-xz"; "application/x-lzip";
         "application/x-iso9660-image"; "application/zip"] ->
   extractor.dispatch h7z hrar hiso self P (task.file tsk) extracted_dir
     (extractor.world r)
   = (py.Raise (py.Exn py.PandoraException
                  ("Unsupported mimetype: " +:+ file.mime_type (task.file tsk))),
      extractor.world r)).
Proof.
  split; [|split].
  - intros paths w1 H.
    unfold extractor.try_dispatch, extractor.try_except, extractor.in_world.
    rewrite H. reflexivity.
  - intros e w1 H.
    unfold extractor.try_dispatch, extractor.try_except.
    unfold extractor.in_world at 1. rewrite H.
    destruct r as [w ts q refs d c]. destruct w1 as [[tu wn st dn det ex] dsk pw].
    reflexivity.
  - intros Hmime. unfold extractor.dispatch. cbn [existsb].
    repeat match goal with
    | |- context [String.eqb ?a ?b] =>
        destruct (String.eqb_spec a b) as [Heq|_];
        [exfalso; apply Hmime; rewrite Heq; cbn; tauto|]
    end.
    reflexivity.
Qed.

Lemma X14_try_block_catches_witness :
  extractor.try_dispatch extractor_examples.no_handler
    extractor_examples.no_handler extractor_examples.no_handler
    extractor_examples.cfg extractor_examples.bare
    (extractor_examples.parent_task extractor_examples.cpio_file)
    extractor_examples.dest extractor_examples.run0
  = (py.Ok [],
     extractor.with_world
       (fun _ =>
          extractor.mkWorld
            (report.mkReport "t1" "extractor" helpers.WARN false
               [("Warning",
                 "Unable to extract bundle.cpio: Unsupported mimetype: application/x-cpio.")]
               (<["no_password" := py.PyBool true]> ∅))
            ∅ [])
       extractor_examples.run0).
Proof.
  apply (proj1 (proj2 (X14_try_block_catches extractor_examples.no_handler
           extractor_examples.no_handler extractor_examples.no_handler
           extractor_examples.cfg extractor_examples.bare
           (extractor_examples.parent_task extractor_examples.cpio_file)
           extractor_examples.dest extractor_examples.run0))
           (py.Exn py.PandoraException "Unsupported mimetype: application/x-cpio")
           extractor_examples.world0).
  apply (proj2 (proj2 (X14_try_block_catches extractor_examples.no_handler
           extractor_examples.no_handler extractor_examples.no_handler
           extractor_examples.cfg extractor_examples.bare
           (extractor_examples.parent_task extractor_examples.cpio_file)
           extractor_examples.dest extractor_examples.run0))).
  vm_compute. intros H.
  repeat (destruct H as [H|H]; [discriminate H|]). exact H.
Defined.
(* ===================================================================== *)
(** * The Extractor: archives within the limits *)
(* ===================================================================== *)

Section Complete.
Import extractor.

Variable self : Extractor.
Variable dest_dir : string.

Lemma zip_loop_complete (archive : ZipArchive) (total : N)
    (infos : list ZipInfo) :
  forall (file_number : N) (found : bool) (pwd : option string)
         (acc : list string) (w : World) (outs : list (string * file.bytes)),
    (file_number + len infos <= max_files_in_archive self)%N ->
    Forall (fun i => Z.land (flag_bits i) 1 = 0) infos ->
    Forall (fun i => is_dir i = false ->
                     (file_size i <= max_extracted_filesize self)%N) infos ->
    Forall2 (fun i o => extract archive pwd i dest_dir = py.Ok o)
            (List.filter (fun i => negb (is_dir i)) infos) outs ->
    zip_loop self archive dest_dir total infos file_number found pwd acc w
    = (py.Ok (acc ++ map fst outs),
       mkWorld
         (if helpers.eqb (report.status (report w)) helpers.RUNNING
          then report.set_status helpers.CLEAN (report w)
          else report w)
         (fold_left (fun d o => <[fst o := snd o]> d) outs (disk w))
         (passwords w)).
Proof.
  induction infos as [|info rest IH];
    intros file_number found pwd acc w outs Hcount Hplain Hsize Hout.
  - cbn in Hout. inversion Hout; subst. cbn [map fold_left].
    rewrite app_nil_r. cbn [zip_loop].
    unfold bind, get, set_status, update, ret.
    destruct (helpers.eqb (report.status (report w)) helpers.RUNNING);
      destruct w; reflexivity.
  - inversion Hplain as [|? ? Hp Hplain']; subst.
    inversion Hsize as [|? ? Hs Hsize']; subst.
    assert (Hlen : len (info :: rest) = (len rest + 1)%N)
      by (unfold len; cbn [length]; lia).
    rewrite Hlen in Hcount.
    cbn [zip_loop].
    replace (max_files_in_archive self <=? file_number)%N with false
      by (symmetry; apply N.leb_gt; lia).
    rewrite Hp. cbn [Z.eqb negb andb].
    cbn [List.filter] in Hout.
    destruct (is_dir info) eqn:Hdir; cbn [negb] in Hout.
    + apply IH; [lia|assumption|assumption|assumption].
    + inversion Hout as [|? o ? outs' Ho Hout']; subst.
      replace (max_extracted_filesize self <? file_size info)%N with false
        by (symmetry; apply N.ltb_ge; apply Hs; reflexivity).
      unfold bind at 1. unfold lift at 1. rewrite Ho.
      unfold bind at 1. unfold write_file at 1, update at 1.
      rewrite (IH _ _ _ _ _ outs'); [|lia|assumption|assumption|assumption].
      cbn [map fold_left with_disk report disk passwords].
      rewrite <- app_assoc. reflexivity.
Qed.

Lemma tar_loop_complete (archive_file : file.File) (tar : TarArchive)
    (members : list TarInfo) :
  forall (file_number : N) (acc : list string) (w : World)
         (outs : list (option file.bytes)),
    (file_number + len members <= max_files_in_archive self)%N ->
    Forall (fun m => isfile m = true ->
                     (tar_size m < max_extracted_filesize self)%N) members ->
    Forall2 (fun m o => tar_extract tar m dest_dir = py.Ok o)
            (List.filter isfile members) outs ->
    tar_loop self archive_file tar dest_dir members file_number acc w
    = (py.Ok (acc ++ map (fun m => file.joinpath dest_dir (tar_name m))
                         (List.filter isfile members)),
       mkWorld
         (report w)
         (fold_left
            (fun d mo =>
               match snd mo with
               | Some data =>
                   <[file.joinpath dest_dir (tar_name (fst mo)) := data]> d
               | None => d
               end)
            (combine (List.filter isfile members) outs) (disk w))
         (passwords w)).
Proof.
  induction members as [|m rest IH];
    intros file_number acc w outs Hcount Hsize Hout.
  - cbn in Hout. inversion Hout; subst. cbn. rewrite app_nil_r.
    destruct w; reflexivity.
  - inversion Hsize as [|? ? Hs Hsize']; subst.
    assert (Hlen : len (m :: rest) = (len rest + 1)%N)
      by (unfold len; cbn [length]; lia).
    rewrite Hlen in Hcount.
    cbn [tar_loop].
    replace (max_files_in_archive self <=? file_number)%N with false
      by (symmetry; apply N.leb_gt; lia).
    cbn [List.filter] in *.
    destruct (isfile m) eqn:Hfile; cbn [negb].
    + inversion Hout as [|? o ? outs' Ho Hout']; subst.
      replace (max_extracted_filesize self <=? tar_size m)%N with false
        by (symmetry; apply N.leb_gt; apply Hs; reflexivity).
      unfold bind at 1. unfold lift at 1. rewrite Ho.
      unfold bind at 1.
      destruct o as [data|].
      * unfold write_file at 1, update at 1.
        rewrite (IH _ _ _ outs'); [|lia|assumption|assumption].
        cbn [map combine fold_left fst snd with_disk report disk passwords].
        rewrite <- app_assoc. reflexivity.
      * unfold ret at 1.
        rewrite (IH _ _ _ outs'); [|lia|assumption|assumption].
        cbn [map combine fold_left fst snd].
        rewrite <- app_assoc. reflexivity.
    + apply IH; [lia|assumption|assumption].
Qed.

End Complete.

(** X15. A zip archive with at most max-files entries, none of them
    encrypted, whose files are all within the size ceiling and all
    extract, is extracted whole: the handler returns the path of every
    entry that is not a directory, in order, each written to disk, adds
    no detail, and turns a RUNNING report CLEAN (any other status stays).
    A tar archive with at most max-files members whose regular files are
    all below the ceiling and all extract is extracted whole too, each
    regular file under [dest_dir / name], and its report is left exactly
    as it was: a RUNNING report stays RUNNING. *)
Theorem X15_archives_within_limits_extracted_whole
    (self : extractor.Extractor) (archive_file : file.File)
    (dest_dir : string) (w : extractor.World) :
  (forall (zip_reader : file.Path -> py.res extractor.ZipArchive)
          (archive : extractor.ZipArchive)
          (outs : list (string * file.bytes)),
      zip_reader (file.path archive_file) = py.Ok archive ->
      (extractor.len (extractor.infolist archive)
       <= extractor.max_files_in_archive self)%N ->
      Forall (fun i => Z.land (extractor.flag_bits i) 1 = 0)
             (extractor.infolist archive) ->
      Forall (fun i => extractor.is_dir i = false ->
                       (extractor.file_size i
                        <= extractor.max_extracted_filesize self)%N)
             (extractor.infolist archive) ->
      Forall2 (fun i o => extractor.extract archive None i dest_dir = py.Ok o)
              (List.filter (fun i => negb (extractor.is_dir i))
                           (extractor.infolist archive)) outs ->
      extractor._extract_zip self zip_reader archive_file dest_dir w
      = (py.Ok (map fst outs),
         extractor.mkWorld
           (if helpers.eqb (report.status (extractor.report w)) helpers.RUNNING
            then report.set_status helpers.CLEAN (extractor.report w)
            else extractor.report w)
           (fold_left (fun d o => <[fst o := snd o]> d) outs (extractor.disk w))
           (extractor.passwords w))) /\
  (forall (P : extractor.Platform) (tar : extractor.TarArchive)
          (members : list extractor.TarInfo)
          (outs : list (option file.bytes)),
      extractor.TarFile P (file.path archive_file) = py.Ok tar ->
      extractor.getmembers tar = py.Ok members ->
      (extractor.len members <= extractor.max_files_in_archive self)%N ->
      Forall (fun m => extractor.isfile m = true ->
                       (extractor.tar_size m
                        < extractor.max_extracted_filesize self)%N) members ->
      Forall2 (fun m o => extractor.tar_extract tar m dest_dir = py.Ok o)
              (List.filter extractor.isfile members) outs ->
      fst (extractor._extract_tar self P archive_file dest_dir w)
      = py.Ok (map (fun m => file.joinpath dest_dir (extractor.tar_name m))
                   (List.filter extractor.isfile members)) /\
      extractor.report
        (snd (extractor._extract_tar self P archive_file dest_dir w))
      = extractor.report w).
Proof.
  split.
  - intros zip_reader archive outs Hopen Hcount Hplain Hsize Hout.
    unfold extractor._extract_zip.
    unfold extractor.bind at 1. unfold extractor.lift at 1. rewrite Hopen.
    rewrite (zip_loop_complete self dest_dir archive _ _ _ _ _ _ _ outs);
      [reflexivity|lia|assumption|assumption|assumption].
  - intros P tar members outs Hopen Hmem Hcount Hsize Hout.
    assert (H : extractor._extract_tar self P archive_file dest_dir w
                = extractor.tar_loop self archive_file tar dest_dir members
                    0%N [] w).
    { unfold extractor._extract_tar, extractor.bind, extractor.lift.
      rewrite Hopen, Hmem. reflexivity. }
    rewrite H.
    rewrite (tar_loop_complete self dest_dir archive_file tar _ _ _ _ outs);
      [split; reflexivity|lia|assumption|assumption].
Qed.

Lemma X15_archives_within_limits_extracted_whole_witness :
  extractor._extract_zip extractor_examples.cfg
    (fun _ => py.Ok extra_examples.zip_folder_and_file)
    extractor_examples.zip_file extractor_examples.dest
    extractor_examples.world0
  = (py.Ok ["/srv/t1/extracted/docs/a.txt"],
     extractor.mkWorld
       (report.mkReport "t1" "extractor" helpers.CLEAN false [] ∅)
       (<["/srv/t1/extracted/docs/a.txt" := extractor_examples.three_bytes]> ∅)
       []) /\
  fst (extractor._extract_tar extractor_examples.cfg
         (extractor_examples.with_tar extra_examples.tar_link_and_file
            extractor_examples.bare)
         extractor_examples.tar_file extractor_examples.dest
         extractor_examples.world0)
  = py.Ok ["/srv/t1/extracted/a.txt"] /\
  report.status
    (extractor.report
       (snd (extractor._extract_tar extractor_examples.cfg
               (extractor_examples.with_tar extra_examples.tar_link_and_file
                  extractor_examples.bare)
               extractor_examples.tar_file extractor_examples.dest
               extractor_examples.world0)))
  = helpers.RUNNING.
Proof.
  destruct (X15_archives_within_limits_extracted_whole extractor_examples.cfg
              extractor_examples.zip_file extractor_examples.dest
              extractor_examples.world0) as [Hzip _].
  destruct (X15_archives_within_limits_extracted_whole extractor_examples.cfg
              extractor_examples.tar_file extractor_examples.dest
              extractor_examples.world0) as [_ Htar].
  split.
  - apply (Hzip (fun _ => py.Ok extra_examples.zip_folder_and_file)
             extra_examples.zip_folder_and_file
             [("/srv/t1/extracted/docs/a.txt", extractor_examples.three_bytes)]).
    + reflexivity.
    + vm_compute. discriminate.
    + repeat constructor.
    + repeat constructor; intros _; vm_compute; discriminate.
    + repeat constructor.
  - destruct (Htar (extractor_examples.with_tar extra_examples.tar_link_and_file
                      extractor_examples.bare)
                extra_examples.tar_link_and_file
                [extractor.mkTarInfo "latest" 0 false;
                 extractor.mkTarInfo "./a.txt" 3 true]
                [Some extractor_examples.three_bytes]) as [Hp Hr].
    + reflexivity.
    + reflexivity.
    + vm_compute. discriminate.
    + repeat constructor; intros _; vm_compute; reflexivity.
    + repeat constructor.
    + split; [exact Hp|]. rewrite Hr. reflexivity.
Defined.
(* ===================================================================== *)
(** * The Extractor: ISO images *)
(* ===================================================================== *)

Section IsoBounds.
Import extractor.

Variable self : Extractor.
Variable image : IsoImage.
Variable archive_file : file.File.
Variable dest_dir : string.

(** A path holds, on disk, fewer bytes than the ceiling. *)
Local Abbreviation small_on w p :=
  (exists content : file.bytes,
      disk w !! p = Some content /\
      (len content < max_extracted_filesize self)%N).

Lemma small_on_report (f : report.Report -> report.Report) (w : World)
    (l : list string) :
  Forall (fun p => small_on w p) l ->
  Forall (fun p => small_on (with_report f w) p) l.
Proof. intros H. exact H. Qed.

Lemma small_on_write (w : World) (p : string) (content : file.bytes)
    (l : list string) :
  (len content < max_extracted_filesize self)%N ->
  Forall (fun q => small_on w q) l ->
  Forall (fun q => small_on (with_disk (insert p content) w) q) (l ++ [p]).
Proof.
  intros Hsmall Hall. apply Forall_app. split.
  - eapply Forall_impl; [exact Hall|]. intros q (c & Hq & Hc). cbn.
    destruct (String.eq_dec p q) as [->|Hne].
    + exists content. rewrite lookup_insert_eq. split; [reflexivity|exact Hsmall].
    + exists c. rewrite lookup_insert_ne by exact Hne. split; assumption.
  - constructor; [|constructor]. exists content. cbn.
    rewrite lookup_insert_eq. split; [reflexivity|exact Hsmall].
Qed.

Lemma iso_files_bound (dirname : string) (filelist : list string) :
  forall (acc : list string) (w : World) (paths : list string) (w' : World),
    iso_files self image archive_file dest_dir dirname filelist acc w
    = (py.Ok paths, w') ->
    (len acc <= max_files_in_archive self + 1)%N ->
    Forall (fun p => small_on w p) acc ->
    (len paths <= max_files_in_archive self + 1)%N /\
    Forall (fun p => small_on w' p) paths.
Proof.
  induction filelist as [|filename rest IH]; intros acc w paths w' Hrun Hlen Hall.
  - cbn in Hrun. inversion Hrun; subst. split; assumption.
  - cbn [iso_files] in Hrun. unfold bind at 1 in Hrun. unfold lift at 1 in Hrun.
    destruct (get_file_from_iso_fp image _) as [content|e]; [|discriminate Hrun].
    destruct (max_extracted_filesize self <=? len content)%N eqn:Hbig.
    + unfold bind at 1 in Hrun. unfold set_status at 1, update at 1 in Hrun.
      unfold bind at 1 in Hrun. unfold add_details at 1, update at 1 in Hrun.
      apply (IH _ _ _ _ Hrun Hlen). exact Hall.
    + apply N.leb_gt in Hbig.
      destruct (max_files_in_archive self <? len acc)%N eqn:Hfull.
      * inversion Hrun; subst. split; assumption.
      * apply N.ltb_ge in Hfull.
        unfold bind at 1 in Hrun. unfold write_file at 1, update at 1 in Hrun.
        apply (IH _ _ _ _ Hrun).
        -- unfold len in *. rewrite length_app. cbn [length]. lia.
        -- apply small_on_write; assumption.
Qed.

Lemma iso_dirs_bound (dirs : list (string * list string)) :
  forall (acc : list string) (w : World) (paths : list string) (w' : World),
    iso_dirs self image archive_file dest_dir dirs acc w = (py.Ok paths, w') ->
    (len acc <= max_files_in_archive self + 1)%N ->
    Forall (fun p => small_on w p) acc ->
    (len paths <= max_files_in_archive self + 1)%N /\
    Forall (fun p => small_on w' p) paths.
Proof.
  induction dirs as [|[dirname filelist] rest IH];
    intros acc w paths w' Hrun Hlen Hall.
  - cbn in Hrun. destruct (walk_failure image); inversion Hrun; subst.
    split; assumption.
  - cbn [iso_dirs] in Hrun.
    destruct (max_files_in_archive self <? len acc)%N.
    + inversion Hrun; subst. split; assumption.
    + destruct filelist as [|filename more].
      * apply (IH _ _ _ _ Hrun Hlen Hall).
      * unfold bind at 1 in Hrun.
        destruct (iso_files self image archive_file dest_dir dirname
                    (filename :: more) acc w) as [[acc'|e] w1] eqn:Hfiles;
          [|discriminate Hrun].
        destruct (iso_files_bound _ _ _ _ _ _ Hfiles Hlen Hall) as [Hlen' Hall'].
        apply (IH _ _ _ _ Hrun Hlen' Hall').
Qed.

End IsoBounds.

(** X16. Whenever the ISO handler returns, it returns at most max-files
    plus one paths (one more than the zip and tar handlers allow), each
    path holds on disk fewer bytes than the size ceiling, and when the
    paths number more than max-files the report's status is the
    configured overflow status and its last detail says that there are
    too many files. *)
Theorem X16_iso_at_most_one_file_over
    (self : extractor.Extractor) (R : extractor.IsoReader)
    (archive_file : file.File) (dest_dir : string)
    (w w' : extractor.World) (paths : list string) :
  extractor._extract_iso self R archive_file dest_dir w = (py.Ok paths, w') ->
  (extractor.len paths <= extractor.max_files_in_archive self + 1)%N /\
  Forall (fun p => exists content : file.bytes,
                     extractor.disk w' !! p = Some content /\
                     (extractor.len content
                      < extractor.max_extracted_filesize self)%N) paths /\
  ((extractor.max_files_in_archive self < extractor.len paths)%N ->
   report.status (extractor.report w') = extractor.overflow_status self /\
   last (report.details (extractor.report w'))
   = Some ("Warning", extractor.too_many_iso self)).
Proof.
  unfold extractor._extract_iso. intros Hrun.
  unfold extractor.bind at 1 in Hrun. unfold extractor.lift at 1 in Hrun.
  destruct (extractor.data R archive_file) as [[content|]|e];
    [| |discriminate Hrun].
  - unfold extractor.bind at 1 in Hrun. unfold extractor.lift at 1 in Hrun.
    destruct (extractor.open_fp R content) as [image|e]; [|discriminate Hrun].
    unfold extractor.bind at 1 in Hrun.
    destruct (extractor.iso_dirs self image archive_file dest_dir
                (extractor.walk image) [] w) as [[acc|e] w1] eqn:Hdirs;
      [|discriminate Hrun].
    destruct (iso_dirs_bound self image archive_file dest_dir _ _ _ _ _ Hdirs)
      as [Hlen Hall]; [unfold extractor.len; cbn; lia|constructor|].
    destruct (extractor.max_files_in_archive self <? extractor.len acc)%N
      eqn:Hover; cbn in Hrun; inversion Hrun; subst; clear Hrun.
    + split; [exact Hlen|]. split; [exact Hall|]. intros _.
      cbn. split; [reflexivity|]. apply last_snoc.
    + split; [exact Hlen|]. split; [exact Hall|].
      apply N.ltb_ge in Hover. intros Hlt. lia.
  - cbn in Hrun. inversion Hrun; subst.
    split; [unfold extractor.len; cbn; lia|]. split; [constructor|].
    unfold extractor.len. cbn. lia.
Qed.

Lemma X16_iso_at_most_one_file_over_witness :
  extractor.max_files_in_archive extractor_examples.cfg = 2%N /\
  fst (extractor._extract_iso extractor_examples.cfg extra_examples.iso_reader
         extra_examples.iso_as_zip extractor_examples.dest
         extractor_examples.world0)
  = py.Ok ["/srv/t1/extracted/A.TXT;1"; "/srv/t1/extracted/DOCS/B.TXT;1";
           "/srv/t1/extracted/DOCS/C.TXT;1"] /\
  report.status
    (extractor.report
       (snd (extractor._extract_iso extractor_examples.cfg
               extra_examples.iso_reader extra_examples.iso_as_zip
               extractor_examples.dest extractor_examples.world0)))
  = helpers.ALERT.
Proof.
  split; [reflexivity|]. split; [vm_compute; reflexivity|].
  refine (proj1 (proj2 (proj2
    (X16_iso_at_most_one_file_over extractor_examples.cfg
       extra_examples.iso_reader extra_examples.iso_as_zip
       extractor_examples.dest extractor_examples.world0 _
       ["/srv/t1/extracted/A.TXT;1"; "/srv/t1/extracted/DOCS/B.TXT;1";
        "/srv/t1/extracted/DOCS/C.TXT;1"] _)) _)).
  - vm_compute. reflexivity.
  - vm_compute. reflexivity.
Defined.

Section IsoComplete.
Import extractor.

Variable self : Extractor.
Variable image : IsoImage.
Variable archive_file : file.File.
Variable dest_dir : string.

(** The files of the directories, as the inner loop names them. *)
Local Abbreviation files_of dirs :=
  (flat_map (fun df : string * list string =>
               map (fun fn => (fst df, lstrip_slash fn)) (snd df)) dirs).

Local Abbreviation path_of e :=
  (pathlib_join (pathlib_join dest_dir ("." +:+ fst e)) (snd e)).

Local Abbreviation readable e :=
  (exists content : file.bytes,
      get_file_from_iso_fp image (fst e +:+ "/" +:+ snd e) = py.Ok content /\
      (len content < max_extracted_filesize self)%N).

Local Abbreviation written entries d :=
  (fold_left
     (fun (m : gmap string file.bytes) (e : string * string) =>
        match get_file_from_iso_fp image (fst e +:+ "/" +:+ snd e) with
        | py.Ok content => <[path_of e := content]> m
        | py.Raise _ => m
        end) entries d).

Lemma iso_files_complete (dirname : string) (filelist : list string) :
  forall (acc : list string) (w : World),
    Forall (fun e => readable e)
           (map (fun fn => (dirname, lstrip_slash fn)) filelist) ->
    (len acc + len filelist <= max_files_in_archive self + 1)%N ->
    iso_files self image archive_file dest_dir dirname filelist acc w
    = (py.Ok (acc ++ map (fun e => path_of e)
                         (map (fun fn => (dirname, lstrip_slash fn)) filelist)),
       mkWorld (report w)
         (written (map (fun fn => (dirname, lstrip_slash fn)) filelist) (disk w))
         (passwords w)).
Proof.
  induction filelist as [|filename rest IH]; intros acc w Hall Hlen.
  - cbn. rewrite app_nil_r. destruct w; reflexivity.
  - cbn [map] in Hall. inversion Hall as [|? ? (content & Hget & Hsmall) Hrest].
    subst.
    assert (Hl : len (filename :: rest) = (len rest + 1)%N)
      by (unfold len; cbn [length]; lia).
    rewrite Hl in Hlen.
    cbn [iso_files map fold_left fst snd] in *.
    unfold bind at 1. unfold lift at 1. rewrite Hget.
    replace (max_extracted_filesize self <=? len content)%N with false
      by (symmetry; apply N.leb_gt; exact Hsmall).
    replace (max_files_in_archive self <? len acc)%N with false
      by (symmetry; apply N.ltb_ge; lia).
    unfold bind at 1. unfold write_file at 1, update at 1.
    rewrite IH; [|exact Hrest|].
    + cbn [with_disk report disk passwords]. rewrite <- app_assoc. reflexivity.
    + unfold len in *. rewrite length_app. cbn [length]. lia.
Qed.

Lemma iso_dirs_complete (dirs : list (string * list string)) :
  forall (acc : list string) (w : World),
    walk_failure image = None ->
    Forall (fun e => readable e) (files_of dirs) ->
    (len acc + len (files_of dirs) <= max_files_in_archive self + 1)%N ->
    iso_dirs self image archive_file dest_dir dirs acc w
    = (py.Ok (acc ++ map (fun e => path_of e) (files_of dirs)),
       mkWorld (report w) (written (files_of dirs) (disk w)) (passwords w)).
Proof.
  induction dirs as [|[dirname filelist] rest IH]; intros acc w Hend Hall Hlen.
  - cbn. rewrite Hend, app_nil_r. destruct w; reflexivity.
  - cbn [flat_map fst snd] in *.
    apply Forall_app in Hall. destruct Hall as [Hhere Hrest].
    assert (Hl : len (map (fun fn => (dirname, lstrip_slash fn)) filelist
                        ++ files_of rest)
                 = (len filelist + len (files_of rest))%N)
      by (unfold len; rewrite length_app, length_map; lia).
    rewrite Hl in Hlen.
    cbn [iso_dirs].
    destruct (max_files_in_archive self <? len acc)%N eqn:Hfull.
    + apply N.ltb_lt in Hfull.
      assert (Hf : filelist = [])
        by (destruct filelist; [reflexivity|unfold len in *; cbn in *; lia]).
      assert (Hr : files_of rest = [])
        by (destruct (files_of rest); [reflexivity|unfold len in *; cbn in *; lia]).
      subst filelist. rewrite Hr. cbn. rewrite app_nil_r.
      destruct w; reflexivity.
    + destruct filelist as [|filename more].
      * cbn [map app]. apply IH; [exact Hend|exact Hrest|].
        unfold len in *. cbn in *. lia.
      * unfold bind at 1.
        rewrite iso_files_complete; [|exact Hhere|lia].
        rewrite IH; [|exact Hend|exact Hrest|].
        -- cbn [report disk passwords].
           rewrite map_app, fold_left_app, <- app_assoc. reflexivity.
        -- unfold len in *. rewrite length_app, !length_map. lia.
Qed.

End IsoComplete.

(** X17. An ISO image that opens, whose walk ends without an exception
    and whose files all read to fewer bytes than the size ceiling, is
    extracted whole when it holds at most max-files plus one files: every
    file is written under [dest_dir / .dirname / filename] and returned,
    in the order of the walk.  With at most max-files files the report is
    left as it was; with max-files plus one files, all of them extracted,
    the report is given the configured overflow status and one more
    detail, that there are too many files. *)
Theorem X17_iso_extracted_whole
    (self : extractor.Extractor) (R : extractor.IsoReader)
    (archive_file : file.File) (dest_dir : string) (w : extractor.World)
    (content : file.bytes) (image : extractor.IsoImage)
    (entries : list (string * string)) :
  extractor.data R archive_file = py.Ok (Some content) ->
  extractor.open_fp R content = py.Ok image ->
  extractor.walk_failure image = None ->
  entries
  = flat_map (fun df : string * list string =>
                map (fun fn => (fst df, extractor.lstrip_slash fn)) (snd df))
             (extractor.walk image) ->
  Forall (fun e =>
            exists c : file.bytes,
              extractor.get_file_from_iso_fp image (fst e +:+ "/" +:+ snd e)
              = py.Ok c /\
              (extractor.len c < extractor.max_extracted_filesize self)%N)
         entries ->
  (extractor.len entries <= extractor.max_files_in_archive self + 1)%N ->
  fst (extractor._extract_iso self R archive_file dest_dir w)
  = py.Ok (map (fun e => extractor.pathlib_join
                           (extractor.pathlib_join dest_dir ("." +:+ fst e))
                           (snd e))
               entries) /\
  ((extractor.len entries <= extractor.max_files_in_archive self)%N ->
   extractor.report (snd (extractor._extract_iso self R archive_file dest_dir w))
   = extractor.report w) /\
  (extractor.len entries = (extractor.max_files_in_archive self + 1)%N ->
   extractor.report (snd (extractor._extract_iso self R archive_file dest_dir w))
   = report.add_details "Warning" (extractor.too_many_iso self)
       (report.set_status (extractor.overflow_status self)
          (extractor.report w))).
Proof.
  intros Hdata Hopen Hend -> Hall Hlen.
  set (entries := flat_map _ (extractor.walk image)) in *.
  set (paths := map _ entries).
  assert (Hl : extractor.len paths = extractor.len entries)
    by (unfold extractor.len, paths; rewrite length_map; reflexivity).
  assert (Hrun : exists d,
             extractor._extract_iso self R archive_file dest_dir w
             = (py.Ok paths,
                extractor.mkWorld
                  (if (extractor.max_files_in_archive self
                       <? extractor.len entries)%N
                   then report.add_details "Warning" (extractor.too_many_iso self)
                          (report.set_status (extractor.overflow_status self)
                             (extractor.report w))
                   else extractor.report w)
                  d (extractor.passwords w))).
  { unfold extractor._extract_iso.
    unfold extractor.bind at 1. unfold extractor.lift at 1. rewrite Hdata.
    unfold extractor.bind at 1. unfold extractor.lift at 1. rewrite Hopen.
    unfold extractor.bind at 1.
    rewrite (iso_dirs_complete self image archive_file dest_dir _ [] w Hend Hall)
      by (unfold extractor.len, entries in *; cbn [length]; lia).
    cbn [app]. fold entries. fold paths. rewrite Hl.
    destruct (extractor.max_files_in_archive self <? extractor.len entries)%N;
      eexists; reflexivity. }
  destruct Hrun as [d Hrun]. rewrite Hrun. cbn [fst snd extractor.report].
  split; [reflexivity|].
  split; intros H.
  - replace (extractor.max_files_in_archive self <? extractor.len entries)%N
      with false by (symmetry; apply N.ltb_ge; exact H).
    reflexivity.
  - replace (extractor.max_files_in_archive self <? extractor.len entries)%N
      with true by (symmetry; apply N.ltb_lt; lia).
    reflexivity.
Qed.

Lemma X17_iso_extracted_whole_witness :
  fst (extractor._extract_iso extractor_examples.cfg extra_examples.iso_reader
         extra_examples.iso_as_zip extractor_examples.dest
         extractor_examples.world0)
  = py.Ok ["/srv/t1/extracted/A.TXT;1"; "/srv/t1/extracted/DOCS/B.TXT;1";
           "/srv/t1/extracted/DOCS/C.TXT;1"] /\
  extractor.report
    (snd (extractor._extract_iso extractor_examples.cfg
            extra_examples.iso_reader extra_examples.iso_as_zip
            extractor_examples.dest extractor_examples.world0))
  = report.mkReport "t1" "extractor" helpers.ALERT false
      [("Warning", "Too many files in the archive (more than 2).")] ∅.
Proof.
  destruct (X17_iso_extracted_whole extractor_examples.cfg
              extra_examples.iso_reader extra_examples.iso_as_zip
              extractor_examples.dest extractor_examples.world0
              extractor_examples.three_bytes extra_examples.iso_image
              [("/", "A.TXT;1"); ("/DOCS", "B.TXT;1"); ("/DOCS", "C.TXT;1")])
    as (Hp & _ & Hr).
  - reflexivity.
  - reflexivity.
  - reflexivity.
  - reflexivity.
  - repeat constructor; exists extractor_examples.three_bytes;
      (split; [reflexivity|vm_compute; reflexivity]).
  - vm_compute. discriminate.
  - split; [exact Hp|]. rewrite Hr by reflexivity. reflexivity.
Defined.
(* ===================================================================== *)
(** * The Extractor: 7z archives *)
(* ===================================================================== *)

Section SevenZip.
Import extractor.

Variable R : SevenZipReader.
Variable path : file.Path.

Lemma try_password_7z_first (pwds : list string) :
  forall found : option string,
    _try_password_7z R path pwds = py.Ok found ->
    match found with
    | Some p =>
        exists before after : list string,
          pwds = before ++ p :: after /\
          read_first R path (Some p) = py.Ok true /\
          Forall (fun q => read_first R path (Some q) <> py.Ok true) before
    | None =>
        Forall (fun q => read_first R path (Some q) <> py.Ok true) pwds
    end.
Proof.
  induction pwds as [|pwd rest IH]; intros found Hrun.
  - cbn in Hrun. inversion Hrun; subst. constructor.
  - cbn [_try_password_7z] in Hrun.
    assert (Hnext : read_first R path (Some pwd) <> py.Ok true ->
                    _try_password_7z R path rest = py.Ok found ->
                    match found with
                    | Some p =>
                        exists before after : list string,
                          pwd :: rest = before ++ p :: after /\
                          read_first R path (Some p) = py.Ok true /\
                          Forall (fun q => read_first R path (Some q) <> py.Ok true)
                                 before
                    | None =>
                        Forall (fun q => read_first R path (Some q) <> py.Ok true)
                               (pwd :: rest)
                    end).
    { intros Hbad Hrest. specialize (IH _ Hrest).
      destruct found as [p|].
      - destruct IH as (before & after & -> & Hok & Hbefore).
        exists (pwd :: before), after.
        split; [reflexivity|]. split; [exact Hok|].
        constructor; assumption.
      - constructor; assumption. }
    destruct (read_first R path (Some pwd)) as [[|]|e] eqn:Hread.
    + inversion Hrun; subst. exists [], rest.
      split; [reflexivity|]. split; [exact Hread|constructor].
    + apply Hnext; [discriminate|exact Hrun].
    + destruct (is_PasswordRequired R e || py.is_Exception e);
        [|discriminate Hrun].
      apply Hnext; [discriminate|exact Hrun].
Qed.

End SevenZip.

(** X18. The password search of the 7z handler returns the first
    candidate, in the order of the list, with which the archive opens and
    its first member reads; it returns [None] only when no candidate does.
    A candidate that opens an archive without any member is passed over
    like one that is refused. *)
Theorem X18_7z_first_working_password
    (R : extractor.SevenZipReader) (path : file.Path) (pwds : list string)
    (found : option string) :
  extractor._try_password_7z R path pwds = py.Ok found ->
  match found with
  | Some p =>
      exists before after : list string,
        pwds = before ++ p :: after /\
        (exists (archive : extractor.SevenZipArchive) (name : string)
                (names : list string),
            extractor.SevenZipFile R path (Some p) = py.Ok archive /\
            extractor.getnames archive = name :: names /\
            extractor.read_name archive name = py.Ok tt) /\
        Forall (fun q => extractor.read_first R path (Some q) <> py.Ok true)
               before
  | None =>
      Forall (fun q =>
                forall archive : extractor.SevenZipArchive,
                  extractor.SevenZipFile R path (Some q) = py.Ok archive ->
                  extractor.getnames archive = [] \/
                  exists name names e,
                    extractor.getnames archive = name :: names /\
                    extractor.read_name archive name = py.Raise e)
             pwds
  end.
Proof.
  intros Hrun. pose proof (try_password_7z_first R path pwds found Hrun) as H.
  destruct found as [p|].
  - destruct H as (before & after & Hsplit & Hok & Hbefore).
    exists before, after. split; [exact Hsplit|]. split; [|exact Hbefore].
    unfold extractor.read_first in Hok.
    destruct (extractor.SevenZipFile R path (Some p)) as [archive|e];
      [|discriminate Hok].
    destruct (extractor.getnames archive) as [|name names] eqn:Hn;
      [discriminate Hok|].
    destruct (extractor.read_name archive name) as [[]|e] eqn:Hr;
      [|discriminate Hok].
    exists archive, name, names. repeat split; assumption.
  - eapply Forall_impl; [exact H|]. intros q Hq archive Hopen.
    unfold extractor.read_first in Hq. rewrite Hopen in Hq.
    destruct (extractor.getnames archive) as [|name names]; [left; reflexivity|].
    right. destruct (extractor.read_name archive name) as [[]|e] eqn:Hr.
    + exfalso. apply Hq. reflexivity.
    + exists name, names, e. split; [reflexivity|exact Hr].
Qed.

Lemma X18_7z_first_working_password_witness :
  extractor._try_password_7z extra_examples.seven_zip_reader
    (file.path extra_examples.seven_zip_file) ["123456"; "infected"]
  = py.Ok (Some "infected") /\
  exists before after : list string,
    ["123456"; "infected"] = before ++ "infected" :: after /\
    (exists (archive : extractor.SevenZipArchive) (name : string)
            (names : list string),
        extractor.SevenZipFile extra_examples.seven_zip_reader
          (file.path extra_examples.seven_zip_file) (Some "infected")
        = py.Ok archive /\
        extractor.getnames archive = name :: names /\
        extractor.read_name archive name = py.Ok tt) /\
    Forall (fun q =>
              extractor.read_first extra_examples.seven_zip_reader
                (file.path extra_examples.seven_zip_file) (Some q)
              <> py.Ok true)
           before.
Proof.
  split; [reflexivity|].
  exact (X18_7z_first_working_password extra_examples.seven_zip_reader
           (file.path extra_examples.seven_zip_file) ["123456"; "infected"]
           (Some "infected") eq_refl).
Defined.

Section SevenZipSafety.
Import extractor.

Lemma iterdir_files_on_disk (dir : string) (w : World) (p : string) :
  In p (List.filter (directly_in dir) (map fst (map_to_list (disk w)))) ->
  is_Some (disk w !! p) /\ directly_in dir p = true.
Proof.
  intros H. apply filter_In in H. destruct H as [Hin Hdir].
  split; [|exact Hdir].
  apply in_map_iff in Hin. destruct Hin as [[k v] [Hk Hkv]]. cbn in Hk. subst k.
  apply list_elem_of_In in Hkv. apply elem_of_map_to_list in Hkv.
  exists v. exact Hkv.
Qed.

End SevenZipSafety.

(** X19. The 7z handler extracts all or nothing.  Whenever it changes the
    disk, it has opened the archive without password, or with a candidate
    of the password list, has found its uncompressed size below the size
    ceiling and its members at most max-files in number, and has written
    what [extractall] writes; the paths it then returns are on disk,
    directly in the destination directory.  In every other case the disk
    is as it was. *)
Theorem X19_7z_all_or_nothing
    (self : extractor.Extractor) (R : extractor.SevenZipReader)
    (archive_file : file.File) (dest_dir : string)
    (w w' : extractor.World) (out : py.res (list string)) :
  extractor._extract_7z self R archive_file dest_dir w = (out, w') ->
  extractor.disk w' = extractor.disk w \/
  exists (password : option string) (archive : extractor.SevenZipArchive)
         (written : list (string * file.bytes)) (paths : list string),
    (password = None \/
     exists p, password = Some p /\ In p (extractor.passwords w)) /\
    extractor.SevenZipFile R (file.path archive_file) password = py.Ok archive /\
    (extractor.uncompressed archive < extractor.max_extracted_filesize self)%N /\
    (extractor.len (extractor.getnames archive)
     <= extractor.max_files_in_archive self)%N /\
    extractor.extractall archive dest_dir = py.Ok written /\
    extractor.disk w'
    = fold_left (fun d o => <[fst o := snd o]> d) written (extractor.disk w) /\
    out = py.Ok paths /\
    Forall (fun p => is_Some (extractor.disk w' !! p) /\
                     extractor.directly_in dest_dir p = true) paths.
Proof.
  unfold extractor._extract_7z. intros Hrun.
  unfold extractor.bind at 1 in Hrun. unfold extractor.lift at 1 in Hrun.
  assert (Hall : forall (password : option string),
             (password = None \/
              exists p, password = Some p /\ In p (extractor.passwords w)) ->
             extractor.bind
               (extractor.lift
                  (extractor.SevenZipFile R (file.path archive_file) password))
               (fun archive =>
                  extractor.extract_all_7z self archive_file dest_dir archive) w
             = (out, w') ->
             extractor.disk w' = extractor.disk w \/
             exists (password : option string)
                    (archive : extractor.SevenZipArchive)
                    (written : list (string * file.bytes)) (paths : list string),
               (password = None \/
                exists p, password = Some p /\ In p (extractor.passwords w)) /\
               extractor.SevenZipFile R (file.path archive_file) password
               = py.Ok archive /\
               (extractor.uncompressed archive
                < extractor.max_extracted_filesize self)%N /\
               (extractor.len (extractor.getnames archive)
                <= extractor.max_files_in_archive self)%N /\
               extractor.extractall archive dest_dir = py.Ok written /\
               extractor.disk w'
               = fold_left (fun d o => <[fst o := snd o]> d) written
                           (extractor.disk w) /\
               out = py.Ok paths /\
               Forall (fun p => is_Some (extractor.disk w' !! p) /\
                                extractor.directly_in dest_dir p = true) paths).
  { intros password Hpw H.
    unfold extractor.bind at 1 in H. unfold extractor.lift at 1 in H.
    destruct (extractor.SevenZipFile R (file.path archive_file) password)
      as [archive|e] eqn:Hopen; [|inversion H; left; reflexivity].
    unfold extractor.extract_all_7z in H.
    destruct (extractor.max_extracted_filesize self
              <=? extractor.uncompressed archive)%N eqn:Hbig;
      [cbn in H; inversion H; left; reflexivity|].
    destruct (extractor.max_files_in_archive self
              <? extractor.len (extractor.getnames archive))%N eqn:Hmany;
      [cbn in H; inversion H; left; reflexivity|].
    apply N.leb_gt in Hbig. apply N.ltb_ge in Hmany.
    unfold extractor.bind at 1 in H. unfold extractor.lift at 1 in H.
    destruct (extractor.extractall archive dest_dir) as [written|e] eqn:Hx;
      [|inversion H; left; reflexivity].
    unfold extractor.bind at 1 in H. unfold extractor.update at 1 in H.
    unfold extractor.iterdir_files in H. inversion H; subst. clear H.
    right. exists password, archive, written. eexists.
    split; [exact Hpw|]. split; [exact Hopen|]. split; [exact Hbig|].
    split; [exact Hmany|]. split; [exact Hx|]. split; [reflexivity|].
    split; [reflexivity|].
    apply Forall_forall. intros p Hp. apply list_elem_of_In in Hp.
    apply (iterdir_files_on_disk dest_dir
             (extractor.with_disk
                (fun d => fold_left (fun d o => <[fst o := snd o]> d) written d)
                w) p Hp). }
  destruct (extractor.read_first R (file.path archive_file) None) as [b|e].
  - unfold extractor.bind at 1 in Hrun. unfold extractor.get at 1 in Hrun.
    unfold extractor.bind at 1 in Hrun. unfold extractor.ret at 1 in Hrun.
    apply (Hall None); [left; reflexivity|exact Hrun].
  - destruct (extractor.is_PasswordRequired R e);
      [|inversion Hrun; left; reflexivity].
    unfold extractor.bind at 1 in Hrun. unfold extractor.get at 1 in Hrun.
    unfold extractor.bind at 1 in Hrun. unfold extractor.lift at 1 in Hrun.
    destruct (extractor._try_password_7z R (file.path archive_file)
                (extractor.passwords w)) as [[p|]|e'] eqn:Htry.
    + apply (Hall (Some p)); [|exact Hrun].
      right. exists p. split; [reflexivity|].
      pose proof (try_password_7z_first R _ _ _ Htry) as (b & a & Hs & _).
      rewrite Hs. apply in_or_app. right. left. reflexivity.
    + cbn in Hrun. inversion Hrun. left. reflexivity.
    + inversion Hrun. left. reflexivity.
Qed.

Lemma X19_7z_all_or_nothing_witness :
  fst (extractor._extract_7z extractor_examples.cfg
         extra_examples.seven_zip_reader extra_examples.seven_zip_file
         extractor_examples.dest
         (extractor.with_passwords ["123456"; "infected"]
            extractor_examples.world0))
  = py.Ok ["/srv/t1/extracted/a.txt"] /\
  (extractor.disk
     (snd (extractor._extract_7z extractor_examples.cfg
             extra_examples.seven_zip_reader extra_examples.seven_zip_file
             extractor_examples.dest
             (extractor.with_passwords ["123456"; "infected"]
                extractor_examples.world0)))
   = ∅ \/
   exists (password : option string) (archive : extractor.SevenZipArchive),
     (password = None \/
      exists p, password = Some p /\ In p ["123456"; "infected"]) /\
     extractor.SevenZipFile extra_examples.seven_zip_reader
       (file.path extra_examples.seven_zip_file) password
     = py.Ok archive /\
     (extractor.uncompressed archive < 1000000)%N /\
     (extractor.len (extractor.getnames archive) <= 2)%N).
Proof.
  split; [vm_compute; reflexivity|].
  destruct (X19_7z_all_or_nothing extractor_examples.cfg
              extra_examples.seven_zip_reader extra_examples.seven_zip_file
              extractor_examples.dest
              (extractor.with_passwords ["123456"; "infected"]
                 extractor_examples.world0)
              _ _ (surjective_pairing _))
    as [Hsame|(password & archive & written & paths & Hpw & Hopen & Hbig
               & Hmany & _)].
  - left. exact Hsame.
  - right. exists password, archive.
    split; [exact Hpw|]. split; [exact Hopen|]. split; [exact Hbig|exact Hmany].
Defined.
(* ===================================================================== *)
(** * The Extractor: rar archives *)
(* ===================================================================== *)

Section RarLoop.
Import extractor.

Variable self : Extractor.
Variable R : RarReader.
Variable archive : RarArchive.
Variable dest_dir : string.

Lemma rar_loop_inv (infos : list RarInfo) :
  forall (file_number : N) (found : bool) (pwd : option string)
         (acc : list string) (w : World) (paths : list string) (w' : World),
    rar_loop self R archive dest_dir infos file_number found pwd acc w
    = (py.Ok paths, w') ->
    exists (n : nat) (outs : list (string * file.bytes)),
      (n <= length infos)%nat /\
      (N.of_nat n <= max_files_in_archive self - file_number)%N /\
      Forall2 (fun i o => exists pw, rar_extract archive pw i dest_dir = py.Ok o)
              (List.filter
                 (fun i => negb (rar_is_dir i)
                           && (rar_file_size i <=? max_extracted_filesize self)%N)
                 (firstn n infos))
              outs /\
      paths = acc ++ map fst outs /\
      disk w' = fold_left (fun d o => <[fst o := snd o]> d) outs (disk w).
Proof.
  induction infos as [|info rest IH];
    intros file_number found pwd acc w paths w' Hrun.
  - cbn in Hrun. unfold bind, get, set_status, update, ret in Hrun.
    exists 0%nat, []. cbn. rewrite app_nil_r.
    destruct (helpers.eqb (report.status (report w)) helpers.RUNNING);
      inversion Hrun; subst; repeat split; try constructor; lia.
  - assert (Hstop : forall (w0 : World),
               disk w0 = disk w -> (py.Ok acc, w0) = (py.Ok paths, w') ->
               exists (n : nat) (outs : list (string * file.bytes)),
                 (n <= length (info :: rest))%nat /\
                 (N.of_nat n <= max_files_in_archive self - file_number)%N /\
                 Forall2 (fun i o => exists pw,
                              rar_extract archive pw i dest_dir = py.Ok o)
                         (List.filter
                            (fun i => negb (rar_is_dir i)
                                      && (rar_file_size i
                                          <=? max_extracted_filesize self)%N)
                            (firstn n (info :: rest)))
                         outs /\
                 paths = acc ++ map fst outs /\
                 disk w' = fold_left (fun d o => <[fst o := snd o]> d) outs
                                     (disk w)).
    { intros w0 Hd Heq. inversion Heq; subst. exists 0%nat, []. cbn.
      rewrite app_nil_r.
      repeat split; try constructor; try lia. exact Hd. }
    cbn [rar_loop] in Hrun.
    destruct (max_files_in_archive self <=? file_number)%N eqn:Hfull.
    { cbn in Hrun. unfold ret in Hrun. eapply Hstop; [|exact Hrun].
      reflexivity. }
    apply N.leb_gt in Hfull.
    assert (Hbody : forall (found' : bool) (pwd' : option string),
               (if rar_is_dir info
                then rar_loop self R archive dest_dir rest (file_number + 1)
                              found' pwd' acc
                else if (max_extracted_filesize self <? rar_file_size info)%N
                then bind (set_status (overflow_status self))
                       (fun _ =>
                          bind (add_details "Warning" (skipping_rar info))
                            (fun _ =>
                               rar_loop self R archive dest_dir rest
                                        (file_number + 1) found' pwd' acc))
                else bind (lift (rar_extract archive pwd' info dest_dir))
                       (fun out =>
                          bind (write_file (fst out) (snd out))
                            (fun _ =>
                               rar_loop self R archive dest_dir rest
                                        (file_number + 1) found' pwd'
                                        (acc ++ [fst out])))) w
               = (py.Ok paths, w') ->
               exists (n : nat) (outs : list (string * file.bytes)),
                 (n <= length (info :: rest))%nat /\
                 (N.of_nat n <= max_files_in_archive self - file_number)%N /\
                 Forall2 (fun i o => exists pw,
                              rar_extract archive pw i dest_dir = py.Ok o)
                         (List.filter
                            (fun i => negb (rar_is_dir i)
                                      && (rar_file_size i
                                          <=? max_extracted_filesize self)%N)
                            (firstn n (info :: rest)))
                         outs /\
                 paths = acc ++ map fst outs /\
                 disk w' = fold_left (fun d o => <[fst o := snd o]> d) outs
                                     (disk w)).
    { intros found' pwd' Hb.
      destruct (rar_is_dir info) eqn:Hdir.
      - destruct (IH _ _ _ _ _ _ _ Hb) as (n & outs & Hn & Hbud & Hf & Hp & Hd).
        exists (S n), outs. cbn [firstn List.filter length]. rewrite Hdir.
        cbn [negb andb]. repeat split; try assumption; lia.
      - destruct (max_extracted_filesize self <? rar_file_size info)%N eqn:Hbig.
        + unfold bind at 1 in Hb. unfold set_status at 1, update at 1 in Hb.
          unfold bind at 1 in Hb. unfold add_details at 1, update at 1 in Hb.
          destruct (IH _ _ _ _ _ _ _ Hb) as (n & outs & Hn & Hbud & Hf & Hp & Hd).
          exists (S n), outs. cbn [firstn List.filter length]. rewrite Hdir.
          apply N.ltb_lt in Hbig.
          replace (rar_file_size info <=? max_extracted_filesize self)%N
            with false by (symmetry; apply N.leb_gt; exact Hbig).
          cbn [negb andb]. repeat split; try assumption; lia.
        + unfold bind at 1 in Hb. unfold lift at 1 in Hb.
          destruct (rar_extract archive pwd' info dest_dir) as [out|e] eqn:Hx;
            [|discriminate Hb].
          unfold bind at 1 in Hb. unfold write_file at 1, update at 1 in Hb.
          destruct (IH _ _ _ _ _ _ _ Hb) as (n & outs & Hn & Hbud & Hf & Hp & Hd).
          exists (S n), (out :: outs). cbn [firstn List.filter length].
          rewrite Hdir. apply N.ltb_ge in Hbig.
          replace (rar_file_size info <=? max_extracted_filesize self)%N
            with true by (symmetry; apply N.leb_le; exact Hbig).
          cbn [negb andb map fold_left].
          split; [lia|]. split; [lia|].
          split; [constructor; [exists pwd'; exact Hx|exact Hf]|].
          split; [rewrite Hp, <- app_assoc; reflexivity|exact Hd]. }
    destruct (needs_password info && negb found).
    + unfold bind at 1 in Hrun. unfold get at 1 in Hrun.
      unfold bind at 1 in Hrun. unfold lift at 1 in Hrun.
      destruct (rar_try_passwords R archive info (passwords w)) as [[p|]|e];
        [apply (Hbody true (Some p)); exact Hrun| |discriminate Hrun].
      cbn in Hrun. unfold ret in Hrun. eapply Hstop; [|exact Hrun].
      reflexivity.
    + apply (Hbody found pwd). exact Hrun.
Qed.

End RarLoop.

(** X20. Whenever the rar handler returns, it has gone through the first
    n entries of the archive, for some n that is at most max-files, and
    the returned paths are, in order, the extractions of those of these
    entries that are neither directories nor above the size ceiling, each
    written to disk: so at most max-files paths are returned and no entry
    whose declared size is above the ceiling is extracted. *)
Theorem X20_rar_within_limits
    (self : extractor.Extractor) (R : extractor.RarReader)
    (archive_file : file.File) (dest_dir : string)
    (archive : extractor.RarArchive)
    (w w' : extractor.World) (paths : list string) :
  extractor.RarFile R (file.path archive_file) = py.Ok archive ->
  extractor._extract_rar self R archive_file dest_dir w = (py.Ok paths, w') ->
  (extractor.len paths <= extractor.max_files_in_archive self)%N /\
  exists (n : nat) (outs : list (string * file.bytes)),
    (n <= length (extractor.rar_infolist archive))%nat /\
    (N.of_nat n <= extractor.max_files_in_archive self)%N /\
    Forall2 (fun i o =>
               extractor.rar_is_dir i = false /\
               (extractor.rar_file_size i
                <= extractor.max_extracted_filesize self)%N /\
               exists pw, extractor.rar_extract archive pw i dest_dir = py.Ok o)
            (List.filter
               (fun i => negb (extractor.rar_is_dir i)
                         && (extractor.rar_file_size i
                             <=? extractor.max_extracted_filesize self)%N)
               (firstn n (extractor.rar_infolist archive)))
            outs /\
    paths = map fst outs /\
    extractor.disk w'
    = fold_left (fun d o => <[fst o := snd o]> d) outs (extractor.disk w).
Proof.
  intros Hopen Hrun. unfold extractor._extract_rar in Hrun.
  unfold extractor.bind at 1 in Hrun. unfold extractor.lift at 1 in Hrun.
  rewrite Hopen in Hrun.
  destruct (rar_loop_inv self R archive dest_dir _ _ _ _ _ _ _ _ Hrun)
    as (n & outs & Hn & Hbud & Hf & Hp & Hd).
  cbn [app] in Hp. rewrite N.sub_0_r in Hbud.
  assert (Hlen : (extractor.len paths <= N.of_nat n)%N).
  { subst paths. unfold extractor.len. rewrite length_map.
    apply Forall2_length in Hf. rewrite <- Hf.
    pose proof (filter_length_le
                  (fun i => negb (extractor.rar_is_dir i)
                            && (extractor.rar_file_size i
                                <=? extractor.max_extracted_filesize self)%N)
                  (firstn n (extractor.rar_infolist archive))) as Hfl.
    rewrite length_firstn in Hfl. lia. }
  split; [lia|].
  exists n, outs. split; [exact Hn|]. split; [exact Hbud|].
  split; [|split; assumption].
  clear - Hf.
  remember (List.filter _ _) as kept eqn:Hk.
  assert (Hok : Forall (fun i => extractor.rar_is_dir i = false /\
                                 (extractor.rar_file_size i
                                  <= extractor.max_extracted_filesize self)%N)
                       kept).
  { subst kept. apply Forall_forall. intros i Hi. apply list_elem_of_In in Hi.
    apply filter_In in Hi. destruct Hi as [_ Hi].
    apply andb_true_iff in Hi. destruct Hi as [Hdir Hsz].
    apply negb_true_iff in Hdir. apply N.leb_le in Hsz. split; assumption. }
  clear Hk. induction Hf as [|i o kept outs Hio Hf IH]; [constructor|].
  inversion Hok; subst. constructor; [|apply IH; assumption].
  destruct H1 as [Hdir Hsz]. split; [exact Hdir|]. split; [exact Hsz|exact Hio].
Qed.

Lemma X20_rar_within_limits_witness :
  fst (extractor._extract_rar extractor_examples.cfg extra_examples.rar_reader
         extra_examples.rar_file extractor_examples.dest
         extractor_examples.world0)
  = py.Ok ["/srv/t1/extracted/a.txt"] /\
  (extractor.len ["/srv/t1/extracted/a.txt"]
   <= extractor.max_files_in_archive extractor_examples.cfg)%N.
Proof.
  split; [vm_compute; reflexivity|].
  refine (proj1 (X20_rar_within_limits extractor_examples.cfg
                   extra_examples.rar_reader extra_examples.rar_file
                   extractor_examples.dest extra_examples.a_rar
                   extractor_examples.world0 _ _ eq_refl _)).
  vm_compute. reflexivity.
Defined.
(* ===================================================================== *)
(** * The Observables worker *)
(* ===================================================================== *)

Section Observables.
Import helpers.

Lemma fold_set_status (statuses : list Status) :
  forall r : report.Report,
    report.status (fold_left (fun r s => report.set_status s r) statuses r)
    = default (report.status r) (last statuses) /\
    report.details (fold_left (fun r s => report.set_status s r) statuses r)
    = report.details r.
Proof.
  induction statuses as [|s rest IH]; intros r; [split; reflexivity|].
  cbn [fold_left]. destruct (IH (report.set_status s r)) as [Hs Hd].
  rewrite Hs, Hd, last_cons. cbn.
  destruct (last rest); split; reflexivity.
Qed.

End Observables.

(** X21. When the observables of a task are read without exception, the
    Observables worker leaves the report with the status of the last
    observable in the list, whatever the statuses of the ones before it
    (and with its own status when there is none), and adds the detail
    that an observable is known as bad exactly when that status is WARN
    or above.  When reading them raises [TooManyObservables] or any
    [Exception], the worker returns with the status WARN and one more
    detail; any other exception leaves the report untouched and
    propagates. *)
Theorem X21_observables_last_status_wins
    (is_TooManyObservables : py.exn -> bool)
    (found : py.res (list helpers.Status)) (r : report.Report) :
  (forall statuses : list helpers.Status,
      found = py.Ok statuses ->
      fst (observables.analyse is_TooManyObservables found r) = py.Ok tt /\
      report.status (snd (observables.analyse is_TooManyObservables found r))
      = default (report.status r) (last statuses) /\
      report.details (snd (observables.analyse is_TooManyObservables found r))
      = report.details r
          ++ (if helpers.leb helpers.WARN
                   (default (report.status r) (last statuses))
              then [("Warning", observables.known_as_bad)]
              else [])) /\
  (forall e : py.exn,
      found = py.Raise e ->
      (is_TooManyObservables e || py.is_Exception e = true ->
       fst (observables.analyse is_TooManyObservables found r) = py.Ok tt /\
       report.status (snd (observables.analyse is_TooManyObservables found r))
       = helpers.WARN /\
       exists msg : string,
         report.details
           (snd (observables.analyse is_TooManyObservables found r))
         = report.details r ++ [("suspicious", msg)]) /\
      (is_TooManyObservables e || py.is_Exception e = false ->
       observables.analyse is_TooManyObservables found r = (py.Raise e, r))).
Proof.
  split.
  - intros statuses ->. unfold observables.analyse.
    destruct (fold_set_status statuses r) as [Hs Hd].
    rewrite Hs.
    destruct (helpers.leb helpers.WARN
                (default (report.status r) (last statuses))) eqn:Hw.
    + cbn [fst snd]. split; [reflexivity|].
      split; [cbn; exact Hs|]. cbn. rewrite Hd. reflexivity.
    + cbn [fst snd]. split; [reflexivity|].
      split; [exact Hs|]. rewrite Hd, app_nil_r. reflexivity.
  - intros e ->. unfold observables.analyse.
    destruct (is_TooManyObservables e); cbn [orb].
    + split; [|intros H; discriminate H]. intros _.
      split; [reflexivity|]. split; [reflexivity|]. eexists. reflexivity.
    + destruct (py.is_Exception e).
      * split; [|intros H; discriminate H]. intros _.
        split; [reflexivity|]. split; [reflexivity|]. eexists. reflexivity.
      * split; [intros H; discriminate H|]. intros _. reflexivity.
Qed.

Lemma X21_observables_last_status_wins_witness :
  report.status
    (snd (observables.analyse (fun _ => false)
            (py.Ok [helpers.ALERT; helpers.CLEAN])
            extractor_examples.running_report))
  = helpers.CLEAN /\
  report.details
    (snd (observables.analyse (fun _ => false)
            (py.Ok [helpers.ALERT; helpers.CLEAN])
            extractor_examples.running_report))
  = [].
Proof.
  destruct (proj1 (X21_observables_last_status_wins (fun _ => false)
                     (py.Ok [helpers.ALERT; helpers.CLEAN])
                     extractor_examples.running_report)
              [helpers.ALERT; helpers.CLEAN] eq_refl) as (_ & Hs & Hd).
  split; [exact Hs|exact Hd].
Defined.

(* ===================================================================== *)
(** * The download view *)
(* ===================================================================== *)

(** X22. [api_task_download] answers with something other than the 404
    page only when the source is one of [img], [pdf], [txt], [zip], the
    task exists, the user's role allows the action that goes with the
    source, and the content asked for is there: previews (and a preview
    at the index given) for [img], a PDF file for [pdf], a non-empty text
    for [txt], a zip name for [zip]; the answer is then what [send_file]
    gives for that content.  In particular a role that does not allow the
    action of the source always gets the 404 page. *)
Theorem X22_download_needs_permission
    (Response : Type) (get_task : string -> option web.FileView)
    (can : web.Action -> bool) (send_file : web.target -> py.res Response)
    (task_id source : string) (idx : option nat) (response : Response) :
  web.api_task_download Response get_task can send_file task_id source idx
  = web.Page Response response ->
  exists (f : web.FileView) (action : web.Action) (what : web.target),
    get_task task_id = Some f /\
    In (source, action)
       [("img", web.download_images); ("pdf", web.download_pdf);
        ("txt", web.download_text); ("zip", web.download_zip)] /\
    can action = true /\
    send_file what = py.Ok response /\
    match action with
    | web.download_images =>
        web.previews f <> [] /\
        match idx with
        | Some i => exists preview,
                      nth_error (web.previews f) i = Some preview /\
                      what = web.Location (Some preview)
        | None => what = web.Location (web.previews_archive f)
        end
    | web.download_pdf =>
        web.is_pdf f = true /\ what = web.Location (Some (web.path f))
    | web.download_text =>
        web.text f <> EmptyString /\
        what = web.Content (web.data f) (web.mime_type f)
    | web.download_zip =>
        web.zip_name f <> None /\ what = web.Location (Some (web.zip_path f))
    end.
Proof.
  unfold web.api_task_download, web.api_task_download_view, web.html_answer.
  intros H.
  destruct (negb (existsb (String.eqb source) ["img"; "pdf"; "txt"; "zip"]));
    [discriminate H|].
  destruct (get_task task_id) as [f|]; [|discriminate H].
  exists f.
  destruct (String.eqb source "img" && can web.download_images) eqn:Himg.
  { apply andb_true_iff in Himg. destruct Himg as [Hs Hc].
    apply String.eqb_eq in Hs. subst source.
    destruct (web.previews f) as [|p ps] eqn:Hp; [discriminate H|].
    destruct idx as [i|].
    - destruct (nth_error (p :: ps) i) as [preview|] eqn:Hn; [|discriminate H].
      destruct (send_file (web.Location (Some preview))) as [resp|e] eqn:Hsend;
        [|discriminate H].
      inversion H; subst resp.
      exists web.download_images, (web.Location (Some preview)).
      split; [reflexivity|]. split; [left; reflexivity|].
      split; [exact Hc|]. split; [exact Hsend|].
      split; [discriminate|]. exists preview. split; reflexivity.
    - destruct (send_file (web.Location (web.previews_archive f)))
        as [resp|e] eqn:Hsend; [|discriminate H].
      inversion H; subst resp.
      exists web.download_images, (web.Location (web.previews_archive f)).
      split; [reflexivity|]. split; [left; reflexivity|].
      split; [exact Hc|]. split; [exact Hsend|].
      split; [discriminate|reflexivity]. }
  destruct (String.eqb source "pdf" && can web.download_pdf) eqn:Hpdf.
  { apply andb_true_iff in Hpdf. destruct Hpdf as [Hs Hc].
    apply String.eqb_eq in Hs. subst source.
    destruct (web.is_pdf f) eqn:Hp; [|discriminate H].
    destruct (send_file (web.Location (Some (web.path f)))) as [resp|e] eqn:Hsend;
      [|discriminate H].
    inversion H; subst resp.
    exists web.download_pdf, (web.Location (Some (web.path f))).
    split; [reflexivity|]. split; [right; left; reflexivity|].
    split; [exact Hc|]. split; [exact Hsend|]. split; reflexivity. }
  destruct (String.eqb source "txt" && can web.download_text) eqn:Htxt.
  { apply andb_true_iff in Htxt. destruct Htxt as [Hs Hc].
    apply String.eqb_eq in Hs. subst source.
    destruct (String.eqb (web.text f) EmptyString) eqn:Ht; [discriminate H|].
    destruct (send_file (web.Content (web.data f) (web.mime_type f)))
      as [resp|e] eqn:Hsend; [|discriminate H].
    inversion H; subst resp.
    exists web.download_text, (web.Content (web.data f) (web.mime_type f)).
    split; [reflexivity|]. split; [right; right; left; reflexivity|].
    split; [exact Hc|]. split; [exact Hsend|].
    split; [apply String.eqb_neq; exact Ht|reflexivity]. }
  destruct (String.eqb source "zip" && can web.download_zip) eqn:Hzip.
  { apply andb_true_iff in Hzip. destruct Hzip as [Hs Hc].
    apply String.eqb_eq in Hs. subst source.
    destruct (web.zip_name f) as [zn|] eqn:Hz; [|discriminate H].
    destruct (send_file (web.Location (Some (web.zip_path f)))) as [resp|e] eqn:Hsend;
      [|discriminate H].
    inversion H; subst resp.
    exists web.download_zip, (web.Location (Some (web.zip_path f))).
    split; [reflexivity|]. split; [right; right; right; left; reflexivity|].
    split; [exact Hc|]. split; [exact Hsend|].
    split; [discriminate|reflexivity]. }
  discriminate H.
Qed.

Lemma X22_download_needs_permission_witness :
  web.api_task_download string extra_examples.one_task extra_examples.pdf_only
    extra_examples.send_location "t1" "pdf" None
  = web.Page string "/srv/t1/report.pdf" /\
  exists (f : web.FileView) (action : web.Action),
    extra_examples.one_task "t1" = Some f /\
    In ("pdf", action)
       [("img", web.download_images); ("pdf", web.download_pdf);
        ("txt", web.download_text); ("zip", web.download_zip)] /\
    extra_examples.pdf_only action = true.
Proof.
  split; [reflexivity|].
  destruct (X22_download_needs_permission string extra_examples.one_task
              extra_examples.pdf_only extra_examples.send_location
              "t1" "pdf" None "/srv/t1/report.pdf" eq_refl)
    as (f & action & what & Hf & Hin & Hcan & _).
  exists f, action. split; [exact Hf|]. split; [exact Hin|exact Hcan].
Defined.
(* ===================================================================== *)
(** * The Extractor: how many children an archive can have *)
(* ===================================================================== *)

Section Count.
Import extractor.

Variable self : Extractor.
Variable dest_dir : string.

Lemma zip_loop_count (archive : ZipArchive) (total : N) (infos : list ZipInfo) :
  forall (file_number : N) (found : bool) (pwd : option string)
         (acc : list string) (w : World) (paths : list string) (w' : World),
    zip_loop self archive dest_dir total infos file_number found pwd acc w
    = (py.Ok paths, w') ->
    (len paths <= len acc + (max_files_in_archive self - file_number))%N.
Proof.
  induction infos as [|info rest IH];
    intros file_number found pwd acc w paths w' Hrun.
  - cbn in Hrun. unfold bind, get, set_status, update, ret in Hrun.
    destruct (helpers.eqb (report.status (report w)) helpers.RUNNING);
      inversion Hrun; subst; lia.
  - cbn [zip_loop] in Hrun.
    destruct (max_files_in_archive self <=? file_number)%N eqn:Hfull.
    { cbn in Hrun. inversion Hrun; subst. lia. }
    apply N.leb_gt in Hfull.
    assert (Hbody : forall (found' : bool) (pwd' : option string),
               (if is_dir info
                then zip_loop self archive dest_dir total rest (file_number + 1)
                              found' pwd' acc
                else if (max_extracted_filesize self <? file_size info)%N
                then bind (set_status (overflow_status self))
                       (fun _ =>
                          bind (add_details "Warning" (skipping_zip info))
                            (fun _ =>
                               zip_loop self archive dest_dir total rest
                                        (file_number + 1) found' pwd' acc))
                else bind (lift (extract archive pwd' info dest_dir))
                       (fun out =>
                          bind (write_file (fst out) (snd out))
                            (fun _ =>
                               zip_loop self archive dest_dir total rest
                                        (file_number + 1) found' pwd'
                                        (acc ++ [fst out])))) w
               = (py.Ok paths, w') ->
               (len paths
                <= len acc + (max_files_in_archive self - file_number))%N).
    { intros found' pwd' Hb.
      destruct (is_dir info).
      - specialize (IH _ _ _ _ _ _ _ Hb). lia.
      - destruct (max_extracted_filesize self <? file_size info)%N.
        + unfold bind at 1 in Hb. unfold set_status at 1, update at 1 in Hb.
          unfold bind at 1 in Hb. unfold add_details at 1, update at 1 in Hb.
          specialize (IH _ _ _ _ _ _ _ Hb). lia.
        + unfold bind at 1 in Hb. unfold lift at 1 in Hb.
          destruct (extract archive pwd' info dest_dir) as [out|e];
            [|discriminate Hb].
          unfold bind at 1 in Hb. unfold write_file at 1, update at 1 in Hb.
          specialize (IH _ _ _ _ _ _ _ Hb).
          unfold len in *. rewrite length_app in IH. cbn [length] in IH. lia. }
    destruct (negb (Z.land (flag_bits info) 1 =? 0)%Z && negb found).
    + unfold bind at 1 in Hrun. unfold get at 1 in Hrun.
      unfold bind at 1 in Hrun. unfold lift at 1 in Hrun.
      destruct (try_passwords archive info (passwords w)) as [[p|]|e];
        [apply (Hbody true (Some p)); exact Hrun| |discriminate Hrun].
      cbn in Hrun. inversion Hrun; subst. lia.
    + apply (Hbody found pwd). exact Hrun.
Qed.

Lemma tar_loop_count (archive_file : file.File) (tar : TarArchive)
    (members : list TarInfo) :
  forall (file_number : N) (acc : list string) (w : World)
         (paths : list string) (w' : World),
    tar_loop self archive_file tar dest_dir members file_number acc w
    = (py.Ok paths, w') ->
    (len paths <= len acc + (max_files_in_archive self - file_number))%N.
Proof.
  induction members as [|m rest IH]; intros file_number acc w paths w' Hrun.
  - cbn in Hrun. inversion Hrun; subst. lia.
  - cbn [tar_loop] in Hrun.
    destruct (max_files_in_archive self <=? file_number)%N eqn:Hfull.
    { cbn in Hrun. inversion Hrun; subst. lia. }
    apply N.leb_gt in Hfull.
    destruct (negb (isfile m)).
    { specialize (IH _ _ _ _ _ Hrun). lia. }
    destruct (max_extracted_filesize self <=? tar_size m)%N.
    + unfold bind at 1 in Hrun. unfold set_status at 1, update at 1 in Hrun.
      unfold bind at 1 in Hrun. unfold add_details at 1, update at 1 in Hrun.
      specialize (IH _ _ _ _ _ Hrun). lia.
    + unfold bind at 1 in Hrun. unfold lift at 1 in Hrun.
      destruct (tar_extract tar m dest_dir) as [written|e]; [|discriminate Hrun].
      unfold bind at 1 in Hrun.
      destruct written as [content|].
      * unfold write_file at 1, update at 1 in Hrun.
        specialize (IH _ _ _ _ _ Hrun).
        unfold len in *. rewrite length_app in IH. cbn [length] in IH. lia.
      * unfold ret at 1 in Hrun.
        specialize (IH _ _ _ _ _ Hrun).
        unfold len in *. rewrite length_app in IH. cbn [length] in IH. lia.
Qed.

Lemma stream_handler_count (opener : file.Path -> py.res Stream)
    (sfx : string) (archive_file : file.File) (w : World)
    (paths : list string) (w' : World) :
  bind (lift (opener (file.path archive_file)))
    (fun stream =>
       bind (lift (stream_read stream (max_extracted_filesize self + 1)%N))
         (fun content =>
            if (max_extracted_filesize self <? len content)%N
            then bind (set_status (overflow_status self))
                   (fun _ =>
                      bind (add_details "Warning"
                              (too_big archive_file (len content)))
                        (fun _ => ret []))
            else bind (write_file
                         (if String.eqb (file.suffix (file.path archive_file)) sfx
                          then file.joinpath dest_dir
                                 (file.stem (file.path archive_file))
                          else file.joinpath dest_dir
                                 (file.name (file.path archive_file)))
                         content)
                   (fun _ =>
                      ret [if String.eqb (file.suffix (file.path archive_file)) sfx
                           then file.joinpath dest_dir
                                  (file.stem (file.path archive_file))
                           else file.joinpath dest_dir
                                  (file.name (file.path archive_file))]))) w
  = (py.Ok paths, w') ->
  (len paths <= 1)%N.
Proof.
  unfold bind, lift. intros H.
  destruct (opener (file.path archive_file)) as [stream|e]; [|discriminate H].
  destruct (stream_read stream _) as [content|e]; [|discriminate H].
  destruct (max_extracted_filesize self <? len content)%N;
    cbn in H; inversion H; subst; unfold len; cbn; lia.
Qed.

End Count.

(** X24. For any MIME type but 7z, with the rar and ISO handlers above,
    the handler that [analyse] dispatches to returns at most max-files
    plus one paths; at most max-files for a zip, tar or rar archive and at
    most one for a bzip2, gzip or lzma stream, so that only an ISO image
    can give max-files plus one. *)
Theorem X24_extracted_paths_bounded
    (h7z : extractor.Extractor -> extractor.handler)
    (self : extractor.Extractor) (P : extractor.Platform)
    (RR : extractor.RarReader) (IR : extractor.IsoReader)
    (f : file.File) (dest : string) (w0 w1 : extractor.World)
    (paths : list string) :
  file.mime_type f <> "application/x-7z-compressed" ->
  extractor.dispatch h7z (fun s => extractor._extract_rar s RR)
    (fun s => extractor._extract_iso s IR) self P f dest w0
  = (py.Ok paths, w1) ->
  (extractor.len paths <= extractor.max_files_in_archive self + 1)%N /\
  (In (file.mime_type f)
      ["application/zip"; "application/x-tar"; "application/x-rar"] ->
   (extractor.len paths <= extractor.max_files_in_archive self)%N) /\
  (In (file.mime_type f)
      ["application/x-bzip2"; "application/gzip"; "application/x-lzma";
       "application/x-xz"; "application/x-lzip"] ->
   (extractor.len paths <= 1)%N).
Proof.
  intros H7z Hd.
  unfold extractor.dispatch in Hd.
  apply String.eqb_neq in H7z. rewrite H7z in Hd.
  set (mime := file.mime_type f) in *.
  assert (Hcases :
            forall (l : list string) (bound : N),
              (extractor.len paths <= bound)%N ->
              (bound <= extractor.max_files_in_archive self + 1)%N ->
              (In mime ["application/zip"; "application/x-tar";
                        "application/x-rar"] ->
               (bound <= extractor.max_files_in_archive self)%N) ->
              (In mime ["application/x-bzip2"; "application/gzip";
                        "application/x-lzma"; "application/x-xz";
                        "application/x-lzip"] -> (bound <= 1)%N) ->
              (extractor.len paths
               <= extractor.max_files_in_archive self + 1)%N /\
              (In mime ["application/zip"; "application/x-tar";
                        "application/x-rar"] ->
               (extractor.len paths
                <= extractor.max_files_in_archive self)%N) /\
              (In mime ["application/x-bzip2"; "application/gzip";
                        "application/x-lzma"; "application/x-xz";
                        "application/x-lzip"] ->
               (extractor.len paths <= 1)%N)).
  { intros _ bound Hb Hmax Hz Hs.
    split; [lia|]. split; intros Hin; [specialize (Hz Hin)|specialize (Hs Hin)];
      lia. }
  destruct (String.eqb mime "application/x-rar") eqn:Erar.
  { apply String.eqb_eq in Erar.
    unfold extractor._extract_rar in Hd.
    unfold extractor.bind at 1 in Hd. unfold extractor.lift at 1 in Hd.
    destruct (extractor.RarFile RR _) as [archive|e]; [|discriminate Hd].
    destruct (rar_loop_inv self RR archive dest _ _ _ _ _ _ _ _ Hd)
      as (n & outs & Hn & Hbud & Hf & Hp & _).
    apply (Hcases [] (extractor.max_files_in_archive self)).
    - subst paths. cbn [app]. unfold extractor.len. rewrite length_map.
      apply Forall2_length in Hf. rewrite <- Hf.
      pose proof (filter_length_le
                    (fun i => negb (extractor.rar_is_dir i)
                              && (extractor.rar_file_size i
                                  <=? extractor.max_extracted_filesize self)%N)
                    (firstn n (extractor.rar_infolist archive))) as Hfl.
      rewrite length_firstn in Hfl. lia.
    - lia.
    - intros _. lia.
    - rewrite Erar. cbn. intros H.
      repeat (destruct H as [H|H]; [discriminate H|]). contradiction. }
  destruct (String.eqb mime "application/x-bzip2") eqn:Ebz.
  { apply String.eqb_eq in Ebz.
    apply (Hcases [] 1%N).
    - exact (stream_handler_count self dest _ ".bz2" _ _ _ _ Hd).
    - lia.
    - rewrite Ebz. cbn. intros H.
      repeat (destruct H as [H|H]; [discriminate H|]). contradiction.
    - intros _. lia. }
  destruct (String.eqb mime "application/gzip") eqn:Egz.
  { apply String.eqb_eq in Egz.
    apply (Hcases [] 1%N).
    - exact (stream_handler_count self dest _ ".gz" _ _ _ _ Hd).
    - lia.
    - rewrite Egz. cbn. intros H.
      repeat (destruct H as [H|H]; [discriminate H|]). contradiction.
    - intros _. lia. }
  destruct (String.eqb mime "application/x-tar") eqn:Etar.
  { apply String.eqb_eq in Etar.
    unfold extractor._extract_tar in Hd.
    unfold extractor.bind at 1 in Hd. unfold extractor.lift at 1 in Hd.
    destruct (extractor.TarFile P _) as [tar|e]; [|discriminate Hd].
    unfold extractor.bind at 1 in Hd. unfold extractor.lift at 1 in Hd.
    destruct (extractor.getmembers tar) as [members|e]; [|discriminate Hd].
    pose proof (tar_loop_count self dest _ tar members _ _ _ _ _ Hd) as Hc.
    apply (Hcases [] (extractor.max_files_in_archive self)).
    - unfold extractor.len in *. cbn [length] in Hc. lia.
    - lia.
    - intros _. lia.
    - rewrite Etar. cbn. intros H.
      repeat (destruct H as [H|H]; [discriminate H|]). contradiction. }
  destruct (existsb (String.eqb mime)
              ["application/x-lzma"; "application/x-xz"; "application/x-lzip"])
    eqn:Elz.
  { apply existsb_exists in Elz. destruct Elz as [x [Hx Ex]].
    apply String.eqb_eq in Ex. subst x.
    apply (Hcases [] 1%N).
    - exact (stream_handler_count self dest _ ".lzma" _ _ _ _ Hd).
    - lia.
    - cbn in Hx. intros H.
      destruct Hx as [Hx|[Hx|[Hx|[]]]]; rewrite <- Hx in H; cbn in H;
        repeat (destruct H as [H|H]; [discriminate H|]); contradiction.
    - intros _. lia. }
  destruct (String.eqb mime "application/x-iso9660-image") eqn:Eiso.
  { apply String.eqb_eq in Eiso.
    unfold extractor._extract_iso in Hd.
    unfold extractor.bind at 1 in Hd. unfold extractor.lift at 1 in Hd.
    assert (Hb : (extractor.len paths
                  <= extractor.max_files_in_archive self + 1)%N).
    { destruct (extractor.data IR f) as [[content|]|e];
        [| |discriminate Hd].
      - unfold extractor.bind at 1 in Hd. unfold extractor.lift at 1 in Hd.
        destruct (extractor.open_fp IR content) as [image|e];
          [|discriminate Hd].
        unfold extractor.bind at 1 in Hd.
        destruct (extractor.iso_dirs self image f dest
                    (extractor.walk image) [] w0) as [[acc|e] w2] eqn:Hdirs;
          [|discriminate Hd].
        destruct (iso_dirs_bound self image f dest _ _ _ _ _ Hdirs)
          as [Hl _]; [unfold extractor.len; cbn; lia|constructor|].
        destruct (extractor.max_files_in_archive self <? extractor.len acc)%N;
          cbn in Hd; inversion Hd; subst; exact Hl.
      - cbn in Hd. inversion Hd; subst. unfold extractor.len. cbn. lia. }
    apply (Hcases [] (extractor.max_files_in_archive self + 1)%N).
    - exact Hb.
    - lia.
    - rewrite Eiso. cbn. intros H.
      repeat (destruct H as [H|H]; [discriminate H|]). contradiction.
    - rewrite Eiso. cbn. intros H.
      repeat (destruct H as [H|H]; [discriminate H|]). contradiction. }
  destruct (String.eqb mime "application/zip") eqn:Ezip; [|discriminate Hd].
  apply String.eqb_eq in Ezip.
  assert (Hzip : forall (reader : file.Path -> py.res extractor.ZipArchive)
                        (w w' : extractor.World) (l : list string),
             extractor._extract_zip self reader f dest w
             = (py.Ok l, w') ->
             (extractor.len l <= extractor.max_files_in_archive self)%N).
  { intros reader w w' l Hz. unfold extractor._extract_zip in Hz.
    unfold extractor.bind at 1 in Hz. unfold extractor.lift at 1 in Hz.
    destruct (reader _) as [archive|e]; [|discriminate Hz].
    pose proof (zip_loop_count self dest archive _ _ _ _ _ _ _ _ _ Hz) as Hc.
    unfold extractor.len in *. cbn [length] in Hc. lia. }
  apply (Hcases [] (extractor.max_files_in_archive self)).
  + unfold extractor.bind at 1 in Hd.
    destruct (extractor._extract_zip self (extractor.ZipFile P) f
                dest w0) as [[first|e] w2] eqn:Hfirst; [|discriminate Hd].
    destruct first as [|p ps].
    * unfold extractor.bind at 1 in Hd.
      unfold extractor.clear_extras at 1, extractor.update at 1 in Hd.
      unfold extractor.bind at 1 in Hd.
      unfold extractor.clear_details at 1, extractor.update at 1 in Hd.
      exact (Hzip _ _ _ _ Hd).
    * inversion Hd; subst. exact (Hzip _ _ _ _ Hfirst).
  + lia.
  + intros _. lia.
  + rewrite Ezip. cbn. intros H.
    repeat (destruct H as [H|H]; [discriminate H|]). contradiction.
Qed.

Lemma X24_extracted_paths_bounded_witness :
  extractor.max_files_in_archive extractor_examples.cfg = 2%N /\
  (extractor.len extra_examples.iso_paths
   <= extractor.max_files_in_archive extractor_examples.cfg + 1)%N /\
  length extra_examples.iso_paths = 3%nat.
Proof.
  split; [reflexivity|].
  split; [|vm_compute; reflexivity].
  refine (proj1 (X24_extracted_paths_bounded extractor_examples.no_handler
                   extractor_examples.cfg extractor_examples.bare
                   extra_examples.rar_reader extra_examples.iso_reader
                   extra_examples.iso_as_zip extractor_examples.dest
                   extractor_examples.world0
                   (snd (extra_examples.dispatch_iso))
                   extra_examples.iso_paths _ _)).
  - intros H. discriminate H.
  - vm_compute. reflexivity.
Defined.
